(** * product_import: catalogue reconciliation and chunked dispatch

    A shallow embedding of [product_import/wizard/product_import.py]
    (model [product.import]) and the properties of its chunk scheduler,
    offer reconciler, product matcher and import orchestrator. *)

From Stdlib Require Import List ZArith QArith Lia String Ascii Bool Arith.
From Stdlib Require Import DecimalString.
Import ListNotations.

Local Open Scope string_scope.
Local Open Scope list_scope.
Local Open Scope Z_scope.

(* ================================================================== *)
(** * [itertools.zip_longest] over aliased iterators *)
(* ================================================================== *)

(** [import_button] builds [[iter(products)] * chunk_size]: one list
    iterator, referenced from every argument position of [zip_longest].
    The state below is the one of CPython's [zip_longest] object for that
    call: the items the shared iterator has still to yield, for each
    position whether it still holds the iterator ([true]) or has been
    switched to the fill value ([false]), and the [numactive] counter. *)
Module Itertools.
Section ZipLongest.
Context {A : Type}.

Definition round_result : Type :=
  (list (option A) * list bool * list A * nat)%type.

(** One pass of the inner [for i, iterator in enumerate(iterators)]
    loop.  [None] is the [return] taken when the last active iterator
    raises [StopIteration]; the values gathered so far are dropped. *)
Fixpoint zl_round (its : list bool) (shared : list A) (numactive : nat)
  : option round_result :=
  match its with
  | [] => Some ([], [], shared, numactive)
  | false :: its' =>
      match zl_round its' shared numactive with
      | Some (vs, its'', sh, na) => Some (None :: vs, false :: its'', sh, na)
      | None => None
      end
  | true :: its' =>
      match shared with
      | x :: sh =>
          match zl_round its' sh numactive with
          | Some (vs, its'', sh', na) =>
              Some (Some x :: vs, true :: its'', sh', na)
          | None => None
          end
      | [] =>
          let na := Nat.pred numactive in
          if Nat.eqb na 0 then None
          else match zl_round its' [] na with
               | Some (vs, its'', sh', na') =>
                   Some (None :: vs, false :: its'', sh', na')
               | None => None
               end
      end
  end.

(** The outer [while True] loop; every pass yields one tuple.  The
    outer [None] is reserved for an exhausted [fuel]. *)
Fixpoint zl_loop (fuel : nat) (its : list bool) (shared : list A)
         (numactive : nat) : option (list (list (option A))) :=
  match fuel with
  | O => None
  | S fuel' =>
      match zl_round its shared numactive with
      | None => Some []
      | Some (vs, its', sh', na') =>
          match zl_loop fuel' its' sh' na' with
          | Some rest => Some (vs :: rest)
          | None => None
          end
      end
  end.

(** [zip_longest] applied to the [n] aliases [[iter(l)] * n], collected
    into a list; a list repeated a non-positive number of times is
    empty, and [zip_longest] without arguments yields nothing. *)
Definition zip_longest_shared (n : Z) (l : list A)
  : option (list (list (option A))) :=
  let k := Z.to_nat n in
  if Nat.eqb k 0 then Some []
  else zl_loop (S (S (List.length l))) (repeat true k) l k.

End ZipLongest.
End Itertools.

(* ================================================================== *)
(** * Chunking as done by [import_button] *)
(* ================================================================== *)

Section Chunking.
Context {A : Type}.
(** Python truth value of a list element (the test [if product]). *)
Variable truthy : A -> bool.

(** [products[-1] is None] *)
Definition last_is_None (products : list (option A)) : bool :=
  match rev products with
  | None :: _ => true
  | _ => false
  end.

(** [[product for product in products if product]] *)
Definition keep_truthy (products : list (option A)) : list (option A) :=
  filter (fun slot => match slot with
                      | Some p => truthy p
                      | None => false
                      end) products.

(** Body of the [for products in zip_longest(...)] loop, up to the
    dispatch: the argument handed to [_create_update_products]. *)
Definition chunk_payload (products : list (option A)) : list (option A) :=
  if last_is_None products then keep_truthy products else products.

(** The payloads in dispatch order. *)
Definition dispatched_chunks (chunk_size : Z) (products : list A)
  : option (list (list (option A))) :=
  match Itertools.zip_longest_shared chunk_size products with
  | Some tuples => Some (map chunk_payload tuples)
  | None => None
  end.

(** Reference partition, following the words of the specification:
    groups of exactly [n], the last one possibly shorter. *)
Fixpoint partition_fuel (fuel n : nat) (l : list A) : list (list A) :=
  match fuel with
  | O => []
  | S fuel' =>
      match l with
      | [] => []
      | _ :: _ => firstn n l :: partition_fuel fuel' n (skipn n l)
      end
  end.

Definition partition (n : nat) (l : list A) : list (list A) :=
  partition_fuel (List.length l) n l.

End Chunking.

(** A tuple of [zip_longest]: the group, padded to [k] with [None]. *)
Definition padded {A : Type} (k : nat) (c : list A) : list (option A) :=
  map Some c ++ repeat None (k - List.length c).

(* ================================================================== *)
(** * Python and ORM values *)
(* ================================================================== *)

(** Values found in the dicts handed over by the catalogue parser and in
    the data fields of records.  A finite float is the rational it
    denotes, so that [==] on numbers is equality of rationals. *)
Inductive pyval : Type :=
| PNone
| PBool (b : bool)
| PInt (n : Z)
| PFloat (q : Q)
| PStr (s : string).

(** Truth value of an object ([if x], [not x]). *)
Definition truthy (v : pyval) : bool :=
  match v with
  | PNone => false
  | PBool b => b
  | PInt n => negb (n =? 0)
  | PFloat q => negb (Qeq_bool q 0)
  | PStr s => negb (String.eqb s "")
  end.

Definition num_of (v : pyval) : option Q :=
  match v with
  | PBool b => Some (if b then 1%Q else 0%Q)
  | PInt n => Some (inject_Z n)
  | PFloat q => Some q
  | PNone | PStr _ => None
  end.

(** [a == b]: numbers (booleans included) compare by value, strings by
    content, [None] equals only itself. *)
Definition py_eq (a b : pyval) : bool :=
  match num_of a, num_of b with
  | Some x, Some y => Qeq_bool x y
  | None, None =>
      match a, b with
      | PNone, PNone => true
      | PStr s, PStr t => String.eqb s t
      | _, _ => false
      end
  | _, _ => false
  end.

(** Database ids are positive; [record.id] of an empty recordset and an
    unset many2one are [False], here [None]. *)
Definition oid : Type := option positive.

Definition oid_eqb (a b : oid) : bool :=
  match a, b with
  | Some x, Some y => Pos.eqb x y
  | None, None => true
  | _, _ => false
  end.

(** A [datetime.date], by its proleptic ordinal; subtracting
    [timedelta(days=1)] is subtracting one. *)
Definition date : Type := Z.

(** A [product.supplierinfo] record, as far as the reconciler reads it
    ([s_info] in the source). *)
Record supplierinfo : Type := {
  s_id : positive;
  s_name : oid;                (* s_info.name.id *)
  s_company_id : oid;          (* s_info.company_id.id *)
  s_date_end : option date;    (* False or a date *)
  s_product_code : pyval;
  s_min_qty : pyval;
  s_price : pyval;
  s_currency_id : oid;         (* s_info.currency_id.id *)
  s_delay : pyval
}.

(** The [seller_info] dict built by [_prepare_product]; [si_date_start]
    is [None] while the dict has no ["date_start"] key. *)
Record seller_info_dict : Type := {
  si_name : oid;
  si_product_code : pyval;
  si_price : pyval;
  si_currency_id : oid;
  si_min_qty : pyval;
  si_company_id : oid;
  si_delay : pyval;
  si_date_start : option date
}.

(** The third component of a one2many command: either the dict
    [{"date_end": d}] or a [seller_info] dict. *)
Inductive values_dict : Type :=
| DateEndVals (date_end : date)
| SellerInfoVals (vals : seller_info_dict).

(** A command is the plain triple [(command, line_id, values)]; the tag
    and the line id are integers, as in the source. *)
Definition command_tuple : Type := (Z * Z * values_dict)%type.

(** A [product.product] record, as far as the import reads it. *)
Record product_rec : Type := {
  pr_id : positive;
  pr_active : bool;
  pr_barcode : pyval;
  pr_default_code : pyval;
  seller_ids : list supplierinfo
}.

(* ================================================================== *)
(** * The offer reconciler: [_prepare_supplierinfo] *)
(* ================================================================== *)

(** [seller_info.setdefault("date_start", today)] *)
Definition setdefault_date_start (seller_info : seller_info_dict) (today : date)
  : seller_info_dict :=
  match si_date_start seller_info with
  | Some _ => seller_info
  | None =>
      {| si_name := si_name seller_info;
         si_product_code := si_product_code seller_info;
         si_price := si_price seller_info;
         si_currency_id := si_currency_id seller_info;
         si_min_qty := si_min_qty seller_info;
         si_company_id := si_company_id seller_info;
         si_delay := si_delay seller_info;
         si_date_start := Some today |}
  end.

(** The three guards that [continue] the loop. *)
Definition other_seller (seller_info : seller_info_dict) (s_info : supplierinfo)
  : bool :=
  negb (oid_eqb (s_name s_info) (si_name seller_info)).

Definition other_company (seller_info : seller_info_dict) (s_info : supplierinfo)
  : bool :=
  negb (oid_eqb (s_company_id s_info) (si_company_id seller_info)
        || oid_eqb (s_company_id s_info) None).

Definition ended_before (today : date) (s_info : supplierinfo) : bool :=
  match s_date_end s_info with
  | Some d => d <? today
  | None => false
  end.

(** The six-field comparison of the loop body. *)
Definition identical (seller_info : seller_info_dict) (s_info : supplierinfo)
  : bool :=
  py_eq (s_product_code s_info) (si_product_code seller_info)
  && py_eq (s_min_qty s_info) (si_min_qty seller_info)
  && py_eq (s_price s_info) (si_price seller_info)
  && oid_eqb (s_currency_id s_info) (si_currency_id seller_info)
  && oid_eqb (s_company_id s_info) (si_company_id seller_info)
  && py_eq (s_delay s_info) (si_delay seller_info).

(** The loop [for s_info in product.seller_ids], with its two mutable
    locals [seller_id] and [result]. *)
Fixpoint terminate_previous (today : date) (seller_info : seller_info_dict)
         (s_infos : list supplierinfo) (seller_id : oid)
         (result : list command_tuple) : oid * list command_tuple :=
  match s_infos with
  | [] => (seller_id, result)
  | s_info :: rest =>
      if other_seller seller_info s_info then
        terminate_previous today seller_info rest seller_id result
      else if other_company seller_info s_info then
        terminate_previous today seller_info rest seller_id result
      else if ended_before today s_info then
        terminate_previous today seller_info rest seller_id result
      else if identical seller_info s_info then
        terminate_previous today seller_info rest (Some (s_id s_info)) result
      else
        let yesterday := today - 1 in
        terminate_previous today seller_info rest seller_id
          (result ++ [(1, Z.pos (s_id s_info), DateEndVals yesterday)])
  end.

(** [_prepare_supplierinfo(seller_info, product)], run on the day
    [today]; [product] is a recordset of at most one record. *)
Definition _prepare_supplierinfo (today : date) (seller_info : seller_info_dict)
           (product : option product_rec) : list command_tuple :=
  let '(seller_id, result) :=
    match product with
    | Some p => terminate_previous today seller_info (seller_ids p) None []
    | None => (None, [])
    end in
  match seller_id with
  | None =>
      result ++ [(0, 0, SellerInfoVals (setdefault_date_start seller_info today))]
  | Some _ => result
  end.

(** ** The scope of the reconciliation, for the statements *)

(** The offer belongs to the candidate's seller. *)
Definition same_seller (seller_info : seller_info_dict) (s_info : supplierinfo)
  : Prop :=
  s_name s_info = si_name seller_info.

(** The offer's company is the candidate's, or unset. *)
Definition company_in_scope (seller_info : seller_info_dict)
           (s_info : supplierinfo) : Prop :=
  s_company_id s_info = si_company_id seller_info \/ s_company_id s_info = None.

(** The offer has no end date, or one of [today] or later. *)
Definition not_ended_before (today : date) (s_info : supplierinfo) : Prop :=
  match s_date_end s_info with
  | Some d => today <= d
  | None => True
  end.

(** An offer the loop body reaches. *)
Definition considered (today : date) (seller_info : seller_info_dict)
           (s_info : supplierinfo) : bool :=
  negb (other_seller seller_info s_info)
  && negb (other_company seller_info s_info)
  && negb (ended_before today s_info).

(** [product.seller_ids]; an empty recordset has no offers. *)
Definition existing_offers (product : option product_rec)
  : list supplierinfo :=
  match product with
  | Some p => seller_ids p
  | None => []
  end.

(** Offers reached by the loop and different from the candidate. *)
Definition conflicting (today : date) (seller_info : seller_info_dict)
           (s_info : supplierinfo) : bool :=
  considered today seller_info s_info && negb (identical seller_info s_info).

(** Offers reached by the loop and equal to the candidate. *)
Definition kept (today : date) (seller_info : seller_info_dict)
           (s_info : supplierinfo) : bool :=
  considered today seller_info s_info && identical seller_info s_info.

(** The two commands the reconciler issues. *)
Definition termination (today : date) (s_info : supplierinfo) : command_tuple :=
  (1, Z.pos (s_id s_info), DateEndVals (today - 1)).

Definition creation (today : date) (seller_info : seller_info_dict)
  : command_tuple :=
  (0, 0, SellerInfoVals (setdefault_date_start seller_info today)).

(* ================================================================== *)
(** * Catalogue data *)
(* ================================================================== *)

(** A reference dict handed to a matcher ([catalogue["seller"]],
    [parsed_product["uom"]], ...); it is falsy when empty. *)
Definition ref_dict : Type := list (string * string).

(** One entry of [catalogue["products"]].  The keys the source reads by
    subscript are fields; the two it reads with [.get] are optional. *)
Record ParsedProductLine : Type := {
  pp_barcode : pyval;
  pp_code : pyval;
  pp_name : pyval;
  pp_description : pyval;
  pp_uom : ref_dict;
  pp_currency : ref_dict;
  pp_price : pyval;
  pp_min_qty : pyval;
  pp_product_code : pyval;
  pp_sale_delay : option pyval;
  pp_active : option pyval
}.

(** A parsed line is a dict that holds at least its mandatory keys: it
    is never empty, hence always truthy. *)
Definition line_truthy (parsed_product : ParsedProductLine) : bool := true.

(** The catalogue dict; optional keys are [None] when absent. *)
Record catalogue_dict : Type := {
  cat_products : option (list ParsedProductLine);
  cat_seller : ref_dict;
  cat_company : option ref_dict;
  cat_chatter_msg : option (list string);
  cat_attachments : option (list (string * string))
}.

(** What [parse_xml_catalogue] may return: a document type or [None] in
    detection mode, the catalogue otherwise. *)
Inductive parsed : Type :=
| ParsedNone
| ParsedDocType (doc_type : string)
| ParsedCatalogue (catalogue : catalogue_dict).

(** A [res.partner] record. *)
Record partner : Type := {
  partner_id : positive;
  partner_name : string
}.

(** The [product_vals] dict; a key that [pop] can remove is optional. *)
Record product_vals_dict : Type := {
  pv_active : option pyval;
  pv_default_code : pyval;
  pv_barcode : pyval;
  pv_name : pyval;
  pv_description : pyval;
  pv_type : string;
  pv_uom_id : oid;
  pv_uom_po_id : oid;
  pv_company_id : oid;
  pv_seller_ids : option (list command_tuple);
  pv_recordset : option product_rec
}.

(** The wizard record: [product_file] is base64 text or [False]; an unset
    [product_filename] is the empty string. *)
Record wizard : Type := {
  product_file : option string;
  product_filename : string
}.

(** The onchange warning [{"title": ..., "message": ...}]. *)
Record warning : Type := {
  title : string;
  message : string
}.

(** A leaf of a search domain. *)
Definition domain : Type := list (string * string * pyval).

(* ================================================================== *)
(** * Exceptions, effects and the environment *)
(* ================================================================== *)

Inductive exn : Type :=
| UserError (msg : string)
| NotImplementedError (msg : string)
| RuntimeError (msg : string)
| AssertionError (msg : string)
| TypeError (msg : string)
| AttributeError (msg : string)
| KeyError (key : string)
| OtherError (msg : string).

Inductive result (A : Type) : Type :=
| Ok (a : A)
| Raise (e : exn).
Arguments Ok {A} a.
Arguments Raise {A} e.

(** Calls that leave the wizard: writes through the ORM, jobs handed to
    the queue, the audit record of the imported document
    ([post_create_or_update]) and partner resolution ([_match_partner]). *)
Inductive event : Type :=
| OfferWrite (line_id : Z) (values : values_dict)
| OfferCreate (values : values_dict) (product_id : positive)
| ProductWrite (product : positive) (vals : product_vals_dict)
| ProductCreate (vals : product_vals_dict)
| ProductFlush (product : positive)
| ProductArchive (product : positive)
| JobEnqueued (product_company_id : oid)
              (products : list (option ParsedProductLine)) (seller_id : positive)
| DocumentRecorded (catalogue : catalogue_dict) (chatter_msg : list string)
                   (seller : option partner) (doc_filename : string)
| PartnerMatched (partner_dict : ref_dict) (partner_type : string).

(** The base [parse_xml_catalogue] of the source: no format is
    supported until a module overrides the method. *)
Definition parse_xml_catalogue {X : Type} (xml_root : option X)
           (detect_doc_type : bool) : result parsed :=
  Raise (NotImplementedError
           "This file is not supported. Did you install the module to support this XML format?").

(** The collaborators of the wizard: the XML library, the format parser
    that [self.parse_xml_catalogue] dispatches to, the reference
    resolver [business.document.import], the ORM and the clock.  An
    optional argument that a call site leaves out is [None]. *)
Class Env : Type := {
  xml : Type;
  etree_fromstring : list Byte.byte -> option xml;
  self_parse_xml_catalogue : option xml -> bool -> result parsed;
  b64decode : string -> result (list Byte.byte);
  b64encode : list Byte.byte -> string;
  _match_partner :
    ref_dict -> list string -> string -> option domain -> option bool ->
    list string * result (option partner);
  _match_uom : ref_dict -> list string -> list string * result oid;
  _match_currency : ref_dict -> list string -> list string * result oid;
  res_company_search : positive -> oid;
  Store : Type;
  product_table : Store -> list product_rec;
  orm_exec : event -> Store -> Store;
  orm_created : Store -> product_vals_dict -> product_rec;
  repr_line : ParsedProductLine -> string;
  date_today : date
}.

Section Model.
Context {env : Env}.

(** The state a method runs in: the database, the message list that
    [chatter_msg] refers to, and the calls made so far. *)
Record world : Type := {
  w_db : Store;
  w_chatter : list string;
  w_events : list event
}.

Definition upd_chatter (w : world) (msgs : list string) : world :=
  {| w_db := w_db w; w_chatter := msgs; w_events := w_events w |}.

Definition upd_events (w : world) (events : list event) : world :=
  {| w_db := w_db w; w_chatter := w_chatter w; w_events := events |}.

Definition M (A : Type) : Type := world -> world * result A.

Definition ret {A} (a : A) : M A := fun w => (w, Ok a).
Definition raise {A} (e : exn) : M A := fun w => (w, Raise e).
Definition bind {A B} (m : M A) (k : A -> M B) : M B :=
  fun w => match m w with
           | (w', Ok a) => k a w'
           | (w', Raise e) => (w', Raise e)
           end.
Definition lift {A} (r : result A) : M A := fun w => (w, r).

(** An ORM write: recorded, and applied to the database. *)
Definition orm (e : event) : M unit :=
  fun w => ({| w_db := orm_exec e (w_db w);
               w_chatter := w_chatter w;
               w_events := w_events w ++ [e] |}, Ok tt).

(** A call that leaves the database alone. *)
Definition emit (e : event) : M unit :=
  fun w => (upd_events w (w_events w ++ [e]), Ok tt).

Definition get_world : M world := fun w => (w, Ok w).

Definition set_chatter (msgs : list string) : M unit :=
  fun w => (upd_chatter w msgs, Ok tt).

(** [chatter_msg.append(msg)] *)
Definition chatter_append (msg : string) : M unit :=
  fun w => (upd_chatter w (w_chatter w ++ [msg]), Ok tt).

(** A resolver call: it receives the message list and may extend it. *)
Definition with_chatter {A}
           (call : list string -> list string * result A) : M A :=
  fun w => let '(msgs, r) := call (w_chatter w) in
           (upd_chatter w msgs, r).

End Model.

Declare Scope py_scope.
Delimit Scope py_scope with py.
Notation "x <- m ;; k" := (bind m (fun x => k))
  (at level 61, m at next level, right associativity) : py_scope.
Notation "m ;; k" := (bind m (fun _ => k))
  (at level 61, right associativity) : py_scope.

(* ================================================================== *)
(** * The methods of [product.import] *)
(* ================================================================== *)

Definition nl : string := String (ascii_of_nat 10) EmptyString.

(** [str(n)] for a database id. *)
Definition str_of_id (n : positive) : string :=
  NilEmpty.string_of_uint (Pos.to_uint n).

(** [str(n)] for an integer. *)
Definition str_of_int (n : Z) : string :=
  NilZero.string_of_int (Z.to_int n).

(** [d[k] = v] on a dict kept in insertion order. *)
Fixpoint dict_set (d : list (string * string)) (k v : string)
  : list (string * string) :=
  match d with
  | [] => [(k, v)]
  | (k', v') :: rest =>
      if String.eqb k k' then (k, v) :: rest
      else (k', v') :: dict_set rest k v
  end.

(** [d.get(k)] on a dict kept as a list of items. *)
Fixpoint dict_get (d : list (string * string)) (k : string) : option string :=
  match d with
  | [] => None
  | (k', v) :: rest => if String.eqb k k' then Some v else dict_get rest k
  end.

Definition str_truthy (s : string) : bool := negb (String.eqb s "").

Section Methods.
Context {env : Env}.
Local Open Scope py_scope.

(** ** Format detection *)

Definition _unsupported_file_msg (filename : string) : warning :=
  {| title := "Unsupported file format";
     message := ("This file '" ++ filename ++ "' cannot be imported.")%string |}.

(** [_parse_xml(data)] returns the pair [(xml_root, error_msg)]. *)
Definition _parse_xml (data : list Byte.byte)
  : result (option xml * option string) :=
  let '(xml_root, error_msg) :=
    match data with
    | _ :: _ =>
        match etree_fromstring data with
        | Some root => (Some root, None)
        | None => (None, Some "This XML file is not XML-compliant")
        end
    | [] => (None, Some "No data provided")
    end in
  match error_msg with
  | Some _ => Ok (xml_root, error_msg)
  | None =>
      match self_parse_xml_catalogue xml_root true with
      | Ok _ => Ok (xml_root, None)
      | Raise (UserError _) | Raise (NotImplementedError _) =>
          Ok (xml_root, Some "Unsupported XML document")
      | Raise e => Raise e
      end
  end.

Definition _parse_file (filename : string) (filecontent : list Byte.byte)
           (detect_doc_type : bool) : result parsed :=
  if negb (str_truthy filename) then Raise (AssertionError "Missing filename")
  else
    match filecontent with
    | [] => Raise (AssertionError "Missing file content")
    | _ :: _ =>
        match _parse_xml filecontent with
        | Raise e => Raise e
        | Ok (xml_root, Some error_msg) => Raise (UserError error_msg)
        | Ok (xml_root, None) =>
            self_parse_xml_catalogue xml_root detect_doc_type
        end
    end.

(** [b64decode] of a Binary field; decoding [False] is a type error. *)
Definition b64decode_field (file : option string) : result (list Byte.byte) :=
  match file with
  | Some text => b64decode text
  | None => Raise (TypeError "argument should be a bytes-like object or ASCII string, not 'bool'")
  end.

(** The onchange of [product_file]: [None], or a dict with a warning. *)
Definition product_file_change (self : wizard) : M (option warning) :=
  if negb (str_truthy (product_filename self))
     || match product_file self with
        | Some text => negb (str_truthy text)
        | None => true
        end
  then ret None
  else
    filecontent <- lift (b64decode_field (product_file self)) ;;
    doc_type <- lift (_parse_file (product_filename self) filecontent true) ;;
    match doc_type with
    | ParsedNone => ret (Some (_unsupported_file_msg (product_filename self)))
    | _ => ret None
    end.

(** ** Parsing and resolving *)

Definition parse_product_catalogue (product_file : list Byte.byte)
           (product_filename : string) : M catalogue_dict :=
  parsed <- lift (_parse_file product_filename product_file false) ;;
  match parsed with
  | ParsedCatalogue catalogue =>
      let attachments :=
        match cat_attachments catalogue with Some a => a | None => [] end in
      let chatter_msg :=
        match cat_chatter_msg catalogue with Some c => c | None => [] end in
      set_chatter chatter_msg ;;
      ret {| cat_products := cat_products catalogue;
             cat_seller := cat_seller catalogue;
             cat_company := cat_company catalogue;
             cat_chatter_msg := Some chatter_msg;
             cat_attachments :=
               Some (dict_set attachments product_filename
                              (b64encode product_file)) |}
  | ParsedNone => raise (TypeError "argument of type 'NoneType' is not iterable")
  | ParsedDocType _ =>
      raise (TypeError "'str' object does not support item assignment")
  end.

Definition _get_company_id (catalogue : catalogue_dict) : M oid :=
  match cat_company catalogue with
  | None | Some [] => ret None
  | Some company_vals =>
      emit (PartnerMatched company_vals "contact") ;;
      part <- with_chatter
                (fun chatter_msg =>
                   _match_partner company_vals chatter_msg "contact"
                                  (Some [("is_company", "=", PBool true)])
                                  (Some false)) ;;
      match part with
      | None => ret None
      | Some part => ret (res_company_search (partner_id part))
      end
  end.

Definition _get_seller (catalogue : catalogue_dict) : M (option partner) :=
  emit (PartnerMatched (cat_seller catalogue) "supplier") ;;
  with_chatter
    (fun chatter_msg =>
       _match_partner (cat_seller catalogue) chatter_msg "supplier" None None).

(** ** Preparing and writing one product *)

(** [search([("barcode", "=", barcode)], limit=1)] on
    [product.product]; unless the context carries [active_test=False],
    the ORM leaves archived records out. *)
Definition search_product (active_test : bool) (db : Store) (barcode : pyval)
  : option product_rec :=
  find (fun p => (negb active_test || pr_active p)
                 && py_eq (pr_barcode p) barcode)
       (product_table db).

Definition _prepare_product (product_company_id : oid)
           (parsed_product : ParsedProductLine) (seller : oid)
  : M (option product_vals_dict) :=
  if negb (truthy (pp_barcode parsed_product)) then
    chatter_append ("Cannot import product without barcode: "
                      ++ repr_line parsed_product)%string ;;
    ret None
  else
    w <- get_world ;;
    let product := search_product false (w_db w) (pp_barcode parsed_product) in
    uom <- with_chatter (_match_uom (pp_uom parsed_product)) ;;
    currency <- with_chatter (_match_currency (pp_currency parsed_product)) ;;
    let seller_info :=
      {| si_name := seller;
         si_product_code := pp_product_code parsed_product;
         si_price := pp_price parsed_product;
         si_currency_id := currency;
         si_min_qty := pp_min_qty parsed_product;
         si_company_id := product_company_id;
         si_delay := match pp_sale_delay parsed_product with
                     | Some d => d
                     | None => PInt 0
                     end;
         si_date_start := None |} in
    ret (Some
           {| pv_active := Some (match pp_active parsed_product with
                                 | Some a => a
                                 | None => PBool true
                                 end);
              pv_default_code := pp_code parsed_product;
              pv_barcode := pp_barcode parsed_product;
              pv_name := pp_name parsed_product;
              pv_description := pp_description parsed_product;
              pv_type := "product";
              pv_uom_id := uom;
              pv_uom_po_id := uom;
              pv_company_id := None;
              pv_seller_ids :=
                Some (_prepare_supplierinfo date_today seller_info product);
              pv_recordset := product |}).

(** [product_vals] once [recordset] and [seller_ids] are popped. *)
Definition without_offers (product_vals : product_vals_dict)
  : product_vals_dict :=
  {| pv_active := pv_active product_vals;
     pv_default_code := pv_default_code product_vals;
     pv_barcode := pv_barcode product_vals;
     pv_name := pv_name product_vals;
     pv_description := pv_description product_vals;
     pv_type := pv_type product_vals;
     pv_uom_id := pv_uom_id product_vals;
     pv_uom_po_id := pv_uom_po_id product_vals;
     pv_company_id := pv_company_id product_vals;
     pv_seller_ids := None;
     pv_recordset := None |}.

(** [product_vals] once [recordset] and [active] are popped. *)
Definition without_active (product_vals : product_vals_dict)
  : product_vals_dict :=
  {| pv_active := None;
     pv_default_code := pv_default_code product_vals;
     pv_barcode := pv_barcode product_vals;
     pv_name := pv_name product_vals;
     pv_description := pv_description product_vals;
     pv_type := pv_type product_vals;
     pv_uom_id := pv_uom_id product_vals;
     pv_uom_po_id := pv_uom_po_id product_vals;
     pv_company_id := pv_company_id product_vals;
     pv_seller_ids := pv_seller_ids product_vals;
     pv_recordset := None |}.

(** The loop [for (command, line_id, values) in supplierinfo]. *)
Fixpoint write_supplierinfo (product : product_rec)
         (supplierinfo : list command_tuple) : M unit :=
  match supplierinfo with
  | [] => ret tt
  | (command, line_id, values) :: rest =>
      if command =? 1 then
        orm (OfferWrite line_id values) ;;
        write_supplierinfo product rest
      else if command =? 0 then
        orm (OfferCreate values (pr_id product)) ;;
        write_supplierinfo product rest
      else
        raise (RuntimeError
                 ("Command " ++ str_of_int command ++ " not supported")%string)
  end.

Definition log_msg_of (product : product_rec) : string :=
  ("Product created/updated " ++ str_of_id (pr_id product) ++ nl
     ++ String.concat nl [])%string.

Definition _create_update_product (product_vals : product_vals_dict)
  : M string :=
  match pv_recordset product_vals with
  | Some product =>
      let supplierinfo :=
        match pv_seller_ids product_vals with Some s => s | None => [] end in
      write_supplierinfo product supplierinfo ;;
      orm (ProductWrite (pr_id product) (without_offers product_vals)) ;;
      ret (log_msg_of product)
  | None =>
      match pv_active product_vals with
      | None => raise (KeyError "active")
      | Some product_active =>
          w <- get_world ;;
          let vals := without_active product_vals in
          let product := orm_created (w_db w) vals in
          orm (ProductCreate vals) ;;
          (if negb (truthy product_active) then
             orm (ProductFlush (pr_id product)) ;;
             orm (ProductArchive (pr_id product))
           else ret tt) ;;
          ret (log_msg_of product)
      end
  end.

(** The loop [for parsed_product in products] of the job. *)
Fixpoint create_update_each (product_company_id : oid) (seller : oid)
         (products : list (option ParsedProductLine)) : M unit :=
  match products with
  | [] => ret tt
  | None :: _ => raise (TypeError "'NoneType' object is not subscriptable")
  | Some parsed_product :: rest =>
      product_vals <- _prepare_product product_company_id parsed_product seller ;;
      match product_vals with
      | Some product_vals =>
          msg <- _create_update_product product_vals ;;
          chatter_append msg
      | None => ret tt
      end ;;
      create_update_each product_company_id seller rest
  end.

(** The job body, run under the context key [product_company_id]. *)
Definition _create_update_products (product_company_id : oid)
           (products : list (option ParsedProductLine)) (seller_id : oid)
  : M string :=
  let seller := seller_id in
  set_chatter [] ;;
  create_update_each product_company_id seller products ;;
  w <- get_world ;;
  ret (String.concat nl (w_chatter w)).

(** ** The orchestrator *)

Inductive action : Type := act_window_close.

(** The [for products in zip_longest(...)] loop of [import_button]. *)
Fixpoint enqueue_each (product_company_id : oid) (seller : option partner)
         (chunks : list (list (option ParsedProductLine))) : M unit :=
  match chunks with
  | [] => ret tt
  | products :: rest =>
      match seller with
      | None => raise (AttributeError "'NoneType' object has no attribute 'id'")
      | Some s =>
          emit (JobEnqueued product_company_id products (partner_id s)) ;;
          enqueue_each product_company_id seller rest
      end
  end.

(** The chunk payloads of [import_button]; the default is never taken,
    see [dispatched_chunks_returns]. *)
Definition chunks_of (chunk_size : Z) (products : list ParsedProductLine)
  : list (list (option ParsedProductLine)) :=
  match dispatched_chunks line_truthy chunk_size products with
  | Some chunks => chunks
  | None => []
  end.

Definition import_button (self : wizard) (chunk_size : Z) : M action :=
  file_content <- lift (b64decode_field (product_file self)) ;;
  catalogue <- parse_product_catalogue file_content (product_filename self) ;;
  match cat_products catalogue with
  | None | Some [] =>
      raise (UserError "This catalogue doesn't have any product!")
  | Some products =>
      company_id <- _get_company_id catalogue ;;
      seller <- _get_seller catalogue ;;
      enqueue_each company_id seller (chunks_of chunk_size products) ;;
      w <- get_world ;;
      emit (DocumentRecorded catalogue (w_chatter w) seller
                             (product_filename self)) ;;
      match seller with
      | None => raise (AttributeError "'NoneType' object has no attribute 'name'")
      | Some _ => ret act_window_close
      end
  end.

End Methods.

Section JobValues.
Context {env : Env}.

(** The values [_prepare_product] builds, spelled out. *)
Definition seller_info_of (product_company_id : oid)
           (parsed_product : ParsedProductLine) (seller currency : oid)
  : seller_info_dict :=
  {| si_name := seller;
     si_product_code := pp_product_code parsed_product;
     si_price := pp_price parsed_product;
     si_currency_id := currency;
     si_min_qty := pp_min_qty parsed_product;
     si_company_id := product_company_id;
     si_delay := match pp_sale_delay parsed_product with
                 | Some d => d
                 | None => PInt 0
                 end;
     si_date_start := None |}.

(** The message [_prepare_product] logs for a line without barcode. *)
Definition rejection (parsed_product : ParsedProductLine) : string :=
  ("Cannot import product without barcode: " ++ repr_line parsed_product)%string.

End JobValues.

(** The default chunk size of [import_button]. *)
Definition CHUNK_SIZE : Z := 40.

(* ================================================================== *)
(** * Reading the offer writes *)
(* ================================================================== *)

(** The effect of the update branch of [_create_update_product] on the
    offers of the product: [browse(line_id).write(values)] sets the
    fields named in [values] on the record with that id. *)
Definition with_date_end (s_info : supplierinfo) (d : date) : supplierinfo :=
  {| s_id := s_id s_info;
     s_name := s_name s_info;
     s_company_id := s_company_id s_info;
     s_date_end := Some d;
     s_product_code := s_product_code s_info;
     s_min_qty := s_min_qty s_info;
     s_price := s_price s_info;
     s_currency_id := s_currency_id s_info;
     s_delay := s_delay s_info |}.

Definition with_seller_info (s_info : supplierinfo) (vals : seller_info_dict)
  : supplierinfo :=
  {| s_id := s_id s_info;
     s_name := si_name vals;
     s_company_id := si_company_id vals;
     s_date_end := s_date_end s_info;
     s_product_code := si_product_code vals;
     s_min_qty := si_min_qty vals;
     s_price := si_price vals;
     s_currency_id := si_currency_id vals;
     s_delay := si_delay vals |}.

Definition write_offer (line_id : Z) (values : values_dict)
           (offers : list supplierinfo) : list supplierinfo :=
  map (fun s_info =>
         if Z.pos (s_id s_info) =? line_id then
           match values with
           | DateEndVals d => with_date_end s_info d
           | SellerInfoVals vals => with_seller_info s_info vals
           end
         else s_info) offers.

(** The writes of a command list, in order; the records that command 0
    creates are left to the ORM. *)
Definition apply_writes (commands : list command_tuple)
           (offers : list supplierinfo) : list supplierinfo :=
  fold_left (fun offers '(command, line_id, values) =>
               if command =? 1 then write_offer line_id values offers
               else offers)
            commands offers.

(** The offers that a list of terminated offers names, by id, and the
    record such an offer becomes. *)
Definition listed (l : list supplierinfo) (s_info : supplierinfo) : bool :=
  existsb (fun t => Pos.eqb (s_id t) (s_id s_info)) l.

Definition end_if_listed (today : date) (l : list supplierinfo)
           (s_info : supplierinfo)
  : supplierinfo :=
  if listed l s_info then with_date_end s_info (today - 1) else s_info.

(* ================================================================== *)
(** * Vocabulary of the statements *)
(* ================================================================== *)

(** [ceil(n / c)] for a positive [c]. *)
Definition ceil_div (n c : Z) : Z := (n + c - 1) / c.

(** Jobs and audit records among the calls. *)
Definition scheduled_or_recorded (e : event) : bool :=
  match e with
  | JobEnqueued _ _ _ | DocumentRecorded _ _ _ _ => true
  | _ => false
  end.

Definition import_effects (events : list event) : list event :=
  filter scheduled_or_recorded events.

(** Jobs alone. *)
Definition is_job (e : event) : bool :=
  match e with
  | JobEnqueued _ _ _ => true
  | _ => false
  end.

Definition enqueued_jobs (events : list event) : list event :=
  filter is_job events.

Section Calls.
Context {env : Env}.

(** The ORM call that the loop of [_create_update_product] makes for a
    command it supports. *)
Definition offer_event (product : product_rec) (c : command_tuple) : event :=
  let '(command, line_id, values) := c in
  if command =? 1 then OfferWrite line_id values
  else OfferCreate values (pr_id product).

(** The tags for which the loop has a branch. *)
Definition supported (c : command_tuple) : Prop :=
  fst (fst c) = 1 \/ fst (fst c) = 0.

(** The database after a sequence of ORM calls. *)
Definition run_events (events : list event) (db : Store) : Store :=
  fold_left (fun db e => orm_exec e db) events db.

End Calls.

(* ================================================================== *)
(** * A concrete installation *)
(* ================================================================== *)

(** A small database, a stand-in XML library, a working base64 codec, a
    resolver that knows one vendor, and a format parser for documents
    whose root is [Catalogue]; used to run the methods on actual input. *)
Module Demo.

Definition alphabet : string :=
  "ABCDEFGHIJKLMNOPQRSTUVWXYZabcdefghijklmnopqrstuvwxyz0123456789+/".

Definition sextet_of (c : ascii) : option N :=
  match String.index 0 (String c EmptyString) alphabet with
  | Some i => Some (N.of_nat i)
  | None => None
  end.

(** Characters outside the alphabet, the padding included, are skipped. *)
Fixpoint sextets (text : string) : list N :=
  match text with
  | EmptyString => []
  | String c rest =>
      match sextet_of c with
      | Some n => n :: sextets rest
      | None => sextets rest
      end
  end.

Definition byte_of (n : N) : Byte.byte :=
  match Byte.of_N n with
  | Some b => b
  | None => Byte.x00
  end.

Fixpoint octets (l : list N) : list Byte.byte :=
  match l with
  | a :: b :: c :: d :: rest =>
      byte_of (a * 4 + b / 16)%N
      :: byte_of ((b mod 16) * 16 + c / 4)%N
      :: byte_of ((c mod 4) * 64 + d)%N
      :: octets rest
  | [a; b; c] =>
      [byte_of (a * 4 + b / 16)%N; byte_of ((b mod 16) * 16 + c / 4)%N]
  | [a; b] => [byte_of (a * 4 + b / 16)%N]
  | _ => []
  end.

Definition demo_b64decode (text : string) : result (list Byte.byte) :=
  Ok (octets (sextets text)).

Definition char_of (n : N) : ascii :=
  match String.get (N.to_nat n) alphabet with
  | Some c => c
  | None => "="%char
  end.

Fixpoint encode (l : list N) : string :=
  match l with
  | a :: b :: c :: rest =>
      String (char_of (a / 4)%N)
        (String (char_of ((a mod 4) * 16 + b / 16)%N)
           (String (char_of ((b mod 16) * 4 + c / 64)%N)
              (String (char_of (c mod 64)%N) (encode rest))))
  | [a; b] =>
      String (char_of (a / 4)%N)
        (String (char_of ((a mod 4) * 16 + b / 16)%N)
           (String (char_of ((b mod 16) * 4)%N) "="))
  | [a] =>
      String (char_of (a / 4)%N) (String (char_of ((a mod 4) * 16)%N) "==")
  | [] => ""
  end.

Definition demo_b64encode (data : list Byte.byte) : string :=
  encode (map Byte.to_N data).

(** The stand-in XML library takes a document for well-formed when it
    opens with [<] and closes with [>]. *)
Definition demo_fromstring (data : list Byte.byte)
  : option (list Byte.byte) :=
  match data, rev data with
  | Byte.x3c :: _, Byte.x3e :: _ => Some data
  | _, _ => None
  end.

Definition vendor : partner :=
  {| partner_id := 7; partner_name := "Catalogue Vendor" |}.

Fixpoint lookup (key : string) (d : ref_dict) : option string :=
  match d with
  | [] => None
  | (k, v) :: rest => if String.eqb k key then Some v else lookup key rest
  end.

(** The resolver knows [vendor] by its name; a failure raises unless the
    caller passed [raise_exception=False]. *)
Definition demo_match_partner (partner_dict : ref_dict)
           (chatter_msg : list string) (partner_type : string)
           (dom : option domain) (raise_exception : option bool)
  : list string * result (option partner) :=
  match lookup "name" partner_dict with
  | Some "Catalogue Vendor" => (chatter_msg, Ok (Some vendor))
  | _ =>
      match raise_exception with
      | Some false => (chatter_msg, Ok None)
      | _ => (chatter_msg, Raise (UserError "Odoo couldn't find any partner"))
      end
  end.

Definition line (barcode name : string) (price : Q) : ParsedProductLine :=
  {| pp_barcode := PStr barcode;
     pp_code := PStr name;
     pp_name := PStr name;
     pp_description := PStr "";
     pp_uom := [("unece_code", "C62")];
     pp_currency := [("iso", "EUR")];
     pp_price := PFloat price;
     pp_min_qty := PFloat 1;
     pp_product_code := PStr name;
     pp_sale_delay := None;
     pp_active := None |}.

Definition lines : list ParsedProductLine :=
  [line "123" "Pen" (12 # 1); line "" "Ink" (3 # 1); line "456" "Pad" (5 # 2)].

Definition catalogue_of (products : list ParsedProductLine) : catalogue_dict :=
  {| cat_products := Some products;
     cat_seller := [("name", "Catalogue Vendor")];
     cat_company := Some [("name", "Nowhere Ltd")];
     cat_chatter_msg := None;
     cat_attachments := None |}.

(** The format parser: the root [Catalogue] is its format, an empty
    element an empty catalogue; anything else goes to the base method. *)
Definition demo_parse_xml_catalogue (xml_root : option (list Byte.byte))
           (detect_doc_type : bool) : result parsed :=
  match xml_root with
  | Some root =>
      if String.prefix "<Catalogue" (string_of_list_byte root) then
        if detect_doc_type then Ok (ParsedDocType "catalogue")
        else if String.eqb (string_of_list_byte root) "<Catalogue/>"
             then Ok (ParsedCatalogue (catalogue_of []))
             else Ok (ParsedCatalogue (catalogue_of lines))
      else parse_xml_catalogue xml_root detect_doc_type
  | None => parse_xml_catalogue xml_root detect_doc_type
  end.

(** A parser that answers [None] in detection mode. *)
Definition silent_parse_xml_catalogue (xml_root : option (list Byte.byte))
           (detect_doc_type : bool) : result parsed :=
  if detect_doc_type then Ok ParsedNone
  else parse_xml_catalogue xml_root detect_doc_type.

Definition set_offers (p : product_rec) (offers : list supplierinfo)
  : product_rec :=
  {| pr_id := pr_id p; pr_active := pr_active p; pr_barcode := pr_barcode p;
     pr_default_code := pr_default_code p; seller_ids := offers |}.

Definition set_active (p : product_rec) (a : bool) : product_rec :=
  {| pr_id := pr_id p; pr_active := a; pr_barcode := pr_barcode p;
     pr_default_code := pr_default_code p; seller_ids := seller_ids p |}.

Definition new_offer (id : positive) (vals : seller_info_dict) : supplierinfo :=
  {| s_id := id; s_name := si_name vals; s_company_id := si_company_id vals;
     s_date_end := None; s_product_code := si_product_code vals;
     s_min_qty := si_min_qty vals; s_price := si_price vals;
     s_currency_id := si_currency_id vals; s_delay := si_delay vals |}.

Definition next_offer_id (db : list product_rec) : positive :=
  Pos.succ (fold_right Pos.max 1%positive
                       (map s_id (flat_map seller_ids db))).

Definition next_product_id (db : list product_rec) : positive :=
  Pos.succ (fold_right Pos.max 1%positive (map pr_id db)).

Definition created_offers (db : list product_rec)
           (commands : option (list command_tuple)) : list supplierinfo :=
  match commands with
  | Some ((0, _, SellerInfoVals vals) :: _) => [new_offer (next_offer_id db) vals]
  | _ => []
  end.

Definition demo_created (db : list product_rec) (vals : product_vals_dict)
  : product_rec :=
  {| pr_id := next_product_id db;
     pr_active := true;
     pr_barcode := pv_barcode vals;
     pr_default_code := pv_default_code vals;
     seller_ids := created_offers db (pv_seller_ids vals) |}.

Definition demo_exec (e : event) (db : list product_rec) : list product_rec :=
  match e with
  | OfferWrite line_id values =>
      map (fun p => set_offers p (write_offer line_id values (seller_ids p))) db
  | OfferCreate (SellerInfoVals vals) product_id =>
      map (fun p => if Pos.eqb (pr_id p) product_id
                    then set_offers p (seller_ids p
                                         ++ [new_offer (next_offer_id db) vals])
                    else p) db
  | ProductCreate vals => db ++ [demo_created db vals]
  | ProductWrite product vals =>
      map (fun p => if Pos.eqb (pr_id p) product
                    then {| pr_id := pr_id p;
                            pr_active := match pv_active vals with
                                         | Some a => truthy a
                                         | None => pr_active p
                                         end;
                            pr_barcode := pv_barcode vals;
                            pr_default_code := pv_default_code vals;
                            seller_ids := seller_ids p |}
                    else p) db
  | ProductArchive product =>
      map (fun p => if Pos.eqb (pr_id p) product then set_active p false else p)
          db
  | _ => db
  end.

Definition demo_repr (parsed_product : ParsedProductLine) : string :=
  match pp_name parsed_product with
  | PStr n => ("{'name': '" ++ n ++ "', ...}")%string
  | _ => "{...}"
  end.

(** 2022-06-15 *)
Definition a_day : date := 738321.

Definition installation
           (parser : option (list Byte.byte) -> bool -> result parsed) : Env :=
  {| xml := list Byte.byte;
     etree_fromstring := demo_fromstring;
     self_parse_xml_catalogue := parser;
     b64decode := demo_b64decode;
     b64encode := demo_b64encode;
     _match_partner := demo_match_partner;
     _match_uom := fun _ chatter_msg => (chatter_msg, Ok (Some 1%positive));
     _match_currency := fun _ chatter_msg => (chatter_msg, Ok (Some 2%positive));
     res_company_search := fun _ => None;
     Store := list product_rec;
     product_table := fun db => db;
     orm_exec := demo_exec;
     orm_created := demo_created;
     repr_line := demo_repr;
     date_today := a_day |}.

(** Only the base module is installed. *)
Definition base_env : Env := installation (@parse_xml_catalogue _).
(** The [Catalogue] format is installed. *)
Definition demo_env : Env := installation demo_parse_xml_catalogue.
Definition silent_env : Env := installation silent_parse_xml_catalogue.

(** An offer of the vendor at price 10, open-ended. *)
Definition old_offer : supplierinfo :=
  {| s_id := 31; s_name := Some 7%positive; s_company_id := None;
     s_date_end := None; s_product_code := PStr "Pen";
     s_min_qty := PFloat 1; s_price := PFloat (10 # 1);
     s_currency_id := Some 2%positive; s_delay := PInt 0 |}.

(** The same offer at price 12. *)
Definition same_offer : supplierinfo :=
  {| s_id := 32; s_name := Some 7%positive; s_company_id := None;
     s_date_end := None; s_product_code := PStr "Pen";
     s_min_qty := PFloat 1; s_price := PFloat (12 # 1);
     s_currency_id := Some 2%positive; s_delay := PInt 0 |}.

(** An offer of another vendor, and one that ended a week before. *)
Definition foreign_offer : supplierinfo :=
  {| s_id := 33; s_name := Some 8%positive; s_company_id := None;
     s_date_end := None; s_product_code := PStr "Pen";
     s_min_qty := PFloat 1; s_price := PFloat (9 # 1);
     s_currency_id := Some 2%positive; s_delay := PInt 0 |}.

Definition past_offer : supplierinfo :=
  {| s_id := 34; s_name := Some 7%positive; s_company_id := None;
     s_date_end := Some (a_day - 7); s_product_code := PStr "Pen";
     s_min_qty := PFloat 1; s_price := PFloat (8 # 1);
     s_currency_id := Some 2%positive; s_delay := PInt 0 |}.

(** The candidate of the line "Pen" at price 12. *)
Definition candidate : seller_info_dict :=
  {| si_name := Some 7%positive; si_product_code := PStr "Pen";
     si_price := PFloat (12 # 1); si_currency_id := Some 2%positive;
     si_min_qty := PFloat 1; si_company_id := None; si_delay := PInt 0;
     si_date_start := None |}.

Definition pen (offers : list supplierinfo) : product_rec :=
  {| pr_id := 5; pr_active := false; pr_barcode := PStr "123";
     pr_default_code := PStr "Pen"; seller_ids := offers |}.

Definition world_of {parser} (db : list product_rec)
  : @world (installation parser) :=
  {| w_db := (db : @Store (installation parser));
     w_chatter := []; w_events := [] |}.

Definition wizard_of (file : string) : wizard :=
  {| product_file := Some file; product_filename := "catalogue.xml" |}.

(** The catalogue as [parse_product_catalogue] returns it. *)
Definition parsed_catalogue (products : list ParsedProductLine) (file : string)
  : catalogue_dict :=
  {| cat_products := Some products;
     cat_seller := [("name", "Catalogue Vendor")];
     cat_company := Some [("name", "Nowhere Ltd")];
     cat_chatter_msg := Some [];
     cat_attachments := Some [("catalogue.xml", file)] |}.

(** Base64 of [<Catalogue/>], of a catalogue with a line, of [<Order/>]
    and of [plain text]. *)
Definition empty_file : string := "PENhdGFsb2d1ZS8+".
Definition full_file : string := "PENhdGFsb2d1ZT48TGluZS8+PC9DYXRhbG9ndWU+".
Definition order_file : string := "PE9yZGVyLz4=".
Definition text_file : string := "cGxhaW4gdGV4dA==".

(** A format whose catalogues name a seller the resolver does not know. *)
Definition stranger_parse_xml_catalogue (xml_root : option (list Byte.byte))
           (detect_doc_type : bool) : result parsed :=
  if detect_doc_type then Ok (ParsedDocType "catalogue")
  else Ok (ParsedCatalogue
             {| cat_products := Some lines;
                cat_seller := [("name", "A Stranger")];
                cat_company := None;
                cat_chatter_msg := None;
                cat_attachments := None |}).

Definition stranger_env : Env := installation stranger_parse_xml_catalogue.

(** What [_prepare_product] returns for the line "Pen" when the archived
    product [pen] holds [old_offer]. *)
Definition pen_vals : product_vals_dict :=
  Eval vm_compute in
    match snd (@_prepare_product demo_env None (line "123" "Pen" (12 # 1))
                                 (Some 7%positive)
                                 (world_of [pen [old_offer]])) with
    | Ok (Some product_vals) => product_vals
    | _ =>
        {| pv_active := None; pv_default_code := PNone; pv_barcode := PNone;
           pv_name := PNone; pv_description := PNone; pv_type := "";
           pv_uom_id := None; pv_uom_po_id := None; pv_company_id := None;
           pv_seller_ids := None; pv_recordset := None |}
    end.

End Demo.

(** Further installations: a format parser that fails, a company that
    the resolver knows, a unit resolver that knows no unit. *)
Module MoreDemo.
Import Demo.

(** An installation with its own format parser, unit resolver and
    companies. *)
Definition site
           (parser : option (list Byte.byte) -> bool -> result parsed)
           (units : ref_dict -> list string -> list string * result oid)
           (companies : positive -> oid) : Env :=
  {| xml := list Byte.byte;
     etree_fromstring := demo_fromstring;
     self_parse_xml_catalogue := parser;
     b64decode := demo_b64decode;
     b64encode := demo_b64encode;
     _match_partner := demo_match_partner;
     _match_uom := units;
     _match_currency := fun _ chatter_msg => (chatter_msg, Ok (Some 2%positive));
     res_company_search := companies;
     Store := list product_rec;
     product_table := fun db => db;
     orm_exec := demo_exec;
     orm_created := demo_created;
     repr_line := demo_repr;
     date_today := a_day |}.

(** A format parser that fails on a key of its own. *)
Definition broken_env : Env := installation (fun _ _ => Raise (KeyError "ID")).

(** A catalogue whose company is the vendor itself, which is the
    partner of company 3. *)
Definition own_company_catalogue : catalogue_dict :=
  {| cat_products := Some lines;
     cat_seller := [("name", "Catalogue Vendor")];
     cat_company := Some [("name", "Catalogue Vendor")];
     cat_chatter_msg := Some [];
     cat_attachments := Some [] |}.

Definition company_env : Env :=
  site demo_parse_xml_catalogue
       (fun _ chatter_msg => (chatter_msg, Ok (Some 1%positive)))
       (fun p => if Pos.eqb p 7 then Some 3%positive else None).

(** A unit resolver that knows no unit. *)
Definition no_units_env : Env :=
  site demo_parse_xml_catalogue
       (fun _ chatter_msg => (chatter_msg, Raise (UserError "Unknown unit")))
       (fun _ => None).

Definition world_at (e : Env) (db : @Store e) : @world e :=
  {| w_db := db; w_chatter := []; w_events := [] |}.

(** The candidate of [Demo] without a seller, and with a company. *)
Definition nobody's_candidate : seller_info_dict :=
  {| si_name := None; si_product_code := PStr "Pen";
     si_price := PFloat (12 # 1); si_currency_id := Some 2%positive;
     si_min_qty := PFloat 1; si_company_id := None; si_delay := PInt 0;
     si_date_start := None |}.

Definition company_candidate : seller_info_dict :=
  {| si_name := Some 7%positive; si_product_code := PStr "Pen";
     si_price := PFloat (10 # 1); si_currency_id := Some 2%positive;
     si_min_qty := PFloat 1; si_company_id := Some 3%positive;
     si_delay := PInt 0; si_date_start := None |}.

(** What [_prepare_product] returns for the line "Pad", which no product
    carries. *)
Definition pad_vals : product_vals_dict :=
  Eval vm_compute in
    match snd (@_prepare_product demo_env None (line "456" "Pad" (5 # 2))
                                 (Some 7%positive)
                                 (world_of [pen [old_offer]])) with
    | Ok (Some product_vals) => product_vals
    | _ => pen_vals
    end.

(** Values for [pen] with a command of tag 2 after a supported one. *)
Definition odd_vals : product_vals_dict :=
  {| pv_active := Some (PBool true); pv_default_code := PStr "Pen";
     pv_barcode := PStr "123"; pv_name := PStr "Pen";
     pv_description := PStr ""; pv_type := "product";
     pv_uom_id := Some 1%positive; pv_uom_po_id := Some 1%positive;
     pv_company_id := None;
     pv_seller_ids :=
       Some ([(1, 31, DateEndVals (a_day - 1))]
               ++ (2, 31, DateEndVals a_day) :: []);
     pv_recordset := Some (pen [old_offer]) |}.

End MoreDemo.

(* ================================================================== *)
(** * Properties of [zip_longest] and of the chunking *)
(* ================================================================== *)

(** ** Facts about the run of [zip_longest] *)

Module ItertoolsFacts.
Import Itertools.
Section Rounds.
Context {A : Type}.
Implicit Types (l : list A) (its : list bool).

(** While the iterator still holds a full round of items, a round takes
    the next [j] of them and no position changes. *)
Lemma zl_round_full j l na :
  (j <= List.length l)%nat ->
  zl_round (repeat true j) l na
  = Some (map Some (firstn j l), repeat true j, skipn j l, na).
Proof.
  revert l; induction j as [|j IH]; intros l Hj; simpl.
  - reflexivity.
  - destruct l as [|x l]; simpl in Hj; [lia|].
    rewrite IH by lia. reflexivity.
Qed.

(** On an exhausted iterator, a round that meets at least [numactive]
    live positions ends the iteration. *)
Lemma zl_round_stop j its na :
  (1 <= na <= j)%nat ->
  zl_round (repeat true j ++ its) (@nil A) na = None.
Proof.
  revert na; induction j as [|j IH]; intros na Hna; [lia|].
  simpl. destruct (Nat.eqb (Nat.pred na) 0) eqn:E; [reflexivity|].
  apply Nat.eqb_neq in E. rewrite IH by lia. reflexivity.
Qed.

(** On an exhausted iterator, fewer live positions than [numactive]
    are all switched to the fill value. *)
Lemma zl_round_drain j na :
  (j < na)%nat ->
  zl_round (repeat true j) (@nil A) na
  = Some (repeat None j, repeat false j, [], (na - j)%nat).
Proof.
  revert na; induction j as [|j IH]; intros na Hna; simpl.
  - now rewrite Nat.sub_0_r.
  - destruct (Nat.eqb (Nat.pred na) 0) eqn:E.
    + apply Nat.eqb_eq in E. lia.
    + apply Nat.eqb_neq in E. rewrite IH by lia.
      replace (Nat.pred na - j)%nat with (na - S j)%nat by lia.
      reflexivity.
Qed.

(** The round in which the iterator runs dry part-way. *)
Lemma zl_round_partial l : forall j na,
  (List.length l < j)%nat ->
  (j - List.length l < na)%nat ->
  zl_round (repeat true j) l na
  = Some (map Some l ++ repeat None (j - List.length l),
          repeat true (List.length l) ++ repeat false (j - List.length l),
          [], (na - (j - List.length l))%nat).
Proof.
  induction l as [|x l IH]; intros j na Hj Hna.
  - simpl List.length in *. rewrite Nat.sub_0_r in *.
    now rewrite zl_round_drain.
  - destruct j as [|j]; simpl in Hj; [lia|].
    simpl. simpl in Hna. rewrite IH by lia. reflexivity.
Qed.

End Rounds.
End ItertoolsFacts.

Section ChunkingFacts.
Context {A : Type}.
Variable truthy : A -> bool.
Implicit Types (l c : list A).

Lemma zl_loop_partition k : (0 < k)%nat -> forall f l,
  (List.length l <= f)%nat ->
  Itertools.zl_loop (S (S f)) (repeat true k) l k
  = Some (map (padded k) (partition_fuel f k l)).
Proof.
  intros Hk f; induction f as [|f IH]; intros l Hl.
  - destruct l; simpl in Hl; [|lia].
    cbn [Itertools.zl_loop].
    rewrite <- (app_nil_r (repeat true k)).
    now rewrite ItertoolsFacts.zl_round_stop by lia.
  - destruct l as [|x l].
    + cbn [Itertools.zl_loop].
      rewrite <- (app_nil_r (repeat true k)).
      now rewrite ItertoolsFacts.zl_round_stop by lia.
    + cbn [partition_fuel map].
      remember (x :: l) as xl eqn:Exl.
      assert (Hlen : (0 < List.length xl)%nat) by (subst; simpl; lia).
      destruct (le_lt_dec k (List.length xl)) as [Hfull|Hpart].
      * change (Itertools.zl_loop (S (S (S f))) (repeat true k) xl k)
          with (match Itertools.zl_round (repeat true k) xl k with
                | None => Some []
                | Some (vs, its', sh', na') =>
                    match Itertools.zl_loop (S (S f)) its' sh' na' with
                    | Some rest => Some (vs :: rest)
                    | None => None
                    end
                end).
        rewrite ItertoolsFacts.zl_round_full by lia.
        rewrite IH by (rewrite length_skipn; lia).
        unfold padded at 2. rewrite length_firstn, Nat.min_l by lia.
        rewrite Nat.sub_diag. simpl repeat. now rewrite app_nil_r.
      * change (Itertools.zl_loop (S (S (S f))) (repeat true k) xl k)
          with (match Itertools.zl_round (repeat true k) xl k with
                | None => Some []
                | Some (vs, its', sh', na') =>
                    match Itertools.zl_loop (S (S f)) its' sh' na' with
                    | Some rest => Some (vs :: rest)
                    | None => None
                    end
                end).
        rewrite ItertoolsFacts.zl_round_partial by lia.
        cbn [Itertools.zl_loop].
        rewrite ItertoolsFacts.zl_round_stop by lia.
        rewrite firstn_all2 by lia. rewrite skipn_all2 by lia.
        replace (partition_fuel f k []) with (@nil (list A))
          by (destruct f; reflexivity).
        reflexivity.
Qed.

Lemma last_is_None_somes c : last_is_None (map Some c) = false.
Proof.
  unfold last_is_None. rewrite <- map_rev. now destruct (rev c).
Qed.

Lemma last_is_None_padding (s : list (option A)) n :
  last_is_None (s ++ repeat None (S n)) = true.
Proof.
  unfold last_is_None.
  change (repeat (@None A) (S n)) with (None :: repeat (@None A) n).
  rewrite repeat_cons, app_assoc, rev_unit. reflexivity.
Qed.

Lemma keep_truthy_padded c n :
  Forall (fun p => truthy p = true) c ->
  keep_truthy truthy (map Some c ++ repeat None n) = map Some c.
Proof.
  intros Hc. unfold keep_truthy. rewrite filter_app.
  replace (filter _ (repeat None n)) with (@nil (option A)).
  - rewrite app_nil_r. induction Hc as [|p c Hp _ IH]; simpl.
    + reflexivity.
    + now rewrite Hp, IH.
  - induction n; simpl; auto.
Qed.

(** The payload dispatched for a padded tuple is the bare group. *)
Lemma chunk_payload_padded k c :
  (List.length c <= k)%nat ->
  Forall (fun p => truthy p = true) c ->
  (c <> [] \/ (0 < k)%nat) ->
  chunk_payload truthy (padded k c) = map Some c.
Proof.
  intros Hk Hc Hne. unfold chunk_payload, padded.
  destruct (k - List.length c)%nat as [|n] eqn:E.
  - simpl. rewrite app_nil_r, last_is_None_somes. reflexivity.
  - rewrite last_is_None_padding. now apply keep_truthy_padded.
Qed.

End ChunkingFacts.

(** ** Facts about the reference partition *)

Section PartitionFacts.
Context {A : Type}.
Implicit Types (l c : list A).

Lemma partition_fuel_concat k : (0 < k)%nat -> forall f l,
  (List.length l <= f)%nat -> List.concat (partition_fuel f k l) = l.
Proof.
  intros Hk f; induction f as [|f IH]; intros l Hl.
  - destruct l; simpl in *; [reflexivity|lia].
  - destruct l as [|x l]; [reflexivity|].
    cbn [partition_fuel List.concat].
    rewrite IH; [apply firstn_skipn|].
    rewrite length_skipn. simpl List.length in *. lia.
Qed.

Lemma partition_fuel_sizes k : (0 < k)%nat -> forall f l,
  Forall (fun c => (1 <= List.length c <= k)%nat) (partition_fuel f k l).
Proof.
  intros Hk f; induction f as [|f IH]; intros l; [constructor|].
  destruct l as [|x l]; [constructor|].
  cbn [partition_fuel]. constructor; [|apply IH].
  rewrite length_firstn. simpl List.length. lia.
Qed.

Lemma partition_fuel_nonempty f k l :
  partition_fuel f k l <> [] -> l <> [].
Proof. destruct f, l; simpl; congruence. Qed.

(** Every group that is followed by another one is full. *)
Lemma partition_fuel_full k : forall f l i,
  (S i < List.length (partition_fuel f k l))%nat ->
  List.length (nth i (partition_fuel f k l) []) = k.
Proof.
  intros f; induction f as [|f IH]; intros l i Hi; [simpl in Hi; lia|].
  destruct l as [|x l]; [simpl in Hi; lia|].
  cbn [partition_fuel] in *. simpl List.length in Hi.
  destruct i as [|i]; cbn [nth].
  - assert (Hne : skipn k (x :: l) <> []).
    { apply (partition_fuel_nonempty f k).
      destruct (partition_fuel f k (skipn k (x :: l))); simpl in Hi;
        [lia|congruence]. }
    rewrite length_firstn. apply Nat.min_l.
    destruct (le_lt_dec k (List.length (x :: l))) as [H|H]; [exact H|].
    exfalso. apply Hne. apply skipn_all2. lia.
  - apply IH. lia.
Qed.

Lemma ceil_step n k : (0 < k)%nat -> (k <= n)%nat ->
  ((n + k - 1) / k = S ((n - k + k - 1) / k))%nat.
Proof.
  intros Hk Hn.
  replace (n + k - 1)%nat with ((n - k + k - 1) + 1 * k)%nat by lia.
  rewrite Nat.div_add by lia. lia.
Qed.

Lemma partition_fuel_count k : (0 < k)%nat -> forall f l,
  (List.length l <= f)%nat ->
  List.length (partition_fuel f k l) = ((List.length l + k - 1) / k)%nat.
Proof.
  intros Hk f; induction f as [|f IH]; intros l Hl.
  - destruct l; simpl in Hl; [|lia]. simpl.
    symmetry. apply Nat.div_small. lia.
  - destruct l as [|x l].
    + simpl. symmetry. apply Nat.div_small. lia.
    + cbn [partition_fuel]. simpl List.length at 1.
      remember (x :: l) as xl eqn:Exl.
      assert (Hlen : (0 < List.length xl)%nat) by (subst; simpl; lia).
      assert (Hf : (List.length xl <= S f)%nat) by (subst; exact Hl).
      rewrite IH by (rewrite length_skipn; lia).
      rewrite length_skipn.
      destruct (le_lt_dec k (List.length xl)) as [Hfull|Hpart].
      * now rewrite (ceil_step (List.length xl) k).
      * replace (List.length xl - k)%nat with 0%nat by lia.
        rewrite (Nat.div_small (0 + k - 1) k) by lia.
        apply (Nat.div_unique _ _ 1 (List.length xl - 1)); lia.
Qed.

End PartitionFacts.

(** ** The dispatched chunks are the reference partition *)

Section ChunkingRefinement.
Context {A : Type}.
Variable truthy : A -> bool.

Lemma payloads_of_partition k (cs : list (list A)) :
  Forall (fun c => (1 <= List.length c <= k)%nat) cs ->
  Forall (Forall (fun p => truthy p = true)) cs ->
  map (chunk_payload truthy) (map (padded k) cs) = map (map Some) cs.
Proof.
  intros Hsz Ht. induction cs as [|c cs IH]; [reflexivity|].
  inversion Hsz; subst. inversion Ht; subst. simpl.
  rewrite chunk_payload_padded by (auto; lia).
  now rewrite IH.
Qed.

Lemma partition_fuel_Forall (P : A -> Prop) k : forall f l,
  Forall P l -> Forall (Forall P) (partition_fuel f k l).
Proof.
  intros f; induction f as [|f IH]; intros l Hl; [constructor|].
  destruct l as [|x l]; [constructor|].
  cbn [partition_fuel].
  rewrite <- (firstn_skipn k (x :: l)) in Hl.
  apply Forall_app in Hl as [Hfst Hskp].
  constructor; [exact Hfst|apply IH; exact Hskp].
Qed.

(** When every item is truthy, [import_button] dispatches the
    reference partition, each item wrapped as a filled slot. *)
Lemma dispatched_chunks_partition (chunk_size : Z) (products : list A) :
  0 < chunk_size ->
  Forall (fun p => truthy p = true) products ->
  dispatched_chunks truthy chunk_size products
  = Some (map (map Some) (partition (Z.to_nat chunk_size) products)).
Proof.
  intros HC Ht. unfold dispatched_chunks, Itertools.zip_longest_shared.
  assert (Hk : (0 < Z.to_nat chunk_size)%nat) by lia.
  destruct (Nat.eqb (Z.to_nat chunk_size) 0) eqn:E;
    [apply Nat.eqb_eq in E; lia|].
  rewrite zl_loop_partition by (auto; lia).
  unfold partition. rewrite payloads_of_partition; [reflexivity| |].
  - now apply partition_fuel_sizes.
  - now apply partition_fuel_Forall.
Qed.

End ChunkingRefinement.

(* ================================================================== *)
(** * Reading the reconciler *)
(* ================================================================== *)

(** ** Reading the guards *)

Lemma oid_eqb_eq (a b : oid) : oid_eqb a b = true <-> a = b.
Proof.
  destruct a as [x|], b as [y|]; simpl; split; intros H;
    try congruence; try reflexivity.
  - apply Pos.eqb_eq in H. now subst.
  - inversion H. apply Pos.eqb_refl.
Qed.

Lemma other_seller_false seller_info s_info :
  other_seller seller_info s_info = false <-> same_seller seller_info s_info.
Proof.
  unfold other_seller, same_seller.
  rewrite negb_false_iff. apply oid_eqb_eq.
Qed.

Lemma other_company_false seller_info s_info :
  other_company seller_info s_info = false
  <-> company_in_scope seller_info s_info.
Proof.
  unfold other_company, company_in_scope.
  rewrite negb_false_iff, orb_true_iff, !oid_eqb_eq. reflexivity.
Qed.

Lemma ended_before_false today s_info :
  ended_before today s_info = false <-> not_ended_before today s_info.
Proof.
  unfold ended_before, not_ended_before.
  destruct (s_date_end s_info) as [d|]; [|tauto].
  rewrite Z.ltb_ge. reflexivity.
Qed.

Lemma considered_true today seller_info s_info :
  considered today seller_info s_info = true
  <-> same_seller seller_info s_info
      /\ company_in_scope seller_info s_info
      /\ not_ended_before today s_info.
Proof.
  unfold considered.
  rewrite !andb_true_iff, !negb_true_iff.
  rewrite other_seller_false, other_company_false, ended_before_false.
  tauto.
Qed.

(** ** What the reconciler returns *)

Lemma find_last {A} (f : A -> bool) (l : list A) (x : A) :
  find f (l ++ [x])
  = match find f l with
    | Some y => Some y
    | None => if f x then Some x else None
    end.
Proof.
  induction l as [|a l IH]; simpl; [reflexivity|].
  destruct (f a); [reflexivity|exact IH].
Qed.

Lemma terminate_previous_eq today seller_info s_infos :
  forall seller_id result,
    terminate_previous today seller_info s_infos seller_id result
    = (match find (kept today seller_info) (rev s_infos) with
       | Some s_info => Some (s_id s_info)
       | None => seller_id
       end,
       result ++ map (termination today)
                     (filter (conflicting today seller_info) s_infos)).
Proof.
  induction s_infos as [|s rest IH]; intros seller_id result.
  - simpl. now rewrite app_nil_r.
  - cbn [terminate_previous rev filter].
    rewrite find_last. unfold conflicting, kept, considered.
    destruct (other_seller seller_info s); simpl;
      [rewrite IH; now destruct (find _ (rev rest))|].
    destruct (other_company seller_info s); simpl;
      [rewrite IH; now destruct (find _ (rev rest))|].
    destruct (ended_before today s); simpl;
      [rewrite IH; now destruct (find _ (rev rest))|].
    destruct (identical seller_info s); simpl.
    + rewrite IH. now destruct (find _ (rev rest)).
    + rewrite IH, <- app_assoc. now destruct (find _ (rev rest)).
Qed.

(** The commands are the terminations of the conflicting offers, in the
    order of the offers, followed by one creation unless an offer is
    kept. *)
Lemma _prepare_supplierinfo_eq today seller_info product :
  _prepare_supplierinfo today seller_info product
  = map (termination today)
        (filter (conflicting today seller_info) (existing_offers product))
    ++ (if existsb (kept today seller_info) (existing_offers product)
        then [] else [creation today seller_info]).
Proof.
  unfold _prepare_supplierinfo.
  destruct product as [p|]; [|reflexivity].
  cbn [existing_offers]. rewrite terminate_previous_eq. cbn [app].
  destruct (find (kept today seller_info) (rev (seller_ids p))) as [s|] eqn:F.
  - apply find_some in F as [Hin Hk]. apply in_rev in Hin.
    replace (existsb _ _) with true; [now rewrite app_nil_r|].
    symmetry. apply existsb_exists. eauto.
  - replace (existsb _ _) with false; [reflexivity|].
    symmetry. apply not_true_is_false. intros E.
    apply existsb_exists in E as (s & Hin & Hk).
    apply in_rev in Hin. rewrite (find_none _ _ F s Hin) in Hk. discriminate.
Qed.

Section ReconcilerFacts.
Variable today : date.
Variable seller_info : seller_info_dict.

Lemma apply_writes_app c1 c2 offers :
  apply_writes (c1 ++ c2) offers = apply_writes c2 (apply_writes c1 offers).
Proof. apply fold_left_app. Qed.

Lemma apply_writes_terminations l : forall offers,
  apply_writes (map (termination today) l) offers
  = map (end_if_listed today l) offers.
Proof.
  induction l as [|t l IH]; intros offers.
  - simpl. symmetry. apply map_id.
  - cbn [map apply_writes fold_left termination].
    change (1 =? 1) with true. cbv iota.
    fold (apply_writes (map (termination today) l)
                       (write_offer (Z.pos (s_id t))
                                    (DateEndVals (today - 1)) offers)).
    rewrite IH. unfold write_offer. rewrite map_map.
    apply map_ext. intros s. unfold end_if_listed, listed.
    cbn [existsb]. rewrite (Pos.eqb_sym (s_id t) (s_id s)).
    change (Z.pos (s_id s) =? Z.pos (s_id t)) with (Pos.eqb (s_id s) (s_id t)).
    destruct (Pos.eqb (s_id s) (s_id t)); cbn [orb].
    + cbn [with_date_end s_id].
      destruct (existsb _ l); reflexivity.
    + reflexivity.
Qed.

(** The writes of one run of the reconciler: every conflicting offer
    is ended yesterday, no other field of any offer changes. *)
Lemma apply_writes_result product :
  apply_writes (_prepare_supplierinfo today seller_info product)
               (existing_offers product)
  = map (end_if_listed today
           (filter (conflicting today seller_info) (existing_offers product)))
        (existing_offers product).
Proof.
  rewrite _prepare_supplierinfo_eq, apply_writes_app, apply_writes_terminations.
  destruct (existsb _ _); reflexivity.
Qed.

Lemma in_result_cases product c :
  In c (_prepare_supplierinfo today seller_info product) ->
  (exists s_info, In s_info (existing_offers product)
                  /\ conflicting today seller_info s_info = true
                  /\ c = termination today s_info)
  \/ (c = creation today seller_info
      /\ existsb (kept today seller_info) (existing_offers product) = false).
Proof.
  rewrite _prepare_supplierinfo_eq, in_app_iff, in_map_iff.
  intros [(s & <- & Hs)|H].
  - apply filter_In in Hs as [Hin Hc]. left; eauto.
  - destruct (existsb _ _) eqn:E; [contradiction|].
    destruct H as [<-|[]]. right; auto.
Qed.

Lemma terminated_in_result product s_info :
  In s_info (existing_offers product) ->
  conflicting today seller_info s_info = true ->
  In (termination today s_info)
     (_prepare_supplierinfo today seller_info product).
Proof.
  intros Hin Hc. rewrite _prepare_supplierinfo_eq, in_app_iff. left.
  apply in_map, filter_In. auto.
Qed.

End ReconcilerFacts.

Lemma NoDup_map_eq {A B} (f : A -> B) (l : list A) (x y : A) :
  NoDup (map f l) -> In x l -> In y l -> f x = f y -> x = y.
Proof.
  induction l as [|a l IH]; simpl; intros Hnd Hx Hy E; [contradiction|].
  inversion Hnd as [|? ? Hnotin Hnd']; subst.
  destruct Hx as [->|Hx], Hy as [->|Hy]; auto.
  - exfalso. apply Hnotin. rewrite E. now apply in_map.
  - exfalso. apply Hnotin. rewrite <- E. now apply in_map.
Qed.

Lemma filter_none {A} (f : A -> bool) (l : list A) :
  (forall x, In x l -> f x = false) -> filter f l = [].
Proof.
  induction l as [|a l IH]; simpl; intros H; [reflexivity|].
  rewrite (H a) by auto. apply IH. auto.
Qed.

Lemma considered_false today seller_info s_info :
  considered today seller_info s_info = false
  <-> s_name s_info <> si_name seller_info
      \/ (s_company_id s_info <> si_company_id seller_info
          /\ s_company_id s_info <> None)
      \/ (exists d, s_date_end s_info = Some d /\ d < today).
Proof.
  rewrite <- not_true_iff_false, considered_true.
  unfold same_seller, company_in_scope, not_ended_before.
  assert (Hdec : forall a b : oid, a = b \/ a <> b).
  { intros a b. destruct (oid_eqb a b) eqn:E.
    - left. now apply oid_eqb_eq.
    - right. intros H. apply oid_eqb_eq in H. congruence. }
  split.
  - intros Hn.
    destruct (Hdec (s_name s_info) (si_name seller_info)) as [Hs|Hs]; [|auto].
    destruct (Hdec (s_company_id s_info) (si_company_id seller_info))
      as [Hc|Hc].
    + destruct (s_date_end s_info) as [d|] eqn:Ed.
      * destruct (Z_lt_le_dec d today); [right; right; eauto|].
        exfalso. apply Hn. auto.
      * exfalso. apply Hn. auto.
    + destruct (Hdec (s_company_id s_info) None) as [Hc'|Hc']; [|auto].
      destruct (s_date_end s_info) as [d|] eqn:Ed.
      * destruct (Z_lt_le_dec d today); [right; right; eauto|].
        exfalso. apply Hn. auto.
      * exfalso. apply Hn. auto.
  - intros [H|[[H1 H2]|(d & Hd & Hlt)]] (Hs & Hc & He).
    + contradiction.
    + destruct Hc; contradiction.
    + rewrite Hd in He. lia.
Qed.

(* ================================================================== *)
(** * Properties of the offer reconciler *)
(* ================================================================== *)

(** On strings, [==] is equality of the contents. *)
Lemma py_eq_strings (a b : string) : py_eq (PStr a) (PStr b) = true <-> a = b.
Proof. simpl. apply String.eqb_eq. Qed.

Lemma kept_true today seller_info s_info :
  kept today seller_info s_info = true
  <-> (same_seller seller_info s_info
       /\ company_in_scope seller_info s_info
       /\ not_ended_before today s_info)
      /\ identical seller_info s_info = true.
Proof.
  unfold kept. now rewrite andb_true_iff, considered_true.
Qed.

Lemma conflicting_true today seller_info s_info :
  conflicting today seller_info s_info = true
  <-> (same_seller seller_info s_info
       /\ company_in_scope seller_info s_info
       /\ not_ended_before today s_info)
      /\ identical seller_info s_info = false.
Proof.
  unfold conflicting.
  now rewrite andb_true_iff, considered_true, negb_true_iff.
Qed.

Lemma setdefault_date_start_fields seller_info today :
  let created := setdefault_date_start seller_info today in
  si_date_start created
  = Some (match si_date_start seller_info with
          | Some given => given
          | None => today
          end)
  /\ si_name created = si_name seller_info
  /\ si_product_code created = si_product_code seller_info
  /\ si_price created = si_price seller_info
  /\ si_currency_id created = si_currency_id seller_info
  /\ si_min_qty created = si_min_qty seller_info
  /\ si_company_id created = si_company_id seller_info
  /\ si_delay created = si_delay seller_info.
Proof.
  unfold setdefault_date_start.
  destruct (si_date_start seller_info) eqn:E; simpl; rewrite ?E; tauto.
Qed.

(** C2 -- Offer termination window.  Every existing offer of the
    candidate's seller that conflicts (same seller, company equal to the
    candidate's or unset, not ended before today, not field-identical)
    receives the update command that sets its [date_end] to the day
    before [today], and once the writes are applied its [date_end] is
    that day; and when no offer in scope is field-identical, the
    result holds the create command, whose [date_start] is [today]
    unless the candidate brings its own, which is then kept. *)
Theorem offer_termination_window
        (today : date) (seller_info : seller_info_dict)
        (product : option product_rec) :
  let result := _prepare_supplierinfo today seller_info product in
  (forall s_info,
      In s_info (existing_offers product) ->
      same_seller seller_info s_info ->
      company_in_scope seller_info s_info ->
      not_ended_before today s_info ->
      identical seller_info s_info = false ->
      In (1, Z.pos (s_id s_info), DateEndVals (today - 1)) result
      /\ forall i,
          nth_error (existing_offers product) i = Some s_info ->
          nth_error (apply_writes result (existing_offers product)) i
          = Some (with_date_end s_info (today - 1)))
  /\ ((forall s_info,
          In s_info (existing_offers product) ->
          same_seller seller_info s_info ->
          company_in_scope seller_info s_info ->
          not_ended_before today s_info ->
          identical seller_info s_info = false) ->
      exists created,
        In (0, 0, SellerInfoVals created) result
        /\ si_date_start created
           = Some (match si_date_start seller_info with
                   | Some given => given
                   | None => today
                   end)
        /\ si_name created = si_name seller_info
        /\ si_product_code created = si_product_code seller_info
        /\ si_price created = si_price seller_info
        /\ si_currency_id created = si_currency_id seller_info
        /\ si_min_qty created = si_min_qty seller_info
        /\ si_company_id created = si_company_id seller_info
        /\ si_delay created = si_delay seller_info).
Proof.
  intros result; subst result; split.
  - intros s Hin Hs Hc He Hid.
    assert (Hconf : conflicting today seller_info s = true)
      by (apply conflicting_true; auto).
    split.
    + exact (terminated_in_result today seller_info product s Hin Hconf).
    + intros i Hi. rewrite apply_writes_result, nth_error_map, Hi.
      cbn [option_map]. unfold end_if_listed.
      replace (listed _ s) with true; [reflexivity|].
      symmetry. apply existsb_exists. exists s. split.
      * apply filter_In; auto.
      * apply Pos.eqb_refl.
  - intros Hnone.
    exists (setdefault_date_start seller_info today). split.
    + rewrite _prepare_supplierinfo_eq, in_app_iff. right.
      destruct (existsb _ _) eqn:E; [|now left].
      apply existsb_exists in E as (s & Hin & Hk).
      apply kept_true in Hk as [(Hs & Hc & He) Hid].
      rewrite (Hnone s Hin Hs Hc He) in Hid. discriminate.
    + apply setdefault_date_start_fields.
Qed.

(** C3 -- Idempotence.  If the offers hold one that is in scope (same
    seller, company equal to the candidate's or unset, not ended before
    today) and field-identical to the candidate, the result holds no
    create command and no command for that offer.  And on reapplying
    the line: once the writes of a run are applied and the offers hold
    such an identical offer, the next run (the same day or later)
    returns no command at all. *)
Theorem reconcile_idempotent
        (today : date) (seller_info : seller_info_dict)
        (product : option product_rec) :
  let offers := existing_offers product in
  let result := _prepare_supplierinfo today seller_info product in
  (forall s_info,
      NoDup (map s_id offers) ->
      In s_info offers ->
      same_seller seller_info s_info ->
      company_in_scope seller_info s_info ->
      not_ended_before today s_info ->
      identical seller_info s_info = true ->
      (forall command line_id values,
          In (command, line_id, values) result -> command <> 0)
      /\ (forall command values,
             ~ In (command, Z.pos (s_id s_info), values) result))
  /\ (forall today' created product',
         today <= today' ->
         seller_ids product' = apply_writes result offers ++ created ->
         Forall (fun n => identical seller_info n = true) created ->
         (exists s_info,
             In s_info (seller_ids product')
             /\ same_seller seller_info s_info
             /\ company_in_scope seller_info s_info
             /\ not_ended_before today' s_info
             /\ identical seller_info s_info = true) ->
         _prepare_supplierinfo today' seller_info (Some product') = []).
Proof.
  intros offers result; subst offers result; split.
  - intros s Hnd Hin Hs Hc He Hid.
    assert (Hk : kept today seller_info s = true)
      by (apply kept_true; auto).
    split.
    + intros command line_id values Hc0.
      apply in_result_cases in Hc0 as [(t & _ & _ & E)|[_ E]].
      * inversion E; subst. discriminate.
      * assert (existsb (kept today seller_info) (existing_offers product)
                = true) by (apply existsb_exists; eauto).
        congruence.
    + intros command values Hc0.
      apply in_result_cases in Hc0 as [(t & Ht & Hconf & E)|[E _]].
      * inversion E as [[Ecmd Eid Evals]].
        assert (t = s).
        { apply (NoDup_map_eq s_id (existing_offers product)); auto;
            congruence. }
        subst t. apply conflicting_true in Hconf as [_ Hconf]. congruence.
      * inversion E.
  - intros today' created product' Hle Hoffers Hcreated
           (s & Hin & Hs & Hc & He & Hid).
    rewrite _prepare_supplierinfo_eq. cbn [existing_offers].
    replace (existsb (kept today' seller_info) (seller_ids product'))
      with true
      by (symmetry; apply existsb_exists; exists s; split; auto;
          apply kept_true; auto).
    rewrite app_nil_r, filter_none; [reflexivity|].
    intros x Hx. rewrite Hoffers, in_app_iff in Hx.
    unfold conflicting. destruct Hx as [Hx|Hx].
    + rewrite apply_writes_result in Hx.
      apply in_map_iff in Hx as (o & <- & Ho).
      unfold end_if_listed.
      destruct (listed _ o) eqn:El.
      * replace (considered today' seller_info (with_date_end o (today - 1)))
          with false; [reflexivity|].
        symmetry. apply considered_false. right; right.
        exists (today - 1). split; [reflexivity|lia].
      * destruct (considered today' seller_info o) eqn:Eco; [|reflexivity].
        destruct (identical seller_info o) eqn:Eid; [reflexivity|].
        exfalso.
        apply considered_true in Eco as (Hso & Hco & Heo).
        destruct (conflicting today seller_info o) eqn:Econf.
        -- assert (listed (filter (conflicting today seller_info)
                                  (existing_offers product)) o = true).
           { apply existsb_exists. exists o. split.
             - apply filter_In; auto.
             - apply Pos.eqb_refl. }
           congruence.
        -- apply not_true_iff_false in Econf. apply Econf.
           apply conflicting_true. repeat split; auto.
           unfold not_ended_before in *.
           destruct (s_date_end o); [lia|exact I].
    + rewrite Forall_forall in Hcreated. rewrite (Hcreated x Hx).
      apply andb_false_r.
Qed.

(** C9 -- Scope of the reconciliation.  An update command always names
    an offer of the candidate's seller whose company is the candidate's
    or unset and which has no end date or one of today or later; each
    such offer is taken up (ended yesterday when it differs from the
    candidate, and then no longer open; matched when it is identical,
    and then no create is issued); and an offer of another seller, of a
    different company or ended before today is named by no command and
    is the same record after the writes. *)
Theorem reconcile_scope
        (today : date) (seller_info : seller_info_dict)
        (product : option product_rec) :
  let offers := existing_offers product in
  let result := _prepare_supplierinfo today seller_info product in
  (forall command line_id values,
      In (command, line_id, values) result -> command = 1 ->
      exists s_info,
        In s_info offers /\ line_id = Z.pos (s_id s_info)
        /\ s_name s_info = si_name seller_info
        /\ (s_company_id s_info = si_company_id seller_info
            \/ s_company_id s_info = None)
        /\ (s_date_end s_info = None
            \/ exists d, s_date_end s_info = Some d /\ today <= d))
  /\ (forall s_info,
         In s_info offers ->
         s_name s_info = si_name seller_info ->
         (s_company_id s_info = si_company_id seller_info
          \/ s_company_id s_info = None) ->
         (s_date_end s_info = None
          \/ exists d, s_date_end s_info = Some d /\ today <= d) ->
         if identical seller_info s_info
         then ~ In (0, 0, SellerInfoVals
                            (setdefault_date_start seller_info today)) result
         else In (1, Z.pos (s_id s_info), DateEndVals (today - 1)) result)
  /\ (forall s_info,
         NoDup (map s_id offers) ->
         In s_info offers ->
         (s_name s_info <> si_name seller_info
          \/ (s_company_id s_info <> si_company_id seller_info
              /\ s_company_id s_info <> None)
          \/ (exists d, s_date_end s_info = Some d /\ d < today)) ->
         (forall command values,
             ~ In (command, Z.pos (s_id s_info), values) result)
         /\ (forall i, nth_error offers i = Some s_info ->
                       nth_error (apply_writes result offers) i = Some s_info)).
Proof.
  intros offers result; subst offers result.
  assert (Hne : forall s, not_ended_before today s
                          <-> (s_date_end s = None
                               \/ exists d, s_date_end s = Some d /\ today <= d)).
  { intros s. unfold not_ended_before.
    destruct (s_date_end s) as [d|]; split; auto.
    - intros H. right. eauto.
    - intros [H|(d' & E & H)]; [discriminate|]. now inversion E; subst. }
  split; [|split].
  - intros command line_id values Hin Hcmd.
    apply in_result_cases in Hin as [(t & Ht & Hconf & E)|[E _]].
    + inversion E; subst.
      apply conflicting_true in Hconf as [(Hs & Hc & He) _].
      exists t. repeat split; auto. now apply Hne.
    + inversion E; subst. discriminate.
  - intros s Hin Hs Hc He. apply Hne in He.
    destruct (identical seller_info s) eqn:Eid.
    + intros Hcr.
      apply in_result_cases in Hcr as [(t & _ & _ & E)|[_ E]].
      * inversion E.
      * assert (existsb (kept today seller_info) (existing_offers product)
                = true)
          by (apply existsb_exists; exists s; split; auto;
              apply kept_true; auto).
        congruence.
    + apply (terminated_in_result today seller_info product s Hin).
      apply conflicting_true. auto.
  - intros s Hnd Hin Hout.
    apply considered_false in Hout.
    assert (Hnl : listed (filter (conflicting today seller_info)
                                 (existing_offers product)) s = false).
    { apply not_true_iff_false. intros Hl.
      apply existsb_exists in Hl as (t & Ht & Eid).
      apply filter_In in Ht as [Ht Hconf]. apply Pos.eqb_eq in Eid.
      assert (t = s)
        by (apply (NoDup_map_eq s_id (existing_offers product)); auto).
      subst t. unfold conflicting in Hconf. rewrite Hout in Hconf.
      discriminate. }
    split.
    + intros command values Hc0.
      apply in_result_cases in Hc0 as [(t & Ht & Hconf & E)|[E _]].
      * inversion E as [[Ecmd Eid Evals]].
        assert (t = s).
        { apply (NoDup_map_eq s_id (existing_offers product)); auto;
            congruence. }
        subst t. unfold conflicting in Hconf. rewrite Hout in Hconf.
        discriminate.
      * inversion E.
    + intros i Hi. rewrite apply_writes_result, nth_error_map, Hi.
      cbn [option_map]. unfold end_if_listed. now rewrite Hnl.
Qed.

(* ================================================================== *)
(** * Properties of the chunk scheduler *)
(* ================================================================== *)

Lemma ceil_div_spec n c :
  0 < c -> c * (ceil_div n c - 1) < n <= c * ceil_div n c.
Proof.
  intros Hc. unfold ceil_div.
  pose proof (Z.div_mod (n + c - 1) c ltac:(lia)) as Hdm.
  pose proof (Z.mod_pos_bound (n + c - 1) c Hc) as Hb.
  nia.
Qed.

Lemma zip_longest_shared_returns {A} (n : Z) (l : list A) :
  exists tuples, Itertools.zip_longest_shared n l = Some tuples.
Proof.
  unfold Itertools.zip_longest_shared.
  destruct (Nat.eqb (Z.to_nat n) 0) eqn:E; [eauto|].
  apply Nat.eqb_neq in E.
  rewrite zl_loop_partition by lia. eauto.
Qed.

(** The iteration of [zip_longest] always comes to its end. *)
Lemma dispatched_chunks_returns {A} (truthy : A -> bool) (n : Z) (l : list A) :
  exists chunks, dispatched_chunks truthy n l = Some chunks.
Proof.
  unfold dispatched_chunks.
  destruct (zip_longest_shared_returns n l) as [tuples ->]. eauto.
Qed.

Lemma ceil_div_of_nat (a k : nat) :
  (0 < k)%nat ->
  Z.of_nat ((a + k - 1) / k) = ceil_div (Z.of_nat a) (Z.of_nat k).
Proof.
  intros Hk. unfold ceil_div. rewrite Nat2Z.inj_div. f_equal. lia.
Qed.

(** C1 -- Partition completeness.  For a chunk size [C > 0] and a
    product list of length [N], the loop of [import_button] comes to its
    end and has dispatched (in [chunks_of], the list that
    [import_button] walks) exactly [ceil(N/C)] chunks; each holds at
    least 1 and at most [C] entries; every chunk but the last holds
    exactly [C]; no chunk holds a [None] placeholder; and the chunks,
    concatenated in dispatch order, are the product list. *)
Theorem import_button_chunking
        (chunk_size : Z) (products : list ParsedProductLine) :
  0 < chunk_size ->
  exists chunks,
    dispatched_chunks line_truthy chunk_size products = Some chunks
    /\ chunks_of chunk_size products = chunks
    /\ Z.of_nat (List.length chunks)
       = ceil_div (Z.of_nat (List.length products)) chunk_size
    /\ Forall (fun chunk => 1 <= Z.of_nat (List.length chunk) <= chunk_size)
              chunks
    /\ (forall i, (S i < List.length chunks)%nat ->
                  Z.of_nat (List.length (nth i chunks [])) = chunk_size)
    /\ Forall (Forall (fun slot => slot <> None)) chunks
    /\ List.concat chunks = map Some products.
Proof.
  intros HC.
  set (k := Z.to_nat chunk_size).
  assert (Hk : (0 < k)%nat) by (unfold k; lia).
  assert (Ek : Z.of_nat k = chunk_size) by (unfold k; lia).
  exists (map (map Some) (partition k products)).
  assert (Hd : dispatched_chunks line_truthy chunk_size products
               = Some (map (map Some) (partition k products))).
  { apply dispatched_chunks_partition; [exact HC|].
    apply Forall_forall. reflexivity. }
  split; [exact Hd|].
  split; [unfold chunks_of; now rewrite Hd|].
  split; [|split; [|split; [|split]]].
  - rewrite length_map. unfold partition.
    rewrite partition_fuel_count by lia.
    rewrite ceil_div_of_nat by exact Hk. now rewrite Ek.
  - apply Forall_map.
    eapply Forall_impl; [|apply (partition_fuel_sizes k Hk)].
    intros c Hc. cbv beta in Hc. rewrite length_map. lia.
  - intros i Hi. rewrite length_map in Hi.
    change (@nil (option ParsedProductLine)) with (map (@Some ParsedProductLine) []).
    rewrite map_nth, length_map. unfold partition in *.
    rewrite partition_fuel_full by exact Hi. exact Ek.
  - apply Forall_map, Forall_forall. intros c _.
    apply Forall_map, Forall_forall. intros p _. discriminate.
  - rewrite <- concat_map. f_equal.
    apply partition_fuel_concat; [exact Hk|lia].
Qed.

(* ================================================================== *)
(** * Properties of the methods *)
(* ================================================================== *)

Section MethodFacts.
Context {env : Env}.
Local Open Scope py_scope.

Lemma bind_ok {A B} (m : M A) (k : A -> M B) w w' a :
  m w = (w', Ok a) -> bind m k w = k a w'.
Proof. intros H. unfold bind. now rewrite H. Qed.

Lemma bind_raise {A B} (m : M A) (k : A -> M B) w w' e :
  m w = (w', Raise e) -> bind m k w = (w', Raise e).
Proof. intros H. unfold bind. now rewrite H. Qed.

Lemma import_effects_jobs events events' :
  import_effects events = import_effects events' ->
  enqueued_jobs events = enqueued_jobs events'.
Proof.
  intros H.
  assert (E : forall l, enqueued_jobs l = filter is_job (import_effects l)).
  { intros l. unfold enqueued_jobs, import_effects.
    induction l as [|e l IH]; [reflexivity|].
    destruct e; cbn [filter scheduled_or_recorded is_job]; now rewrite ?IH. }
  rewrite (E events), (E events'). now rewrite H.
Qed.

Lemma parse_product_catalogue_events file_content filename w w' r :
  parse_product_catalogue file_content filename w = (w', r) ->
  w_events w' = w_events w.
Proof.
  unfold parse_product_catalogue, bind, lift, set_chatter, ret, raise.
  destruct (_parse_file filename file_content false) as [[| |c]|e];
    intros H; inversion H; reflexivity.
Qed.

Lemma _get_company_id_events catalogue w w' r :
  _get_company_id catalogue w = (w', r) ->
  import_effects (w_events w') = import_effects (w_events w).
Proof.
  unfold _get_company_id.
  destruct (cat_company catalogue) as [[|kv company_vals]|].
  - unfold ret. intros H; inversion H; reflexivity.
  - unfold bind, emit, with_chatter, ret. cbn [w_chatter upd_events].
    destruct (_match_partner _ _ _ _ _) as [msgs [[part|]|e]];
      intros H; inversion H; cbn [w_events upd_chatter upd_events];
      unfold import_effects; rewrite filter_app; cbn [filter scheduled_or_recorded];
      now rewrite app_nil_r.
  - unfold ret. intros H; inversion H; reflexivity.
Qed.

Lemma _get_seller_events catalogue w w' r :
  _get_seller catalogue w = (w', r) ->
  w_events w' = w_events w ++ [PartnerMatched (cat_seller catalogue) "supplier"].
Proof.
  unfold _get_seller, bind, emit, with_chatter.
  cbn [w_chatter upd_events].
  destruct (_match_partner _ _ _ _ _) as [msgs r'].
  intros H; inversion H; reflexivity.
Qed.

Lemma enqueue_each_resolved product_company_id seller chunks : forall w,
  enqueue_each product_company_id (Some seller) chunks w
  = (upd_events w
       (w_events w
        ++ map (fun products =>
                  JobEnqueued product_company_id products (partner_id seller))
               chunks),
     Ok tt).
Proof.
  induction chunks as [|c chunks IH]; intros w.
  - simpl. unfold ret, upd_events. rewrite app_nil_r. now destruct w.
  - cbn [enqueue_each map]. unfold bind at 1, emit.
    rewrite IH. unfold upd_events. cbn [w_db w_chatter w_events].
    now rewrite <- app_assoc.
Qed.

Lemma enqueue_each_unresolved product_company_id chunks w :
  chunks <> [] ->
  enqueue_each product_company_id None chunks w
  = (w, Raise (AttributeError "'NoneType' object has no attribute 'id'")).
Proof. destruct chunks; [congruence|reflexivity]. Qed.

End MethodFacts.

Section OrchestratorFacts.
Context {env : Env}.
Local Open Scope py_scope.

Variables (self : wizard) (chunk_size : Z) (w w1 : world).
Variables (file_content : list Byte.byte) (catalogue : catalogue_dict).
Hypothesis Hdecode : b64decode_field (product_file self) = Ok file_content.
Hypothesis Hparse :
  parse_product_catalogue file_content (product_filename self) w
  = (w1, Ok catalogue).

Lemma import_button_parsed :
  import_button self chunk_size w
  = match cat_products catalogue with
    | None | Some [] =>
        (w1, Raise (UserError "This catalogue doesn't have any product!"))
    | Some products =>
        (company_id <- _get_company_id catalogue ;;
         seller <- _get_seller catalogue ;;
         enqueue_each company_id seller (chunks_of chunk_size products) ;;
         w' <- get_world ;;
         emit (DocumentRecorded catalogue (w_chatter w') seller
                                (product_filename self)) ;;
         match seller with
         | None =>
             raise (AttributeError "'NoneType' object has no attribute 'name'")
         | Some _ => ret act_window_close
         end) w1
    end.
Proof.
  unfold import_button.
  rewrite (bind_ok _ _ w w file_content)
    by (unfold lift; now rewrite Hdecode).
  rewrite (bind_ok _ _ w w1 catalogue Hparse).
  destruct (cat_products catalogue) as [[|p ps]|]; reflexivity.
Qed.

Lemma import_button_resolved p ps w2 w3 company_id seller :
  cat_products catalogue = Some (p :: ps) ->
  _get_company_id catalogue w1 = (w2, Ok company_id) ->
  _get_seller catalogue w2 = (w3, Ok (Some seller)) ->
  import_button self chunk_size w
  = (upd_events w3
       (w_events w3
        ++ map (fun products =>
                  JobEnqueued company_id products (partner_id seller))
               (chunks_of chunk_size (p :: ps))
        ++ [DocumentRecorded catalogue (w_chatter w3) (Some seller)
                             (product_filename self)]),
     Ok act_window_close).
Proof.
  intros Hp Hc Hs. rewrite import_button_parsed, Hp.
  rewrite (bind_ok _ _ _ _ _ Hc), (bind_ok _ _ _ _ _ Hs).
  rewrite (bind_ok _ _ _ _ _ (enqueue_each_resolved _ _ _ _)).
  unfold bind, get_world, emit, ret, upd_events.
  cbn [w_db w_chatter w_events]. now rewrite <- app_assoc.
Qed.

Lemma import_button_company_raises p ps w2 e :
  cat_products catalogue = Some (p :: ps) ->
  _get_company_id catalogue w1 = (w2, Raise e) ->
  import_button self chunk_size w = (w2, Raise e).
Proof.
  intros Hp Hc. rewrite import_button_parsed, Hp.
  now rewrite (bind_raise _ _ _ _ _ Hc).
Qed.

Lemma import_button_seller_raises p ps w2 w3 company_id e :
  cat_products catalogue = Some (p :: ps) ->
  _get_company_id catalogue w1 = (w2, Ok company_id) ->
  _get_seller catalogue w2 = (w3, Raise e) ->
  import_button self chunk_size w = (w3, Raise e).
Proof.
  intros Hp Hc Hs. rewrite import_button_parsed, Hp.
  rewrite (bind_ok _ _ _ _ _ Hc). now rewrite (bind_raise _ _ _ _ _ Hs).
Qed.

(** Without a seller, the first chunk already fails on [seller.id]; no
    job is enqueued. *)
Lemma import_button_seller_none p ps w2 w3 company_id :
  cat_products catalogue = Some (p :: ps) ->
  _get_company_id catalogue w1 = (w2, Ok company_id) ->
  _get_seller catalogue w2 = (w3, Ok None) ->
  exists wf e,
    import_button self chunk_size w = (wf, Raise e)
    /\ (w_events wf = w_events w3
        \/ w_events wf
           = w_events w3 ++ [DocumentRecorded catalogue (w_chatter w3) None
                                              (product_filename self)]).
Proof.
  intros Hp Hc Hs. rewrite import_button_parsed, Hp.
  rewrite (bind_ok _ _ _ _ _ Hc), (bind_ok _ _ _ _ _ Hs).
  destruct (chunks_of chunk_size (p :: ps)) as [|c cs] eqn:E.
  - unfold bind, enqueue_each, ret, get_world, emit, raise, upd_events.
    cbn [w_db w_chatter w_events]. eauto.
  - rewrite (bind_raise _ _ _ _ _
               (enqueue_each_unresolved company_id (c :: cs) w3
                                        ltac:(discriminate))).
    eauto.
Qed.

End OrchestratorFacts.

Section OrchestratorProperties.
Context {env : Env}.
Local Open Scope py_scope.

(** C6 -- Empty catalogue.  When the parsed catalogue has an empty
    product list (or none at all), [import_button] raises the user
    error "This catalogue doesn't have any product!" in the state the
    parser left: no partner has been resolved, no chunk enqueued and no
    document recorded. *)
Theorem empty_catalogue_aborts
        (self : wizard) (chunk_size : Z) (w w1 : world)
        (file_content : list Byte.byte) (catalogue : catalogue_dict) :
  b64decode_field (product_file self) = Ok file_content ->
  parse_product_catalogue file_content (product_filename self) w
  = (w1, Ok catalogue) ->
  cat_products catalogue = Some [] \/ cat_products catalogue = None ->
  import_button self chunk_size w
  = (w1, Raise (UserError "This catalogue doesn't have any product!"))
  /\ w_events w1 = w_events w.
Proof.
  intros Hdecode Hparse Hempty. split.
  - rewrite (import_button_parsed self chunk_size w w1 file_content catalogue
                                  Hdecode Hparse).
    destruct Hempty as [-> | ->]; reflexivity.
  - eapply parse_product_catalogue_events; eauto.
Qed.

Lemma in_import_effects e events :
  In e events -> scheduled_or_recorded e = true ->
  In e (import_effects events).
Proof. intros. apply filter_In. auto. Qed.

Lemma import_effects_in e events :
  In e (import_effects events) -> In e events.
Proof. intros H. now apply filter_In in H. Qed.

(** C7 -- Resolving step.  Once the catalogue is parsed and holds
    products: (1) a catalogue that names no company resolves to the
    unset company at once; (2) so does one whose company the resolver,
    called in its non-raising mode, does not find; (3) so does one
    whose partner is found but is no company's partner; (4) with the
    company unset and the seller resolved, the import runs to its end
    and every job carries the unset company; (5) when the seller
    resolution raises, the import raises the same error and neither a
    job nor a document has been added; (6) when it returns no partner,
    the import raises as well and no job has been added; (7) whatever
    the outcome, every job added carries the id of a partner that the
    seller resolution returned. *)
Theorem resolving_step
        (self : wizard) (chunk_size : Z) (w w1 : world)
        (file_content : list Byte.byte) (catalogue : catalogue_dict)
        (p : ParsedProductLine) (ps : list ParsedProductLine) :
  b64decode_field (product_file self) = Ok file_content ->
  parse_product_catalogue file_content (product_filename self) w
  = (w1, Ok catalogue) ->
  cat_products catalogue = Some (p :: ps) ->
  (cat_company catalogue = None \/ cat_company catalogue = Some [] ->
   _get_company_id catalogue w1 = (w1, Ok None))
  /\ (forall company_vals msgs,
         cat_company catalogue = Some company_vals ->
         company_vals <> [] ->
         _match_partner company_vals (w_chatter w1) "contact"
                        (Some [("is_company", "=", PBool true)]) (Some false)
         = (msgs, Ok None) ->
         exists w2, _get_company_id catalogue w1 = (w2, Ok None))
  /\ (forall company_vals msgs part,
         cat_company catalogue = Some company_vals ->
         company_vals <> [] ->
         _match_partner company_vals (w_chatter w1) "contact"
                        (Some [("is_company", "=", PBool true)]) (Some false)
         = (msgs, Ok (Some part)) ->
         res_company_search (partner_id part) = None ->
         exists w2, _get_company_id catalogue w1 = (w2, Ok None))
  /\ (forall w2 w3 seller,
         _get_company_id catalogue w1 = (w2, Ok None) ->
         _get_seller catalogue w2 = (w3, Ok (Some seller)) ->
         exists wf,
           import_button self chunk_size w = (wf, Ok act_window_close)
           /\ w_events wf
              = w_events w3
                ++ map (fun products =>
                          JobEnqueued None products (partner_id seller))
                       (chunks_of chunk_size (p :: ps))
                ++ [DocumentRecorded catalogue (w_chatter w3) (Some seller)
                                     (product_filename self)])
  /\ (forall w2 w3 company_id e,
         _get_company_id catalogue w1 = (w2, Ok company_id) ->
         _get_seller catalogue w2 = (w3, Raise e) ->
         import_button self chunk_size w = (w3, Raise e)
         /\ import_effects (w_events w3) = import_effects (w_events w))
  /\ (forall w2 w3 company_id,
         _get_company_id catalogue w1 = (w2, Ok company_id) ->
         _get_seller catalogue w2 = (w3, Ok None) ->
         exists wf e,
           import_button self chunk_size w = (wf, Raise e)
           /\ enqueued_jobs (w_events wf) = enqueued_jobs (w_events w))
  /\ (forall wf r product_company_id products seller_id,
         import_button self chunk_size w = (wf, r) ->
         In (JobEnqueued product_company_id products seller_id) (w_events wf) ->
         ~ In (JobEnqueued product_company_id products seller_id) (w_events w) ->
         exists w2 w3 seller,
           _get_seller catalogue w2 = (w3, Ok (Some seller))
           /\ seller_id = partner_id seller).
Proof.
  intros Hdecode Hparse Hp.
  pose proof (parse_product_catalogue_events _ _ _ _ _ Hparse) as Hev1.
  split; [|split; [|split; [|split; [|split; [|split]]]]].
  - unfold _get_company_id. intros [-> | ->]; reflexivity.
  - intros company_vals msgs Hc Hne Hm. unfold _get_company_id. rewrite Hc.
    destruct company_vals as [|kv rest]; [congruence|].
    unfold bind, emit, with_chatter, ret. cbn [w_chatter upd_events].
    rewrite Hm. eauto.
  - intros company_vals msgs part Hc Hne Hm Hs. unfold _get_company_id.
    rewrite Hc. destruct company_vals as [|kv rest]; [congruence|].
    unfold bind, emit, with_chatter, ret. cbn [w_chatter upd_events].
    rewrite Hm, Hs. eauto.
  - intros w2 w3 seller Hc Hs.
    rewrite (import_button_resolved self chunk_size w w1 file_content
               catalogue Hdecode Hparse p ps w2 w3 None seller Hp Hc Hs).
    eexists; split; reflexivity.
  - intros w2 w3 company_id e Hc Hs. split.
    + eapply import_button_seller_raises; eauto.
    + rewrite (_get_seller_events _ _ _ _ Hs).
      unfold import_effects at 1. rewrite filter_app.
      cbn [filter scheduled_or_recorded]. rewrite app_nil_r.
      fold (import_effects (w_events w2)).
      rewrite (_get_company_id_events _ _ _ _ Hc). now rewrite Hev1.
  - intros w2 w3 company_id Hc Hs.
    destruct (import_button_seller_none self chunk_size w w1 file_content
                catalogue Hdecode Hparse p ps w2 w3 company_id Hp Hc Hs)
      as (wf & e & Hrun & Hev).
    exists wf, e. split; [exact Hrun|].
    assert (H3 : enqueued_jobs (w_events w3) = enqueued_jobs (w_events w)).
    { rewrite (_get_seller_events _ _ _ _ Hs).
      unfold enqueued_jobs at 1. rewrite filter_app.
      cbn [filter is_job]. rewrite app_nil_r.
      fold (enqueued_jobs (w_events w2)).
      rewrite <- Hev1. apply import_effects_jobs.
      exact (_get_company_id_events _ _ _ _ Hc). }
    destruct Hev as [-> | ->]; [exact H3|].
    unfold enqueued_jobs at 1. rewrite filter_app.
    cbn [filter is_job]. rewrite app_nil_r. exact H3.
  - intros wf r product_company_id products seller_id Hrun Hin Hnew.
    set (job := JobEnqueued product_company_id products seller_id) in *.
    assert (Hold : forall w2 r2,
               _get_company_id catalogue w1 = (w2, r2) ->
               ~ In job (w_events w2)).
    { intros w2 r2 Hc Hj. apply Hnew. rewrite <- Hev1.
      apply import_effects_in.
      rewrite <- (_get_company_id_events _ _ _ _ Hc).
      now apply in_import_effects. }
    destruct (_get_company_id catalogue w1) as [w2 [company_id|e]] eqn:Hc.
    + pose proof (Hold w2 _ eq_refl) as Hold2.
      destruct (_get_seller catalogue w2) as [w3 [[seller|]|e]] eqn:Hs.
      * exists w2, w3, seller. split; [exact Hs|].
        rewrite (import_button_resolved self chunk_size w w1 file_content
                   catalogue Hdecode Hparse p ps w2 w3 company_id seller
                   Hp Hc Hs) in Hrun.
        inversion Hrun; subst wf. cbn [w_events upd_events] in Hin.
        rewrite (_get_seller_events _ _ _ _ Hs) in Hin.
        rewrite !in_app_iff in Hin.
        destruct Hin as [[Hin|[Hin|[]]]|[Hin|[Hin|[]]]];
          try discriminate; [contradiction|].
        apply in_map_iff in Hin as (c & E & _).
        unfold job in E. now inversion E.
      * exfalso.
        destruct (import_button_seller_none self chunk_size w w1 file_content
                    catalogue Hdecode Hparse p ps w2 w3 company_id Hp Hc Hs)
          as (wf' & e & Hrun' & Hev).
        rewrite Hrun' in Hrun. inversion Hrun; subst wf'.
        rewrite (_get_seller_events _ _ _ _ Hs) in Hev.
        destruct Hev as [Hev|Hev]; rewrite Hev, !in_app_iff in Hin;
          cbn [In] in Hin; unfold job in Hin;
          intuition (try discriminate).
      * exfalso.
        rewrite (import_button_seller_raises self chunk_size w w1
                   file_content catalogue Hdecode Hparse p ps w2 w3
                   company_id e Hp Hc Hs) in Hrun.
        inversion Hrun; subst wf.
        rewrite (_get_seller_events _ _ _ _ Hs), in_app_iff in Hin.
        cbn [In] in Hin. unfold job in Hin. intuition (try discriminate).
    + exfalso.
      rewrite (import_button_company_raises self chunk_size w w1 file_content
                 catalogue Hdecode Hparse p ps w2 e Hp Hc) in Hrun.
      inversion Hrun; subst wf. exact (Hold w2 _ eq_refl Hin).
Qed.

End OrchestratorProperties.

Section JobFacts.
Context {env : Env}.
Local Open Scope py_scope.

Lemma write_supplierinfo_supported product supplierinfo :
  Forall supported supplierinfo ->
  forall w,
    write_supplierinfo product supplierinfo w
    = ({| w_db := run_events (map (offer_event product) supplierinfo) (w_db w);
          w_chatter := w_chatter w;
          w_events := w_events w ++ map (offer_event product) supplierinfo |},
       Ok tt).
Proof.
  induction 1 as [|[[command line_id] values] rest Hc _ IH]; intros w.
  - simpl. unfold ret. rewrite app_nil_r. now destruct w.
  - cbn [write_supplierinfo map offer_event].
    destruct Hc as [Hc|Hc]; cbn [fst] in Hc; subst command; cbn [Z.eqb Pos.eqb];
      unfold bind at 1, orm; rewrite IH;
      cbn [w_db w_chatter w_events run_events fold_left];
      now rewrite <- app_assoc.
Qed.

Lemma _prepare_supplierinfo_supported today seller_info product :
  Forall supported (_prepare_supplierinfo today seller_info product).
Proof.
  apply Forall_forall. intros c Hc.
  apply in_result_cases in Hc as [(s & _ & _ & ->)|[-> _]];
    [left|right]; reflexivity.
Qed.

(** What a successful [_prepare_product] hands over. *)
Lemma _prepare_product_returns product_company_id parsed_product seller
      w w' product_vals :
  _prepare_product product_company_id parsed_product seller w
  = (w', Ok (Some product_vals)) ->
  truthy (pp_barcode parsed_product) = true
  /\ pv_recordset product_vals
     = search_product false (w_db w) (pp_barcode parsed_product)
  /\ (exists seller_info,
         pv_seller_ids product_vals
         = Some (_prepare_supplierinfo date_today seller_info
                                       (pv_recordset product_vals)))
  /\ (exists product_active, pv_active product_vals = Some product_active)
  /\ w_db w' = w_db w
  /\ w_events w' = w_events w.
Proof.
  unfold _prepare_product.
  destruct (truthy (pp_barcode parsed_product)) eqn:Eb; cbn [negb].
  - unfold bind, get_world, with_chatter, ret. cbn [w_chatter upd_chatter].
    destruct (_match_uom _ _) as [msgs1 [uom|e1]]; [|discriminate].
    destruct (_match_currency _ _) as [msgs2 [currency|e2]]; [|discriminate].
    intros H. inversion H; subst. cbn.
    repeat split; eauto.
  - unfold bind, chatter_append, ret. discriminate.
Qed.

Lemma _create_update_product_update product_vals product supplierinfo w :
  pv_recordset product_vals = Some product ->
  pv_seller_ids product_vals = Some supplierinfo ->
  Forall supported supplierinfo ->
  exists w1,
    _create_update_product product_vals w = (w1, Ok (log_msg_of product))
    /\ w_events w1
       = w_events w
         ++ map (offer_event product) supplierinfo
         ++ [ProductWrite (pr_id product) (without_offers product_vals)].
Proof.
  intros Hr Hs Hsup. unfold _create_update_product. rewrite Hr, Hs.
  rewrite (bind_ok _ _ _ _ _ (write_supplierinfo_supported _ _ Hsup w)).
  unfold bind, orm, ret. cbn [w_db w_chatter w_events].
  eexists; split; [reflexivity|]. cbn [w_events]. now rewrite <- app_assoc.
Qed.

Lemma _create_update_product_create product_vals product_active w :
  pv_recordset product_vals = None ->
  pv_active product_vals = Some product_active ->
  let vals := without_active product_vals in
  let product := orm_created (w_db w) vals in
  exists w1,
    _create_update_product product_vals w = (w1, Ok (log_msg_of product))
    /\ w_events w1
       = w_events w
         ++ ProductCreate vals
            :: (if truthy product_active then []
                else [ProductFlush (pr_id product);
                      ProductArchive (pr_id product)]).
Proof.
  intros Hr Ha vals product. unfold _create_update_product.
  rewrite Hr, Ha. fold vals. unfold bind at 1, get_world.
  fold product. unfold bind at 1, orm at 1.
  destruct (truthy product_active); cbn [negb];
    unfold bind, orm, ret; cbn [w_db w_chatter w_events];
    eexists; (split; [reflexivity|]); cbn [w_events];
    rewrite <- ?app_assoc; reflexivity.
Qed.

End JobFacts.

Section JobProperties.
Context {env : Env}.
Local Open Scope py_scope.

(** C4 -- Barcode rejection.  A line whose barcode is falsy (the empty
    string, [None], [False]) makes [_prepare_product] return [False]
    ([None] here) after appending "Cannot import product without
    barcode: <the line>" to the message list; the database and the
    calls made are as before, and the job goes on with the next line
    without creating or updating anything. *)
Theorem barcode_rejection
        (product_company_id : oid) (parsed_product : ParsedProductLine)
        (seller : oid) (w : world) :
  truthy (pp_barcode parsed_product) = false ->
  let msg := ("Cannot import product without barcode: "
                ++ repr_line parsed_product)%string in
  let w' := upd_chatter w (w_chatter w ++ [msg]) in
  _prepare_product product_company_id parsed_product seller w = (w', Ok None)
  /\ w_db w' = w_db w
  /\ w_events w' = w_events w
  /\ (forall rest,
         create_update_each product_company_id seller
                            (Some parsed_product :: rest) w
         = create_update_each product_company_id seller rest w').
Proof.
  intros Hb msg w'.
  assert (Hprep : _prepare_product product_company_id parsed_product seller w
                  = (w', Ok None)).
  { unfold _prepare_product. rewrite Hb. reflexivity. }
  repeat split; [exact Hprep|].
  intros rest. cbn [create_update_each].
  rewrite (bind_ok _ _ _ _ _ Hprep). reflexivity.
Qed.

(** C8 -- Product matching.  The record that [_prepare_product] hands
    on is the first product of the table, archived ones included,
    whose barcode equals the line's; a record handed on always carries
    that barcode, and any line with the same barcode, whatever its name
    and code, gets the same record.  When a product, archived or not,
    carries the barcode, one is found and [_create_update_product]
    writes to it and creates no product; when none does, nothing is
    found and a product is created, none written. *)
Theorem product_matched_by_barcode
        (product_company_id : oid) (parsed_product : ParsedProductLine)
        (seller : oid) (w w' : world) (product_vals : product_vals_dict) :
  _prepare_product product_company_id parsed_product seller w
  = (w', Ok (Some product_vals)) ->
  let table := product_table (w_db w) in
  let barcode := pp_barcode parsed_product in
  pv_recordset product_vals
  = find (fun p => py_eq (pr_barcode p) barcode) table
  /\ (forall found,
         pv_recordset product_vals = Some found ->
         In found table /\ py_eq (pr_barcode found) barcode = true)
  /\ (forall other_line w'' other_vals,
         pp_barcode other_line = barcode ->
         _prepare_product product_company_id other_line seller w
         = (w'', Ok (Some other_vals)) ->
         pv_recordset other_vals = pv_recordset product_vals)
  /\ (forall p,
         In p table -> py_eq (pr_barcode p) barcode = true ->
         exists found,
           pv_recordset product_vals = Some found
           /\ In found table
           /\ py_eq (pr_barcode found) barcode = true
           /\ forall w0, exists w1 added,
               _create_update_product product_vals w0
               = (w1, Ok (log_msg_of found))
               /\ w_events w1 = w_events w0 ++ added
               /\ In (ProductWrite (pr_id found) (without_offers product_vals))
                     added
               /\ forall vals, ~ In (ProductCreate vals) added)
  /\ ((forall p, In p table -> py_eq (pr_barcode p) barcode = false) ->
      pv_recordset product_vals = None
      /\ forall w0, exists w1 added log_msg,
          _create_update_product product_vals w0 = (w1, Ok log_msg)
          /\ w_events w1 = w_events w0 ++ added
          /\ In (ProductCreate (without_active product_vals)) added
          /\ forall product vals, ~ In (ProductWrite product vals) added).
Proof.
  intros Hprep table barcode.
  apply _prepare_product_returns in Hprep
    as (Hb & Hrec & (seller_info & Hs) & (product_active & Ha) & _ & _).
  assert (Hfind : pv_recordset product_vals
                  = find (fun p => py_eq (pr_barcode p) barcode) table).
  { rewrite Hrec. unfold search_product. reflexivity. }
  split; [exact Hfind|]. split; [|split; [|split]].
  - intros found Hf. rewrite Hf in Hfind. symmetry in Hfind.
    apply find_some in Hfind. exact Hfind.
  - intros other_line w'' other_vals Hbar Hother.
    apply _prepare_product_returns in Hother as (_ & Hrec' & _).
    now rewrite Hrec', Hbar, Hrec.
  - intros p Hp Heq.
    destruct (find (fun p => py_eq (pr_barcode p) barcode) table)
      as [found|] eqn:F.
    + apply find_some in F as [Hin Hfound].
      exists found. repeat split; auto.
      intros w0.
      destruct (_create_update_product_update
                  product_vals found _ w0 Hfind Hs
                  (_prepare_supplierinfo_supported _ _ _))
        as (w1 & Hrun & Hev).
      eexists w1, _. split; [exact Hrun|]. split; [exact Hev|]. split.
      * apply in_app_iff. right. now left.
      * intros vals Hin'. apply in_app_iff in Hin' as [Hin'|[Hin'|[]]].
        -- apply in_map_iff in Hin' as ([[c l] v] & E & _).
           unfold offer_event in E. destruct (c =? 1); discriminate.
        -- discriminate.
    + apply (find_none _ _ F) in Hp. cbv beta in Hp. congruence.
  - intros Hnone.
    assert (Hn : pv_recordset product_vals = None).
    { rewrite Hfind.
      destruct (find (fun p => py_eq (pr_barcode p) barcode) table)
        as [found|] eqn:F; [|reflexivity].
      apply find_some in F as [Hin Hfound].
      rewrite (Hnone found Hin) in Hfound. discriminate. }
    split; [exact Hn|]. intros w0.
    destruct (_create_update_product_create product_vals product_active w0
                                            Hn Ha)
      as (w1 & Hrun & Hev).
    eexists w1, _, _. split; [exact Hrun|]. split; [exact Hev|]. split.
    + now left.
    + intros product vals [Hin|Hin]; [discriminate|].
      destruct (truthy product_active); cbn [In] in Hin;
        intuition discriminate.
Qed.

(** C10 -- Supported commands.  Every command that
    [_prepare_supplierinfo] returns is either [(1, id, {"date_end":
    yesterday})] for the id of an existing offer, or [(0, 0,
    seller_info)]; hence [_create_update_product], run on what
    [_prepare_product] returned, comes back with its log message and
    never raises the "Command ... not supported" error. *)
Theorem commands_supported
        (product_company_id : oid) (parsed_product : ParsedProductLine)
        (seller : oid) (w w' : world) (product_vals : product_vals_dict) :
  _prepare_product product_company_id parsed_product seller w
  = (w', Ok (Some product_vals)) ->
  (forall today seller_info product command line_id values,
      In (command, line_id, values)
         (_prepare_supplierinfo today seller_info product) ->
      (command = 1
       /\ (exists s_info, In s_info (existing_offers product)
                          /\ line_id = Z.pos (s_id s_info))
       /\ values = DateEndVals (today - 1))
      \/ (command = 0 /\ line_id = 0
          /\ values = SellerInfoVals (setdefault_date_start seller_info today)))
  /\ (forall w0,
         (exists w1 log_msg,
             _create_update_product product_vals w0 = (w1, Ok log_msg))
         /\ forall msg,
             snd (_create_update_product product_vals w0)
             <> Raise (RuntimeError msg)).
Proof.
  intros Hprep. split.
  - intros today seller_info product command line_id values Hin.
    apply in_result_cases in Hin as [(s & Hs & _ & E)|[E _]];
      inversion E; subst; [left|right]; repeat split; eauto.
  - apply _prepare_product_returns in Hprep
      as (_ & _ & (seller_info & Hs) & (product_active & Ha) & _ & _).
    intros w0.
    assert (Hok : exists w1 log_msg,
               _create_update_product product_vals w0 = (w1, Ok log_msg)).
    { destruct (pv_recordset product_vals) as [found|] eqn:Hr.
      - destruct (_create_update_product_update
                    product_vals found _ w0 Hr Hs
                    (_prepare_supplierinfo_supported _ _ _))
          as (w1 & Hrun & _). eauto.
      - destruct (_create_update_product_create product_vals product_active
                                                w0 Hr Ha)
          as (w1 & Hrun & _). eauto. }
    split; [exact Hok|].
    destruct Hok as (w1 & log_msg & ->). discriminate.
Qed.

(** C5 (as the code has it) -- Detection outcomes.  With a file name
    and a file whose decoded content is not empty, the onchange leaves
    the state as it is and: raises the user error "This XML file is
    not XML-compliant" when the content is not well-formed XML; raises
    the user error "Unsupported XML document" when the format parser
    rejects the document by raising [UserError] or
    [NotImplementedError]; returns the "Unsupported file format"
    warning, and raises nothing, when the format parser returns no
    document type.  The two error messages differ. *)
Theorem detection_outcomes
        (self : wizard) (w : world) (text : string) (data : list Byte.byte) :
  str_truthy (product_filename self) = true ->
  product_file self = Some text ->
  str_truthy text = true ->
  b64decode text = Ok data ->
  data <> [] ->
  (etree_fromstring data = None ->
   product_file_change self w
   = (w, Raise (UserError "This XML file is not XML-compliant")))
  /\ (forall root msg,
         etree_fromstring data = Some root ->
         self_parse_xml_catalogue (Some root) true = Raise (UserError msg)
         \/ self_parse_xml_catalogue (Some root) true
            = Raise (NotImplementedError msg) ->
         product_file_change self w
         = (w, Raise (UserError "Unsupported XML document")))
  /\ (forall root,
         etree_fromstring data = Some root ->
         self_parse_xml_catalogue (Some root) true = Ok ParsedNone ->
         product_file_change self w
         = (w, Ok (Some (_unsupported_file_msg (product_filename self)))))
  /\ "This XML file is not XML-compliant" <> "Unsupported XML document".
Proof.
  intros Hname Hfile Htext Hdec Hdata.
  assert (Hstart :
             product_file_change self w
             = (doc_type <- lift (_parse_file (product_filename self) data true) ;;
                match doc_type with
                | ParsedNone =>
                    ret (Some (_unsupported_file_msg (product_filename self)))
                | _ => ret None
                end) w).
  { unfold product_file_change.
    rewrite Hname, Hfile, Htext. cbn [negb orb].
    unfold bind at 1, lift at 1. cbn [b64decode_field]. now rewrite Hdec. }
  destruct data as [|b data]; [congruence|].
  split; [|split; [|split]].
  - intros Hxml. rewrite Hstart. unfold bind, lift, _parse_file, _parse_xml.
    now rewrite Hname, Hxml.
  - intros root msg Hxml Hrej. rewrite Hstart.
    unfold bind, lift, _parse_file, _parse_xml.
    rewrite Hname, Hxml. cbn [negb].
    destruct Hrej as [-> | ->]; reflexivity.
  - intros root Hxml Hnone. rewrite Hstart.
    unfold bind, lift, _parse_file, _parse_xml.
    rewrite Hname, Hxml. cbn [negb]. cbv beta iota zeta.
    rewrite !Hnone. reflexivity.
  - discriminate.
Qed.

End JobProperties.

(* ================================================================== *)
(** * The properties on actual input *)
(* ================================================================== *)

Module Runs.
Import Demo.

Ltac distinct_ids :=
  repeat (constructor; [simpl; intuition discriminate|]); constructor.

(** Peels the conjuncts that are among the hypotheses. *)
Ltac given := repeat (split; [assumption|]).

(** 85 products in chunks of 40: three jobs of 40, 40 and 5 lines. *)
Example trailing_partial_chunk :
  option_map (map (@List.length _))
             (dispatched_chunks line_truthy CHUNK_SIZE
                                (repeat (line "123" "Pen" 1) 85))
  = Some [40; 40; 5]%nat.
Proof. vm_compute. reflexivity. Qed.

Lemma import_button_chunking_witness :
  0 < 2
  /\ exists chunks,
      dispatched_chunks line_truthy 2 lines = Some chunks
      /\ Z.of_nat (List.length chunks) = 2
      /\ List.concat chunks = map Some lines.
Proof.
  split; [reflexivity|].
  destruct (import_button_chunking 2 lines eq_refl)
    as (chunks & H1 & _ & H2 & _ & _ & _ & H6).
  exists chunks. split; [exact H1|]. split; [|exact H6].
  rewrite H2. reflexivity.
Defined.

Lemma offer_termination_window_witness :
  let product := Some (pen [old_offer; foreign_offer; past_offer]) in
  In old_offer (existing_offers product)
  /\ same_seller candidate old_offer
  /\ company_in_scope candidate old_offer
  /\ not_ended_before a_day old_offer
  /\ identical candidate old_offer = false
  /\ In (1, 31, DateEndVals (a_day - 1))
        (_prepare_supplierinfo a_day candidate product)
  /\ nth_error (apply_writes (_prepare_supplierinfo a_day candidate product)
                             (existing_offers product)) 0
     = Some (with_date_end old_offer (a_day - 1))
  /\ exists created,
      In (0, 0, SellerInfoVals created)
         (_prepare_supplierinfo a_day candidate product)
      /\ si_date_start created = Some a_day.
Proof.
  intros product.
  assert (H1 : In old_offer (existing_offers product)) by (simpl; auto).
  assert (H2 : same_seller candidate old_offer) by reflexivity.
  assert (H3 : company_in_scope candidate old_offer) by (left; reflexivity).
  assert (H4 : not_ended_before a_day old_offer) by exact I.
  assert (H5 : identical candidate old_offer = false) by reflexivity.
  destruct (offer_termination_window a_day candidate product) as [Hend Hnew].
  given. destruct (Hend old_offer H1 H2 H3 H4 H5) as [Hcmd Hwritten].
  split; [exact Hcmd|]. split.
  - apply Hwritten. reflexivity.
  - destruct Hnew as (created & Hin & Hstart & _).
    + intros s [<-|[<-|[<-|[]]]] _ _ _; reflexivity.
    + exists created. split; assumption.
Defined.

Lemma reconcile_idempotent_witness :
  let offers := [old_offer; same_offer; foreign_offer; past_offer] in
  let result := _prepare_supplierinfo a_day candidate (Some (pen offers)) in
  NoDup (map s_id offers)
  /\ In same_offer offers
  /\ same_seller candidate same_offer
  /\ company_in_scope candidate same_offer
  /\ not_ended_before a_day same_offer
  /\ identical candidate same_offer = true
  /\ (forall command line_id values,
         In (command, line_id, values) result -> command <> 0)
  /\ (forall command values, ~ In (command, 32, values) result)
  /\ _prepare_supplierinfo (a_day + 1) candidate
                           (Some (pen (apply_writes result offers)))
     = [].
Proof.
  intros offers result.
  assert (H0 : NoDup (map s_id offers)) by distinct_ids.
  assert (H1 : In same_offer offers) by (simpl; auto).
  assert (H2 : same_seller candidate same_offer) by reflexivity.
  assert (H3 : company_in_scope candidate same_offer) by (left; reflexivity).
  assert (H4 : not_ended_before a_day same_offer) by exact I.
  assert (H5 : identical candidate same_offer = true) by reflexivity.
  destruct (reconcile_idempotent a_day candidate (Some (pen offers)))
    as [Hkeep Hagain].
  destruct (Hkeep same_offer H0 H1 H2 H3 H4 H5) as [Hnocreate Hnoend].
  given.
  apply (Hagain (a_day + 1) [] (pen (apply_writes result offers))).
  - unfold a_day. lia.
  - cbn [seller_ids pen existing_offers]. now rewrite app_nil_r.
  - constructor.
  - exists same_offer. split; [vm_compute; auto|].
    split; [reflexivity|]. split; [left; reflexivity|].
    split; [exact I|reflexivity].
Defined.

Lemma reconcile_scope_witness :
  let offers := [old_offer; same_offer; foreign_offer; past_offer] in
  let result := _prepare_supplierinfo a_day candidate (Some (pen offers)) in
  NoDup (map s_id offers)
  /\ In foreign_offer offers
  /\ s_name foreign_offer <> si_name candidate
  /\ (forall command values, ~ In (command, 33, values) result)
  /\ nth_error (apply_writes result offers) 2 = Some foreign_offer.
Proof.
  intros offers result.
  assert (H0 : NoDup (map s_id offers)) by distinct_ids.
  assert (H1 : In foreign_offer offers) by (simpl; auto).
  assert (H2 : s_name foreign_offer <> si_name candidate) by discriminate.
  destruct (reconcile_scope a_day candidate (Some (pen offers)))
    as (_ & _ & Hout).
  destruct (Hout foreign_offer H0 H1 (or_introl H2)) as [Hnone Hsame].
  given. apply Hsame. reflexivity.
Defined.

Lemma barcode_rejection_witness :
  let parsed_product := line "" "Ink" (3 # 1) in
  let w := @world_of demo_parse_xml_catalogue [pen [old_offer]] in
  truthy (pp_barcode parsed_product) = false
  /\ @_prepare_product demo_env None parsed_product (Some 7%positive) w
     = (upd_chatter w ["Cannot import product without barcode: {'name': 'Ink', ...}"],
        Ok None).
Proof.
  intros parsed_product w.
  assert (H : truthy (pp_barcode parsed_product) = false) by reflexivity.
  split; [exact H|].
  exact (proj1 (@barcode_rejection demo_env None parsed_product
                                   (Some 7%positive) w H)).
Defined.

Lemma detection_outcomes_witness :
  let self := wizard_of text_file in
  let data := list_byte_of_string "plain text" in
  str_truthy (product_filename self) = true
  /\ product_file self = Some text_file
  /\ str_truthy text_file = true
  /\ @b64decode demo_env text_file = Ok data
  /\ data <> []
  /\ @product_file_change demo_env self (world_of [])
     = (world_of [], Raise (UserError "This XML file is not XML-compliant")).
Proof.
  intros self data.
  assert (H1 : str_truthy (product_filename self) = true) by reflexivity.
  assert (H2 : product_file self = Some text_file) by reflexivity.
  assert (H3 : str_truthy text_file = true) by reflexivity.
  assert (H4 : @b64decode demo_env text_file = Ok data) by reflexivity.
  assert (H5 : data <> []) by discriminate.
  given.
  apply (@detection_outcomes demo_env self (world_of []) text_file data
                             H1 H2 H3 H4 H5).
  reflexivity.
Defined.

(** C5, as stated, fails: with the base module alone, a well-formed
    document of a format that no parser recognises does not yield the
    warning; the onchange raises a user error. *)
Lemma unsupported_format_raises :
  let self := wizard_of order_file in
  let w := @world_of (@parse_xml_catalogue _) [] in
  @etree_fromstring base_env (list_byte_of_string "<Order/>")
  = Some (list_byte_of_string "<Order/>")
  /\ (exists msg,
         @self_parse_xml_catalogue base_env
            (Some (list_byte_of_string "<Order/>")) true
         = Raise (NotImplementedError msg))
  /\ @product_file_change base_env self w
     = (w, Raise (UserError "Unsupported XML document"))
  /\ ~ (exists w' warn,
           @product_file_change base_env self w = (w', Ok (Some warn))).
Proof.
  intros self w. split; [reflexivity|]. split; [eexists; reflexivity|].
  assert (H : @product_file_change base_env self w
              = (w, Raise (UserError "Unsupported XML document")))
    by reflexivity.
  split; [exact H|].
  intros (w' & warn & H'). rewrite H in H'. discriminate.
Qed.

(** The warning is reached when the parser answers [None]. *)
Example silent_parser_warns :
  @product_file_change silent_env (wizard_of order_file) (world_of [])
  = (world_of [],
     Ok (Some {| title := "Unsupported file format";
                 message := "This file 'catalogue.xml' cannot be imported." |})).
Proof. reflexivity. Qed.

Lemma empty_catalogue_aborts_witness :
  let self := wizard_of empty_file in
  let w := @world_of demo_parse_xml_catalogue [] in
  let file_content := list_byte_of_string "<Catalogue/>" in
  let catalogue := parsed_catalogue [] empty_file in
  @b64decode_field demo_env (product_file self) = Ok file_content
  /\ @parse_product_catalogue demo_env file_content (product_filename self) w
     = (w, Ok catalogue)
  /\ cat_products catalogue = Some []
  /\ @import_button demo_env self CHUNK_SIZE w
     = (w, Raise (UserError "This catalogue doesn't have any product!")).
Proof.
  intros self w file_content catalogue.
  assert (H1 : @b64decode_field demo_env (product_file self) = Ok file_content)
    by reflexivity.
  assert (H2 : @parse_product_catalogue demo_env file_content
                                        (product_filename self) w
               = (w, Ok catalogue)) by reflexivity.
  assert (H3 : cat_products catalogue = Some []) by reflexivity.
  given.
  exact (proj1 (@empty_catalogue_aborts demo_env self CHUNK_SIZE w w
                  file_content catalogue H1 H2 (or_introl H3))).
Defined.

Lemma resolving_step_witness :
  let self := wizard_of full_file in
  let w := @world_of demo_parse_xml_catalogue [] in
  let file_content := list_byte_of_string "<Catalogue><Line/></Catalogue>" in
  let catalogue := parsed_catalogue lines full_file in
  let w2 := fst (@_get_company_id demo_env catalogue w) in
  let w3 := fst (@_get_seller demo_env catalogue w2) in
  @b64decode_field demo_env (product_file self) = Ok file_content
  /\ @parse_product_catalogue demo_env file_content (product_filename self) w
     = (w, Ok catalogue)
  /\ cat_products catalogue
     = Some (line "123" "Pen" (12 # 1)
               :: [line "" "Ink" (3 # 1); line "456" "Pad" (5 # 2)])
  /\ @_get_company_id demo_env catalogue w = (w2, Ok None)
  /\ @_get_seller demo_env catalogue w2 = (w3, Ok (Some vendor))
  /\ exists wf,
      @import_button demo_env self 2 w = (wf, Ok act_window_close)
      /\ w_events wf
         = w_events w3
           ++ map (fun products => JobEnqueued None products 7)
                  (chunks_of 2 lines)
           ++ [DocumentRecorded catalogue (w_chatter w3) (Some vendor)
                                "catalogue.xml"].
Proof.
  intros self w file_content catalogue w2 w3.
  assert (H1 : @b64decode_field demo_env (product_file self) = Ok file_content)
    by reflexivity.
  assert (H2 : @parse_product_catalogue demo_env file_content
                                        (product_filename self) w
               = (w, Ok catalogue)) by reflexivity.
  assert (H3 : cat_products catalogue
               = Some (line "123" "Pen" (12 # 1)
                         :: [line "" "Ink" (3 # 1); line "456" "Pad" (5 # 2)]))
    by reflexivity.
  assert (H4 : @_get_company_id demo_env catalogue w = (w2, Ok None))
    by reflexivity.
  assert (H5 : @_get_seller demo_env catalogue w2 = (w3, Ok (Some vendor)))
    by reflexivity.
  given.
  destruct (@resolving_step demo_env self 2 w w file_content catalogue
              _ _ H1 H2 H3) as (_ & _ & _ & Hrun & _).
  exact (Hrun w2 w3 vendor H4 H5).
Defined.

(** A seller that the resolver does not know stops the import: the error
    of the resolver comes out, and only the two resolver calls were
    made. *)
Example unknown_seller_aborts :
  @import_button stranger_env (wizard_of full_file) CHUNK_SIZE (world_of [])
  = (upd_events (world_of [])
                [PartnerMatched [("name", "A Stranger")] "supplier"],
     Raise (UserError "Odoo couldn't find any partner")).
Proof. reflexivity. Qed.

Lemma product_matched_by_barcode_witness :
  let parsed_product := line "123" "Pen" (12 # 1) in
  let w := @world_of demo_parse_xml_catalogue [pen [old_offer]] in
  @_prepare_product demo_env None parsed_product (Some 7%positive) w
  = (w, Ok (Some pen_vals))
  /\ pr_active (pen [old_offer]) = false
  /\ pv_recordset pen_vals = Some (pen [old_offer]).
Proof.
  intros parsed_product w.
  assert (H : @_prepare_product demo_env None parsed_product (Some 7%positive) w
              = (w, Ok (Some pen_vals))) by reflexivity.
  split; [exact H|]. split; [reflexivity|].
  destruct (@product_matched_by_barcode demo_env None parsed_product
              (Some 7%positive) w w pen_vals H) as (Hfind & _).
  rewrite Hfind. reflexivity.
Defined.

Lemma commands_supported_witness :
  let parsed_product := line "123" "Pen" (12 # 1) in
  let w := @world_of demo_parse_xml_catalogue [pen [old_offer]] in
  @_prepare_product demo_env None parsed_product (Some 7%positive) w
  = (w, Ok (Some pen_vals))
  /\ exists w1 log_msg,
      @_create_update_product demo_env pen_vals w = (w1, Ok log_msg).
Proof.
  intros parsed_product w.
  assert (H : @_prepare_product demo_env None parsed_product (Some 7%positive) w
              = (w, Ok (Some pen_vals))) by reflexivity.
  split; [exact H|].
  destruct (@commands_supported demo_env None parsed_product
              (Some 7%positive) w w pen_vals H) as (_ & Hrun).
  exact (proj1 (Hrun w)).
Defined.

End Runs.

(* ================================================================== *)
(** * Further properties: detection and parsing *)
(* ================================================================== *)

Section DetectionFacts.
Context {env : Env}.
Local Open Scope py_scope.

(** The outcomes of [_parse_xml], case by case. *)
Lemma _parse_xml_cases (data : list Byte.byte) :
  (data = [] /\ _parse_xml data = Ok (None, Some "No data provided"))
  \/ (data <> [] /\ etree_fromstring data = None
      /\ _parse_xml data = Ok (None, Some "This XML file is not XML-compliant"))
  \/ (exists root,
         data <> [] /\ etree_fromstring data = Some root
         /\ ((exists p, self_parse_xml_catalogue (Some root) true = Ok p
                        /\ _parse_xml data = Ok (Some root, None))
             \/ (exists msg,
                    (self_parse_xml_catalogue (Some root) true
                     = Raise (UserError msg)
                     \/ self_parse_xml_catalogue (Some root) true
                        = Raise (NotImplementedError msg))
                    /\ _parse_xml data
                       = Ok (Some root, Some "Unsupported XML document"))
             \/ (exists e,
                    self_parse_xml_catalogue (Some root) true = Raise e
                    /\ (forall msg, e <> UserError msg)
                    /\ (forall msg, e <> NotImplementedError msg)
                    /\ _parse_xml data = Raise e))).
Proof.
  unfold _parse_xml. destruct data as [|b data]; [left; auto|right].
  destruct (etree_fromstring (b :: data)) as [root|] eqn:Ex.
  - right. exists root. split; [discriminate|]. split; [reflexivity|].
    cbv beta iota zeta.
    destruct (self_parse_xml_catalogue (Some root) true) as [p|e] eqn:Ep.
    + left. eauto.
    + right. destruct e;
        try (left; eexists; split; [eauto|reflexivity]);
        right; eexists; (split; [reflexivity|]);
        (split; [discriminate|]); (split; [discriminate|reflexivity]).
  - left. split; [discriminate|]. split; reflexivity.
Qed.

(** [product_file_change] and [parse_product_catalogue] only read. *)
Lemma product_file_change_state self w w' r :
  product_file_change self w = (w', r) -> w' = w.
Proof.
  unfold product_file_change.
  destruct (negb (str_truthy (product_filename self)) || _).
  - unfold ret. now inversion 1.
  - unfold bind, lift, ret.
    destruct (b64decode_field (product_file self)) as [data|e];
      [|now inversion 1].
    destruct (_parse_file (product_filename self) data true) as [[| |c]|e];
      now inversion 1.
Qed.

End DetectionFacts.

Section DetectionProperties.
Context {env : Env}.
Local Open Scope py_scope.

(** X1 -- While [self.parse_xml_catalogue] is the base method, no file
    gets through [_parse_file]: it raises one of the two assertion
    errors, or the user error "This XML file is not XML-compliant", or
    the user error "Unsupported XML document"; [import_button] then
    raises as well and leaves the calls as they were. *)
Theorem base_parser_imports_nothing
        (filename : string) (filecontent : list Byte.byte)
        (detect_doc_type : bool) :
  (forall xml_root d,
      self_parse_xml_catalogue xml_root d = parse_xml_catalogue xml_root d) ->
  (exists e,
      _parse_file filename filecontent detect_doc_type = Raise e
      /\ (e = AssertionError "Missing filename"
          \/ e = AssertionError "Missing file content"
          \/ e = UserError "This XML file is not XML-compliant"
          \/ e = UserError "Unsupported XML document"))
  /\ (forall self chunk_size w,
         exists w' e,
           import_button self chunk_size w = (w', Raise e)
           /\ w_events w' = w_events w).
Proof.
  intros Hbase.
  assert (Hfile : forall filename filecontent detect_doc_type,
             exists e,
               _parse_file filename filecontent detect_doc_type = Raise e
               /\ (e = AssertionError "Missing filename"
                   \/ e = AssertionError "Missing file content"
                   \/ e = UserError "This XML file is not XML-compliant"
                   \/ e = UserError "Unsupported XML document")).
  { clear filename filecontent detect_doc_type.
    intros filename filecontent detect_doc_type. unfold _parse_file.
    destruct (str_truthy filename); cbn [negb]; [|eauto].
    destruct filecontent as [|b data]; [eauto 6|].
    unfold _parse_xml.
    destruct (etree_fromstring (b :: data)) as [root|]; cbv beta iota zeta.
    - rewrite Hbase. unfold parse_xml_catalogue. eauto 8.
    - eauto 8. }
  split; [apply Hfile|].
  intros self chunk_size w. unfold import_button, bind at 1, lift.
  destruct (b64decode_field (product_file self)) as [data|e]; [|eauto].
  unfold parse_product_catalogue, bind, lift.
  destruct (Hfile (product_filename self) data false) as (e & -> & _).
  eauto.
Qed.

(** X2 -- An exception of the format parser that is neither a
    [UserError] nor a [NotImplementedError] is not turned into a
    message: it comes out of [_parse_xml], of [_parse_file] and of the
    onchange as it is. *)
Theorem parser_failure_propagates
        (self : wizard) (w : world) (text : string)
        (filecontent : list Byte.byte) (detect_doc_type : bool)
        (root : xml) (e : exn) :
  str_truthy (product_filename self) = true ->
  product_file self = Some text ->
  str_truthy text = true ->
  b64decode text = Ok filecontent ->
  filecontent <> [] ->
  etree_fromstring filecontent = Some root ->
  self_parse_xml_catalogue (Some root) true = Raise e ->
  (forall msg, e <> UserError msg) ->
  (forall msg, e <> NotImplementedError msg) ->
  _parse_xml filecontent = Raise e
  /\ _parse_file (product_filename self) filecontent detect_doc_type = Raise e
  /\ product_file_change self w = (w, Raise e).
Proof.
  intros Hname Hfile Htext Hdec Hne Hxml Hparser Hu Hn.
  assert (Hx : _parse_xml filecontent = Raise e).
  { destruct (_parse_xml_cases filecontent)
      as [[E _]|[(_ & E & _)|(root' & _ & E & H)]]; try congruence.
    rewrite Hxml in E. inversion E; subst root'.
    destruct H as [(p & Hp & _)|[(msg & [Hp|Hp] & _)|(e' & Hp & _ & _ & H)]];
      rewrite Hparser in Hp; inversion Hp; subst.
    - exfalso. eapply Hu; reflexivity.
    - exfalso. eapply Hn; reflexivity.
    - exact H. }
  assert (Hf : forall d,
             _parse_file (product_filename self) filecontent d = Raise e).
  { intros d. unfold _parse_file. rewrite Hname, Hx. cbn [negb].
    destruct filecontent; [congruence|reflexivity]. }
  split; [exact Hx|]. split; [apply Hf|].
  unfold product_file_change. rewrite Hname, Hfile, Htext. cbn [negb orb].
  unfold bind, lift. cbn [b64decode_field]. now rewrite Hdec, Hf.
Qed.

(** X3 -- The onchange never changes the state, and it returns its
    warning only in one situation: file name and file are set, the
    content decodes to well-formed XML, and the format parser, asked for
    the document type, returns [None] without raising.  The warning is
    then the "Unsupported file format" message for that file name. *)
Theorem warning_only_from_silent_parser
        (self : wizard) (w w' : world) (r : result (option warning)) :
  product_file_change self w = (w', r) ->
  w' = w
  /\ forall warn,
      r = Ok (Some warn) ->
      warn = _unsupported_file_msg (product_filename self)
      /\ str_truthy (product_filename self) = true
      /\ exists text data root,
          product_file self = Some text
          /\ str_truthy text = true
          /\ b64decode text = Ok data
          /\ etree_fromstring data = Some root
          /\ self_parse_xml_catalogue (Some root) true = Ok ParsedNone.
Proof.
  intros Hrun. split; [eapply product_file_change_state; eauto|].
  intros warn ->. revert Hrun. unfold product_file_change.
  destruct (str_truthy (product_filename self)) eqn:Hname; cbn [negb orb];
    [|unfold ret; discriminate].
  destruct (product_file self) as [text|] eqn:Hfile; [|unfold ret; discriminate].
  destruct (str_truthy text) eqn:Htext; cbn [negb];
    [|unfold ret; discriminate].
  unfold bind, lift, ret. cbn [b64decode_field].
  destruct (b64decode text) as [data|e] eqn:Hdec; [|discriminate].
  unfold _parse_file. rewrite Hname. cbn [negb].
  destruct data as [|b data]; [discriminate|].
  destruct (_parse_xml_cases (b :: data))
    as [[E _]|[(_ & _ & ->)|(root & _ & Hxml & H)]];
    [discriminate|discriminate|].
  destruct H as [(p & Hp & ->)|[(msg & _ & ->)|(e & _ & _ & _ & ->)]];
    [|discriminate|discriminate].
  rewrite Hp. destruct p; inversion 1.
  split; [reflexivity|]. split; [reflexivity|].
  exists text, (b :: data), root. auto.
Qed.

(** X4 -- The onchange guards unset fields, the button does not.  With
    no file or no file name the onchange returns [None]; [import_button]
    raises instead: a [TypeError] of [b64decode] when the file is unset,
    the assertion "Missing filename" when the name is unset, the
    assertion "Missing file content" when the file decodes to nothing;
    the state is as before in each case. *)
Theorem unset_fields
        (self : wizard) (chunk_size : Z) (w : world) :
  (product_file self = None \/ product_filename self = "" ->
   product_file_change self w = (w, Ok None))
  /\ (product_file self = None ->
      exists msg, import_button self chunk_size w = (w, Raise (TypeError msg)))
  /\ (forall data,
         b64decode_field (product_file self) = Ok data ->
         product_filename self = "" ->
         import_button self chunk_size w
         = (w, Raise (AssertionError "Missing filename")))
  /\ (b64decode_field (product_file self) = Ok [] ->
      product_filename self <> "" ->
      import_button self chunk_size w
      = (w, Raise (AssertionError "Missing file content"))).
Proof.
  split; [|split; [|split]].
  - unfold product_file_change. intros [-> | ->].
    + now rewrite orb_true_r.
    + reflexivity.
  - intros Hf. unfold import_button, bind, lift. rewrite Hf.
    cbn [b64decode_field]. eauto.
  - intros data Hd Hn. unfold import_button, bind at 1, lift. rewrite Hd.
    unfold parse_product_catalogue, bind, lift, _parse_file. now rewrite Hn.
  - intros Hd Hn. unfold import_button, bind at 1, lift. rewrite Hd.
    unfold parse_product_catalogue, bind, lift, _parse_file.
    replace (str_truthy (product_filename self)) with true; [reflexivity|].
    symmetry. unfold str_truthy. apply negb_true_iff.
    apply String.eqb_neq. exact Hn.
Qed.

End DetectionProperties.


Lemma dict_get_set_same d k v : dict_get (dict_set d k v) k = Some v.
Proof.
  induction d as [|[k' v'] d IH]; simpl.
  - now rewrite String.eqb_refl.
  - destruct (String.eqb k k') eqn:E; simpl; rewrite ?String.eqb_refl, ?E;
      auto.
Qed.

Lemma dict_get_set_other d k v k0 :
  k0 <> k -> dict_get (dict_set d k v) k0 = dict_get d k0.
Proof.
  intros Hne. apply String.eqb_neq in Hne.
  induction d as [|[k' v'] d IH]; simpl.
  - now rewrite Hne.
  - destruct (String.eqb k k') eqn:E; simpl.
    + apply String.eqb_eq in E. subst k'. now rewrite Hne.
    + now rewrite IH.
Qed.

Section ParsingProperties.
Context {env : Env}.
Local Open Scope py_scope.

(** X5 -- What [parse_product_catalogue] adds.  When it returns, the
    format parser had returned a catalogue; products, seller and company
    are the parser's; [chatter_msg] is present (the parser's list, or an
    empty one) and is the list later calls append to; [attachments]
    holds the base64 of the file under the file name, and whatever the
    parser had put under other names; database and calls are as before. *)
Theorem parsed_catalogue_attachment
        (product_file : list Byte.byte) (product_filename : string)
        (w w' : world) (catalogue : catalogue_dict) :
  parse_product_catalogue product_file product_filename w = (w', Ok catalogue) ->
  exists parser_catalogue attachments,
    _parse_file product_filename product_file false
    = Ok (ParsedCatalogue parser_catalogue)
    /\ cat_products catalogue = cat_products parser_catalogue
    /\ cat_seller catalogue = cat_seller parser_catalogue
    /\ cat_company catalogue = cat_company parser_catalogue
    /\ cat_chatter_msg catalogue = Some (w_chatter w')
    /\ w_chatter w' = match cat_chatter_msg parser_catalogue with
                      | Some msgs => msgs
                      | None => []
                      end
    /\ cat_attachments catalogue = Some attachments
    /\ dict_get attachments product_filename = Some (b64encode product_file)
    /\ (forall other,
           other <> product_filename ->
           dict_get attachments other
           = dict_get (match cat_attachments parser_catalogue with
                       | Some a => a
                       | None => []
                       end) other)
    /\ w_db w' = w_db w
    /\ w_events w' = w_events w.
Proof.
  unfold parse_product_catalogue, bind, lift, set_chatter, ret, raise.
  destruct (_parse_file product_filename product_file false)
    as [[| |c]|e]; try discriminate.
  intros H. inversion H; subst. cbn.
  eexists c, _. repeat split.
  - apply dict_get_set_same.
  - intros other Hne. now apply dict_get_set_other.
Qed.

(** X6 -- A company id that [_get_company_id] returns always comes from
    the resolver: the catalogue names a company, the resolver, called
    for a contact that is a company and told not to raise, returned a
    partner, and the company search for that partner gave the id.  The
    database is not touched, and the only call recorded is that one
    resolution. *)
Theorem company_id_from_partner
        (catalogue : catalogue_dict) (w w' : world) (company_id : positive) :
  _get_company_id catalogue w = (w', Ok (Some company_id)) ->
  exists company_vals part,
    cat_company catalogue = Some company_vals
    /\ company_vals <> []
    /\ snd (_match_partner company_vals (w_chatter w) "contact"
                           (Some [("is_company", "=", PBool true)])
                           (Some false))
       = Ok (Some part)
    /\ res_company_search (partner_id part) = Some company_id
    /\ w_db w' = w_db w
    /\ w_events w' = w_events w ++ [PartnerMatched company_vals "contact"].
Proof.
  unfold _get_company_id.
  destruct (cat_company catalogue) as [[|kv rest]|];
    try (unfold ret; discriminate).
  unfold bind, emit, with_chatter, ret. cbn [w_chatter upd_events].
  destruct (_match_partner _ _ _ _ _) as [msgs [[part|]|e]] eqn:Hm;
    try discriminate.
  intros H. inversion H as [[Hw Hid]].
  exists (kv :: rest), part.
  split; [reflexivity|]. split; [discriminate|].
  split; [now rewrite Hm|]. repeat split.
Qed.

End ParsingProperties.

(* ================================================================== *)
(** * Further properties: the reconciler *)
(* ================================================================== *)

Lemma NoDup_map_filter {A B} (f : A -> B) (keep : A -> bool) (l : list A) :
  NoDup (map f l) -> NoDup (map f (filter keep l)).
Proof.
  induction l as [|a l IH]; simpl; intros Hnd; [constructor|].
  inversion Hnd as [|? ? Hnotin Hnd']; subst.
  destruct (keep a); simpl; [constructor|]; auto.
  intros Hin. apply Hnotin. apply in_map_iff in Hin as (x & E & Hx).
  apply filter_In in Hx as [Hx _]. rewrite <- E. now apply in_map.
Qed.

Lemma NoDup_line_ids (l : list supplierinfo) :
  NoDup (map s_id l) -> NoDup (map (fun s => Z.pos (s_id s)) l).
Proof.
  induction l as [|a l IH]; simpl; intros Hnd; [constructor|].
  inversion Hnd as [|? ? Hnotin Hnd']; subst. constructor; auto.
  intros Hin. apply Hnotin. apply in_map_iff in Hin as (x & E & Hx).
  injection E as E'. rewrite <- E'. now apply in_map.
Qed.

Lemma NoDup_snoc {A} (l : list A) (a : A) :
  NoDup l -> ~ In a l -> NoDup (l ++ [a]).
Proof.
  induction l as [|b l IH]; simpl; intros Hnd Hnotin.
  - constructor; [tauto|constructor].
  - inversion Hnd as [|? ? Hb Hnd']; subst. constructor.
    + rewrite in_app_iff. simpl. intuition congruence.
    + apply IH; tauto.
Qed.

(** X7 -- The shape of the reconciler's result: one update per offer
    that is in scope and differs from the candidate, in the order of the
    offers, then at most one create, which comes last; so the result is
    never longer than the offers plus one, and when the offers have
    distinct ids no line id occurs twice. *)
Theorem reconcile_result_shape
        (today : date) (seller_info : seller_info_dict)
        (product : option product_rec) :
  let offers := existing_offers product in
  let result := _prepare_supplierinfo today seller_info product in
  exists terminated tail,
    result
    = map (fun s_info => (1, Z.pos (s_id s_info), DateEndVals (today - 1)))
          terminated
      ++ tail
    /\ terminated = filter (conflicting today seller_info) offers
    /\ (tail = []
        \/ tail = [(0, 0, SellerInfoVals
                            (setdefault_date_start seller_info today))])
    /\ (List.length result <= S (List.length offers))%nat
    /\ (NoDup (map s_id offers) ->
        NoDup (map (fun c : command_tuple => snd (fst c)) result)).
Proof.
  intros offers result. subst offers result.
  rewrite _prepare_supplierinfo_eq.
  set (offers := existing_offers product).
  set (terminated := filter (conflicting today seller_info) offers).
  set (tail := if existsb (kept today seller_info) offers
               then [] else [creation today seller_info]).
  exists terminated, tail.
  assert (Htail : tail = [] \/ tail = [creation today seller_info])
    by (unfold tail; destruct (existsb _ _); auto).
  split; [reflexivity|]. split; [reflexivity|]. split; [exact Htail|]. split.
  - rewrite length_app, length_map.
    pose proof (filter_length_le (conflicting today seller_info) offers).
    fold terminated in H. destruct Htail as [-> | ->]; simpl; lia.
  - intros Hnd. rewrite map_app, map_map. cbn [termination fst snd].
    assert (Hz : NoDup (map (fun s => Z.pos (s_id s)) terminated))
      by (apply NoDup_line_ids; now apply NoDup_map_filter).
    destruct Htail as [-> | ->]; simpl.
    + now rewrite app_nil_r.
    + apply NoDup_snoc; [exact Hz|].
      intros Hin. apply in_map_iff in Hin as (s & E & _). discriminate.
Qed.

(** X8 -- Without a seller ([seller=None], so that the candidate's
    [name] is [False]), no offer that has a seller is in scope: nothing
    is ended, and the result is the one create. *)
Theorem reconcile_without_seller
        (today : date) (seller_info : seller_info_dict)
        (product : option product_rec) :
  si_name seller_info = None ->
  (forall s_info, In s_info (existing_offers product) -> s_name s_info <> None) ->
  _prepare_supplierinfo today seller_info product
  = [(0, 0, SellerInfoVals (setdefault_date_start seller_info today))].
Proof.
  intros Hnone Hnamed. rewrite _prepare_supplierinfo_eq.
  assert (Hout : forall s, In s (existing_offers product) ->
                           considered today seller_info s = false).
  { intros s Hs. apply considered_false. left. rewrite Hnone. now apply Hnamed. }
  rewrite filter_none
    by (intros s Hs; unfold conflicting; now rewrite (Hout s Hs)).
  replace (existsb (kept today seller_info) (existing_offers product))
    with false; [reflexivity|].
  symmetry. apply not_true_iff_false. intros E.
  apply existsb_exists in E as (s & Hs & Hk).
  unfold kept in Hk. rewrite (Hout s Hs) in Hk. discriminate.
Qed.

(** X9 -- Company scope is wider than identity.  An open offer of the
    candidate's seller that has no company is in scope of a candidate
    that has one, yet can never be identical to it (the companies
    differ): it is ended, whatever its other fields.  The other way
    round, an offer tied to a company is out of scope of a candidate
    without company: when the offers have distinct ids, no command
    names it. *)
Theorem global_offer_superseded
        (today : date) (seller_info : seller_info_dict)
        (product : option product_rec) (s_info : supplierinfo) :
  In s_info (existing_offers product) ->
  same_seller seller_info s_info ->
  not_ended_before today s_info ->
  (s_company_id s_info = None ->
   si_company_id seller_info <> None ->
   identical seller_info s_info = false
   /\ In (1, Z.pos (s_id s_info), DateEndVals (today - 1))
         (_prepare_supplierinfo today seller_info product))
  /\ (s_company_id s_info <> None ->
      si_company_id seller_info = None ->
      NoDup (map s_id (existing_offers product)) ->
      forall command values,
        ~ In (command, Z.pos (s_id s_info), values)
             (_prepare_supplierinfo today seller_info product)).
Proof.
  intros Hin Hs He. split.
  - intros Hglobal Hcompany.
    assert (Hid : identical seller_info s_info = false).
    { unfold identical. rewrite Hglobal.
      destruct (si_company_id seller_info); [|congruence].
      cbn [oid_eqb]. now rewrite andb_false_r. }
    split; [exact Hid|].
    apply (terminated_in_result today seller_info product s_info Hin).
    apply conflicting_true. repeat split; auto. now right.
  - intros Hcompany Hglobal Hnd command values Hc0.
    assert (Hout : considered today seller_info s_info = false).
    { apply considered_false. right; left. rewrite Hglobal. auto. }
    apply in_result_cases in Hc0 as [(t & Ht & Hconf & E)|[E _]].
    + inversion E as [[Ecmd Eid Evals]].
      assert (t = s_info).
      { apply (NoDup_map_eq s_id (existing_offers product)); auto;
          congruence. }
      subst t. unfold conflicting in Hconf. rewrite Hout in Hconf.
      discriminate.
    + inversion E.
Qed.

(* ================================================================== *)
(** * Further properties: the chunking *)
(* ================================================================== *)

Section ChunkingProperties.
Context {A : Type}.

Lemma padded_length (k : nat) (c : list A) :
  (List.length c <= k)%nat -> List.length (padded k c) = k.
Proof.
  intros H. unfold padded. rewrite length_app, length_map, repeat_length. lia.
Qed.

(** X10 -- What [zip_longest] yields on the aliased iterators.  For
    [n > 0] it comes to its end; every tuple has exactly [n] slots; the
    tuples are consecutive groups of the list, each followed by as many
    [None] as it lacks; every group has between 1 and [n] items and
    every group but the last has [n], so that only the last tuple can
    hold [None], and only at its end. *)
Theorem zip_longest_tuples (n : Z) (l : list A) :
  0 < n ->
  exists groups,
    Itertools.zip_longest_shared n l
    = Some (map (fun group =>
                   map Some group
                   ++ repeat None (Z.to_nat n - List.length group))
                groups)
    /\ List.concat groups = l
    /\ Forall (fun group => 1 <= Z.of_nat (List.length group) <= n) groups
    /\ (forall i, (S i < List.length groups)%nat ->
                  Z.of_nat (List.length (nth i groups [])) = n)
    /\ forall tuples,
        Itertools.zip_longest_shared n l = Some tuples ->
        Forall (fun tuple => Z.of_nat (List.length tuple) = n) tuples.
Proof.
  intros Hn. set (k := Z.to_nat n).
  assert (Hk : (0 < k)%nat) by (unfold k; lia).
  assert (Ek : Z.of_nat k = n) by (unfold k; lia).
  assert (Hrun : Itertools.zip_longest_shared n l
                 = Some (map (padded k) (partition k l))).
  { unfold Itertools.zip_longest_shared. fold k.
    destruct (Nat.eqb k 0) eqn:E; [apply Nat.eqb_eq in E; lia|].
    unfold partition. now rewrite zl_loop_partition by lia. }
  exists (partition k l). split; [exact Hrun|].
  split; [apply partition_fuel_concat; [exact Hk|lia]|].
  split.
  { eapply Forall_impl; [|apply (partition_fuel_sizes k Hk)].
    intros c Hc. cbv beta in Hc. lia. }
  split.
  { intros i Hi. unfold partition in *.
    rewrite partition_fuel_full by exact Hi. exact Ek. }
  intros tuples Ht. rewrite Hrun in Ht. inversion Ht; subst tuples.
  apply Forall_map.
  eapply Forall_impl; [|apply (partition_fuel_sizes k Hk)].
  intros c Hc. cbv beta in Hc. rewrite padded_length by lia. exact Ek.
Qed.

Variable truthy : A -> bool.




End ChunkingProperties.

(* ================================================================== *)
(** * Further properties: the job *)
(* ================================================================== *)

Section JobMoreFacts.
Context {env : Env}.
Local Open Scope py_scope.


Lemma _prepare_product_values product_company_id parsed_product seller
      w w' product_vals :
  _prepare_product product_company_id parsed_product seller w
  = (w', Ok (Some product_vals)) ->
  exists uom currency,
    let product :=
      search_product false (w_db w) (pp_barcode parsed_product) in
    product_vals
    = {| pv_active := Some (match pp_active parsed_product with
                            | Some a => a
                            | None => PBool true
                            end);
         pv_default_code := pp_code parsed_product;
         pv_barcode := pp_barcode parsed_product;
         pv_name := pp_name parsed_product;
         pv_description := pp_description parsed_product;
         pv_type := "product";
         pv_uom_id := uom;
         pv_uom_po_id := uom;
         pv_company_id := None;
         pv_seller_ids :=
           Some (_prepare_supplierinfo
                   date_today
                   (seller_info_of product_company_id parsed_product
                                   seller currency)
                   product);
         pv_recordset := product |}
    /\ truthy (pp_barcode parsed_product) = true.
Proof.
  unfold _prepare_product.
  destruct (truthy (pp_barcode parsed_product)) eqn:Eb; cbn [negb].
  - unfold bind, get_world, with_chatter, ret. cbn [w_chatter upd_chatter].
    destruct (_match_uom _ _) as [msgs1 [uom|e1]]; [|discriminate].
    destruct (_match_currency _ _) as [msgs2 [currency|e2]]; [|discriminate].
    intros H. inversion H; subst. exists uom, currency. split; reflexivity.
  - unfold bind, chatter_append, ret. discriminate.
Qed.

Lemma write_supplierinfo_stops product pre command line_id values post :
  Forall supported pre -> command <> 1 -> command <> 0 ->
  forall w,
    write_supplierinfo product (pre ++ (command, line_id, values) :: post) w
    = ({| w_db := run_events (map (offer_event product) pre) (w_db w);
          w_chatter := w_chatter w;
          w_events := w_events w ++ map (offer_event product) pre |},
       Raise (RuntimeError
                ("Command " ++ str_of_int command ++ " not supported")%string)).
Proof.
  intros Hpre H1 H0.
  induction Hpre as [|[[c l] v] rest Hc _ IH]; intros w.
  - cbn [app write_supplierinfo map run_events fold_left].
    apply Z.eqb_neq in H1, H0. rewrite H1, H0. unfold raise.
    rewrite app_nil_r. now destruct w.
  - cbn [app write_supplierinfo map offer_event].
    destruct Hc as [Hc|Hc]; cbn [fst] in Hc; subst c; cbn [Z.eqb Pos.eqb];
      unfold bind at 1, orm; rewrite IH;
      cbn [w_db w_chatter w_events run_events fold_left];
      now rewrite <- app_assoc.
Qed.

End JobMoreFacts.

Section JobMoreProperties.
Context {env : Env}.
Local Open Scope py_scope.

(** X12 -- Preparing a product only reads: whatever comes out (values,
    the rejection of a line without barcode, or the exception of a
    matcher), the database and the recorded calls are as before. *)
Theorem prepare_product_read_only
        (product_company_id : oid) (parsed_product : ParsedProductLine)
        (seller : oid) (w w' : world) (r : result (option product_vals_dict)) :
  _prepare_product product_company_id parsed_product seller w = (w', r) ->
  w_db w' = w_db w /\ w_events w' = w_events w.
Proof.
  unfold _prepare_product.
  destruct (truthy (pp_barcode parsed_product)); cbn [negb].
  - unfold bind, get_world, with_chatter, ret. cbn [w_chatter upd_chatter].
    destruct (_match_uom _ _) as [msgs1 [uom|e1]];
      [|intros H; inversion H; split; reflexivity].
    destruct (_match_currency _ _) as [msgs2 [currency|e2]];
      intros H; inversion H; split; reflexivity.
  - unfold bind, chatter_append, ret. intros H; inversion H; split; reflexivity.
Qed.

(** X13 -- What the prepared values always hold.  The product itself is
    company-agnostic ([company_id] is [False]) and of type "product";
    purchase unit and unit are the same; the barcode is the line's and
    is truthy; [active] is the line's, [True] when the line has none.
    Every offer that a command creates is the seller's, is tied to the
    company of the context, has the line's code, price and quantity, a
    delay of 0 when the line has none, and starts today.  For a barcode
    that no product carries, the commands are that one create. *)
Theorem product_vals_invariants
        (product_company_id : oid) (parsed_product : ParsedProductLine)
        (seller : oid) (w w' : world) (product_vals : product_vals_dict) :
  _prepare_product product_company_id parsed_product seller w
  = (w', Ok (Some product_vals)) ->
  pv_company_id product_vals = None
  /\ pv_type product_vals = "product"
  /\ pv_uom_po_id product_vals = pv_uom_id product_vals
  /\ pv_barcode product_vals = pp_barcode parsed_product
  /\ truthy (pv_barcode product_vals) = true
  /\ pv_active product_vals
     = Some (match pp_active parsed_product with
             | Some a => a
             | None => PBool true
             end)
  /\ (exists supplierinfo,
         pv_seller_ids product_vals = Some supplierinfo
         /\ (forall command line_id vals,
                In (command, line_id, SellerInfoVals vals) supplierinfo ->
                si_name vals = seller
                /\ si_company_id vals = product_company_id
                /\ si_product_code vals = pp_product_code parsed_product
                /\ si_price vals = pp_price parsed_product
                /\ si_min_qty vals = pp_min_qty parsed_product
                /\ si_delay vals = match pp_sale_delay parsed_product with
                                   | Some d => d
                                   | None => PInt 0
                                   end
                /\ si_date_start vals = Some date_today)
         /\ (pv_recordset product_vals = None ->
             exists vals, supplierinfo = [(0, 0, SellerInfoVals vals)])).
Proof.
  intros Hprep.
  apply _prepare_product_values in Hprep as (uom & currency & Hvals & Hb).
  cbv zeta in Hvals. subst product_vals. cbn.
  repeat (split; [first [reflexivity|exact Hb]|]).
  eexists. split; [reflexivity|]. split.
  - intros command line_id vals Hin.
    apply in_result_cases in Hin as [(s & _ & _ & E)|[E _]]; [inversion E|].
    unfold creation in E. inversion E as [[Ec El Ev]].
    unfold setdefault_date_start, seller_info_of. cbn. repeat split.
  - intros Hnone. rewrite Hnone. cbn. eauto.
Qed.

(** X14 -- A new product.  For a barcode that no product of the table
    carries, [_create_update_product] first creates the product, from
    values that have no [active] key and hold the one create command for
    the offer, and then, only when the line's [active] is falsy, flushes
    and archives the product it created; the log message names the id of
    that product. *)
Theorem new_product_calls
        (product_company_id : oid) (parsed_product : ParsedProductLine)
        (seller : oid) (w w' : world) (product_vals : product_vals_dict) :
  _prepare_product product_company_id parsed_product seller w
  = (w', Ok (Some product_vals)) ->
  (forall p, In p (product_table (w_db w)) ->
             py_eq (pr_barcode p) (pp_barcode parsed_product) = false) ->
  forall w0,
    let vals := without_active product_vals in
    let created := orm_created (w_db w0) vals in
    let product_active := match pp_active parsed_product with
                          | Some a => a
                          | None => PBool true
                          end in
    exists w1,
      _create_update_product product_vals w0
      = (w1, Ok ("Product created/updated " ++ str_of_id (pr_id created) ++ nl)%string)
      /\ w_events w1
         = w_events w0
           ++ ProductCreate vals
              :: (if truthy product_active then []
                  else [ProductFlush (pr_id created);
                        ProductArchive (pr_id created)])
      /\ pv_active vals = None
      /\ exists offer, pv_seller_ids vals = Some [(0, 0, SellerInfoVals offer)].
Proof.
  intros Hprep Hnone w0 vals created product_active.
  apply _prepare_product_values in Hprep as (uom & currency & Hvals & Hb).
  cbv zeta in Hvals.
  assert (Hsearch : search_product false (w_db w) (pp_barcode parsed_product)
                    = None).
  { unfold search_product.
    destruct (find _ (product_table (w_db w))) as [p|] eqn:F; [|reflexivity].
    apply find_some in F as [Hin Hp]. cbn [negb orb andb] in Hp.
    rewrite (Hnone p Hin) in Hp. discriminate. }
  rewrite Hsearch in Hvals.
  assert (Hr : pv_recordset product_vals = None) by (subst; reflexivity).
  assert (Ha : pv_active product_vals = Some product_active)
    by (subst; reflexivity).
  destruct (_create_update_product_create product_vals product_active w0 Hr Ha)
    as (w1 & Hrun & Hev).
  exists w1. split; [|split; [exact Hev|split]].
  - rewrite Hrun. reflexivity.
  - reflexivity.
  - subst product_vals vals. cbn. eauto.
Qed.

End JobMoreProperties.

Section JobRunProperties.
Context {env : Env}.
Local Open Scope py_scope.

(** X15 -- An existing product.  When a product carries the barcode,
    [_create_update_product] makes one ORM call per offer command, in
    the order of the commands (a write on the offer named, or a create
    tied to the product found), and after them one write on the
    product, with values that have neither [seller_ids] nor
    [recordset] but do carry [active]: the line's, or [True] when the
    line has none, so that an archived product is written active. *)
Theorem existing_product_calls
        (product_company_id : oid) (parsed_product : ParsedProductLine)
        (seller : oid) (w w' : world) (product_vals : product_vals_dict)
        (found : product_rec) :
  _prepare_product product_company_id parsed_product seller w
  = (w', Ok (Some product_vals)) ->
  pv_recordset product_vals = Some found ->
  exists supplierinfo,
    pv_seller_ids product_vals = Some supplierinfo
    /\ forall w0, exists w1,
        _create_update_product product_vals w0
        = (w1, Ok ("Product created/updated " ++ str_of_id (pr_id found) ++ nl)%string)
        /\ w_events w1
           = w_events w0
             ++ map (fun c : command_tuple =>
                       let '(command, line_id, values) := c in
                       if command =? 1 then OfferWrite line_id values
                       else OfferCreate values (pr_id found))
                    supplierinfo
             ++ [ProductWrite (pr_id found) (without_offers product_vals)]
        /\ pv_active (without_offers product_vals)
           = Some (match pp_active parsed_product with
                   | Some a => a
                   | None => PBool true
                   end)
        /\ pv_seller_ids (without_offers product_vals) = None
        /\ pv_recordset (without_offers product_vals) = None.
Proof.
  intros Hprep Hfound.
  apply _prepare_product_values in Hprep as (uom & currency & Hvals & Hb).
  cbv zeta in Hvals.
  eexists. split; [subst product_vals; reflexivity|].
  intros w0.
  destruct (_create_update_product_update
              product_vals found _ w0 Hfound
              ltac:(subst product_vals; reflexivity)
              (_prepare_supplierinfo_supported _ _ _))
    as (w1 & Hrun & Hev).
  exists w1. split; [rewrite Hrun; reflexivity|].
  split; [exact Hev|]. subst product_vals. repeat split.
Qed.

(** X16 -- An unsupported command.  When the commands of an existing
    product hold one whose tag is neither 1 nor 0, the calls for the
    commands before it are made, then [RuntimeError("Command <tag> not
    supported")] is raised: the commands after it and the write on the
    product are not reached. *)
Theorem unsupported_command_raises
        (product_vals : product_vals_dict) (product : product_rec)
        (pre post : list command_tuple)
        (command line_id : Z) (values : values_dict) (w : world) :
  pv_recordset product_vals = Some product ->
  pv_seller_ids product_vals = Some (pre ++ (command, line_id, values) :: post) ->
  Forall (fun c : command_tuple => fst (fst c) = 1 \/ fst (fst c) = 0) pre ->
  command <> 1 ->
  command <> 0 ->
  exists w1,
    _create_update_product product_vals w
    = (w1, Raise (RuntimeError
                    ("Command " ++ str_of_int command ++ " not supported")%string))
    /\ w_events w1
       = w_events w
         ++ map (fun c : command_tuple =>
                   let '(command, line_id, values) := c in
                   if command =? 1 then OfferWrite line_id values
                   else OfferCreate values (pr_id product))
                pre.
Proof.
  intros Hr Hs Hpre H1 H0. unfold _create_update_product. rewrite Hr, Hs.
  rewrite (bind_raise _ _ _ _ _
             (write_supplierinfo_stops product pre command line_id values post
                                       Hpre H1 H0 w)).
  eexists. split; reflexivity.
Qed.


Lemma create_update_each_rejected product_company_id seller lines :
  Forall (fun l => truthy (pp_barcode l) = false) lines ->
  forall w,
    create_update_each product_company_id seller (map Some lines) w
    = (upd_chatter w (w_chatter w ++ map rejection lines), Ok tt).
Proof.
  induction 1 as [|l lines Hl _ IH]; intros w.
  - simpl. unfold ret, upd_chatter. rewrite app_nil_r. now destruct w.
  - cbn [map create_update_each]. unfold bind at 1, _prepare_product.
    rewrite Hl. cbn [negb]. unfold bind at 1, chatter_append, ret.
    unfold bind at 1. rewrite IH. unfold upd_chatter.
    cbn [w_db w_chatter w_events]. fold (rejection l).
    now rewrite <- app_assoc.
Qed.

(** X17 -- A chunk of lines that all lack a barcode.  The job writes
    nothing and raises nothing; it returns the rejection messages, one
    per line and in the order of the lines, joined by newlines, whatever
    the message list held before. *)
Theorem barcodeless_chunk
        (product_company_id : oid) (lines : list ParsedProductLine)
        (seller_id : oid) (w : world) :
  Forall (fun l => truthy (pp_barcode l) = false) lines ->
  let log_msgs :=
    map (fun l => ("Cannot import product without barcode: "
                     ++ repr_line l)%string) lines in
  _create_update_products product_company_id (map Some lines) seller_id w
  = (upd_chatter w log_msgs, Ok (String.concat nl log_msgs)).
Proof.
  intros Hl log_msgs. unfold _create_update_products.
  unfold bind at 1, set_chatter.
  rewrite (bind_ok _ _ _ _ _
             (create_update_each_rejected product_company_id seller_id lines
                                          Hl (upd_chatter w []))).
  unfold bind, get_world, ret, upd_chatter. cbn [w_db w_chatter w_events app].
  reflexivity.
Qed.

(** X18 -- The loop of the job over two lists in a row is the loop over
    the first followed, when that raised nothing, by the loop over the
    second from the state it left; an exception in the first keeps the
    second from running. *)
Theorem create_update_each_app
        (product_company_id seller : oid)
        (first second : list (option ParsedProductLine)) (w : world) :
  create_update_each product_company_id seller (first ++ second) w
  = match create_update_each product_company_id seller first w with
    | (w1, Ok _) => create_update_each product_company_id seller second w1
    | (w1, Raise e) => (w1, Raise e)
    end.
Proof.
  revert w. induction first as [|[l|] first IH]; intros w.
  - reflexivity.
  - cbn [app create_update_each]. unfold bind.
    destruct (_prepare_product product_company_id l seller w)
      as [w1 [[vals|]|e]]; [| |reflexivity].
    + destruct (_create_update_product vals w1) as [w2 [msg|e]];
        [|reflexivity].
      unfold chatter_append. apply IH.
    + unfold ret. apply IH.
  - reflexivity.
Qed.

(** X19 -- A line whose unit or currency the resolver refuses.  Unlike
    a missing barcode, an exception of [_match_uom] or of
    [_match_currency] is not caught: it comes out of [_prepare_product]
    and ends the loop of the job; nothing has been written for the
    line, and the lines after it are not looked at. *)
Theorem unmatched_reference_aborts_chunk
        (product_company_id : oid) (parsed_product : ParsedProductLine)
        (seller : oid) (rest : list (option ParsedProductLine))
        (w : world) (e : exn) :
  truthy (pp_barcode parsed_product) = true ->
  (forall msgs,
      _match_uom (pp_uom parsed_product) (w_chatter w) = (msgs, Raise e) ->
      create_update_each product_company_id seller
                         (Some parsed_product :: rest) w
      = (upd_chatter w msgs, Raise e))
  /\ (forall msgs1 uom msgs2,
         _match_uom (pp_uom parsed_product) (w_chatter w) = (msgs1, Ok uom) ->
         _match_currency (pp_currency parsed_product) msgs1 = (msgs2, Raise e) ->
         create_update_each product_company_id seller
                            (Some parsed_product :: rest) w
         = (upd_chatter w msgs2, Raise e)).
Proof.
  intros Hb. split.
  - intros msgs Hu. cbn [create_update_each].
    unfold bind at 1, _prepare_product. rewrite Hb. cbn [negb].
    unfold bind, get_world, with_chatter. now rewrite Hu.
  - intros msgs1 uom msgs2 Hu Hc. cbn [create_update_each].
    unfold bind at 1, _prepare_product. rewrite Hb. cbn [negb].
    unfold bind, get_world, with_chatter. rewrite Hu.
    cbn [w_chatter upd_chatter]. now rewrite Hc.
Qed.

End JobRunProperties.

(* ================================================================== *)
(** * Further properties: the orchestrator *)
(* ================================================================== *)

Section OrchestratorMoreProperties.
Context {env : Env}.
Local Open Scope py_scope.

Lemma enqueued_jobs_app l1 l2 :
  enqueued_jobs (l1 ++ l2) = enqueued_jobs l1 ++ enqueued_jobs l2.
Proof. apply filter_app. Qed.

Lemma enqueued_jobs_all company_id seller_id chunks :
  enqueued_jobs (map (fun products =>
                        JobEnqueued company_id products seller_id) chunks)
  = map (fun products => JobEnqueued company_id products seller_id) chunks.
Proof.
  unfold enqueued_jobs. induction chunks as [|c chunks IH]; simpl; congruence.
Qed.

Lemma resolution_jobs catalogue w1 w2 w3 r2 r3 :
  _get_company_id catalogue w1 = (w2, r2) ->
  _get_seller catalogue w2 = (w3, r3) ->
  enqueued_jobs (w_events w3) = enqueued_jobs (w_events w1).
Proof.
  intros Hc Hs. rewrite (_get_seller_events _ _ _ _ Hs), enqueued_jobs_app.
  cbn. rewrite app_nil_r. apply import_effects_jobs.
  exact (_get_company_id_events _ _ _ _ Hc).
Qed.

(** X20 -- Scheduling is all or nothing.  When [import_button] raises,
    whatever the reason (decoding, parsing, an empty catalogue, the
    company or the seller resolution), it has enqueued no job.  When it
    returns, it has enqueued one job per chunk of the catalogue's
    products, in order, every one with the same company and the id of
    the resolved seller, and the last call it made records the
    document. *)
Theorem scheduling_all_or_nothing
        (self : wizard) (chunk_size : Z) (w wf : world) (r : result action) :
  import_button self chunk_size w = (wf, r) ->
  match r with
  | Raise _ => enqueued_jobs (w_events wf) = enqueued_jobs (w_events w)
  | Ok _ =>
      exists catalogue products company_id seller chatter_msg,
        cat_products catalogue = Some products
        /\ products <> []
        /\ enqueued_jobs (w_events wf)
           = enqueued_jobs (w_events w)
             ++ map (fun chunk =>
                       JobEnqueued company_id chunk (partner_id seller))
                    (chunks_of chunk_size products)
        /\ exists before,
            w_events wf
            = before ++ [DocumentRecorded catalogue chatter_msg (Some seller)
                                          (product_filename self)]
  end.
Proof.
  intros Hrun.
  destruct (b64decode_field (product_file self)) as [file_content|e0] eqn:Hd.
  2:{ unfold import_button, bind, lift in Hrun. rewrite Hd in Hrun.
      inversion Hrun; subst. reflexivity. }
  destruct (parse_product_catalogue file_content (product_filename self) w)
    as [w1 [catalogue|e1]] eqn:Hp.
  2:{ pose proof (parse_product_catalogue_events _ _ _ _ _ Hp) as Hev.
      unfold import_button in Hrun.
      rewrite (bind_ok _ _ w w file_content) in Hrun
        by (unfold lift; now rewrite Hd).
      rewrite (bind_raise _ _ _ _ _ Hp) in Hrun.
      inversion Hrun; subst. now rewrite Hev. }
  pose proof (parse_product_catalogue_events _ _ _ _ _ Hp) as Hev1.
  destruct (cat_products catalogue) as [[|p ps]|] eqn:Hprod.
  1,3: rewrite (import_button_parsed self chunk_size w w1 file_content
                  catalogue Hd Hp), Hprod in Hrun;
       inversion Hrun; subst; now rewrite Hev1.
  destruct (_get_company_id catalogue w1) as [w2 [company_id|e2]] eqn:Hc.
  2:{ rewrite (import_button_company_raises self chunk_size w w1 file_content
                 catalogue Hd Hp p ps w2 e2 Hprod Hc) in Hrun.
      inversion Hrun; subst. rewrite <- Hev1. apply import_effects_jobs.
      exact (_get_company_id_events _ _ _ _ Hc). }
  destruct (_get_seller catalogue w2) as [w3 [[seller|]|e3]] eqn:Hs.
  - rewrite (import_button_resolved self chunk_size w w1 file_content
               catalogue Hd Hp p ps w2 w3 company_id seller Hprod Hc Hs)
      in Hrun.
    inversion Hrun; subst.
    exists catalogue, (p :: ps), company_id, seller, (w_chatter w3).
    split; [exact Hprod|]. split; [discriminate|]. split.
    + cbn [w_events upd_events]. rewrite !enqueued_jobs_app.
      rewrite (resolution_jobs _ _ _ _ _ _ Hc Hs), Hev1, enqueued_jobs_all.
      cbn. now rewrite app_nil_r.
    + cbn [w_events upd_events]. rewrite app_assoc. eauto.
  - destruct (import_button_seller_none self chunk_size w w1 file_content
                catalogue Hd Hp p ps w2 w3 company_id Hprod Hc Hs)
      as (wf' & e & Hrun' & Hev).
    rewrite Hrun' in Hrun. inversion Hrun; subst.
    rewrite <- Hev1, <- (resolution_jobs _ _ _ _ _ _ Hc Hs).
    destruct Hev as [-> | ->]; [reflexivity|].
    rewrite enqueued_jobs_app. cbn. now rewrite app_nil_r.
  - rewrite (import_button_seller_raises self chunk_size w w1 file_content
               catalogue Hd Hp p ps w2 w3 company_id e3 Hprod Hc Hs) in Hrun.
    inversion Hrun; subst.
    now rewrite <- Hev1, <- (resolution_jobs _ _ _ _ _ _ Hc Hs).
Qed.

(** X21 -- A chunk size of zero or less.  [[iter(products)] * chunk_size]
    is then the empty list and [zip_longest] yields nothing: whatever the
    products, there is no chunk, and with the seller resolved
    [import_button] returns normally after recording the document,
    without having enqueued any job. *)
Theorem nonpositive_chunk_size
        (self : wizard) (chunk_size : Z) (w w1 w2 w3 : world)
        (file_content : list Byte.byte) (catalogue : catalogue_dict)
        (p : ParsedProductLine) (ps : list ParsedProductLine)
        (company_id : oid) (seller : partner) :
  chunk_size <= 0 ->
  b64decode_field (product_file self) = Ok file_content ->
  parse_product_catalogue file_content (product_filename self) w
  = (w1, Ok catalogue) ->
  cat_products catalogue = Some (p :: ps) ->
  _get_company_id catalogue w1 = (w2, Ok company_id) ->
  _get_seller catalogue w2 = (w3, Ok (Some seller)) ->
  (forall products, chunks_of chunk_size products = [])
  /\ import_button self chunk_size w
     = (upd_events w3
          (w_events w3
           ++ [DocumentRecorded catalogue (w_chatter w3) (Some seller)
                                (product_filename self)]),
        Ok act_window_close)
  /\ enqueued_jobs
       (w_events (fst (import_button self chunk_size w)))
     = enqueued_jobs (w_events w).
Proof.
  intros Hsize Hd Hp Hprod Hc Hs.
  assert (Hnone : forall products, chunks_of chunk_size products = []).
  { intros products.
    unfold chunks_of, dispatched_chunks, Itertools.zip_longest_shared.
    replace (Z.to_nat chunk_size) with 0%nat by lia. reflexivity. }
  assert (Hrun := import_button_resolved self chunk_size w w1 file_content
                    catalogue Hd Hp p ps w2 w3 company_id seller Hprod Hc Hs).
  rewrite Hnone in Hrun. cbn [map app] in Hrun.
  split; [exact Hnone|]. split; [exact Hrun|].
  rewrite Hrun. cbn [fst w_events upd_events].
  rewrite enqueued_jobs_app. cbn. rewrite app_nil_r.
  rewrite (resolution_jobs _ _ _ _ _ _ Hc Hs).
  now rewrite (parse_product_catalogue_events _ _ _ _ _ Hp).
Qed.

End OrchestratorMoreProperties.

(* ================================================================== *)
(** * Further runs *)
(* ================================================================== *)


Module MoreRuns.
Import Demo MoreDemo.

Ltac given := repeat (split; [assumption|]).

Lemma base_parser_imports_nothing_witness :
  (forall xml_root d,
      @self_parse_xml_catalogue base_env xml_root d
      = parse_xml_catalogue xml_root d)
  /\ exists e,
      @_parse_file base_env "catalogue.xml"
                   (list_byte_of_string "<Catalogue/>") false
      = Raise e.
Proof.
  assert (H : forall xml_root d,
             @self_parse_xml_catalogue base_env xml_root d
             = parse_xml_catalogue xml_root d) by reflexivity.
  split; [exact H|].
  destruct (proj1 (@base_parser_imports_nothing
                     base_env "catalogue.xml"
                     (list_byte_of_string "<Catalogue/>") false H))
    as (e & He & _).
  exists e. exact He.
Defined.

Lemma parser_failure_propagates_witness :
  let self := wizard_of order_file in
  let w := @world_of (fun _ _ => Raise (KeyError "ID")) [] in
  let filecontent := list_byte_of_string "<Order/>" in
  str_truthy (product_filename self) = true
  /\ product_file self = Some order_file
  /\ str_truthy order_file = true
  /\ @b64decode broken_env order_file = Ok filecontent
  /\ filecontent <> []
  /\ @etree_fromstring broken_env filecontent = Some filecontent
  /\ @self_parse_xml_catalogue broken_env (Some filecontent) true
     = Raise (KeyError "ID")
  /\ (forall msg, KeyError "ID" <> UserError msg)
  /\ (forall msg, KeyError "ID" <> NotImplementedError msg)
  /\ @product_file_change broken_env self w = (w, Raise (KeyError "ID")).
Proof.
  intros self w filecontent.
  assert (H1 : str_truthy (product_filename self) = true) by reflexivity.
  assert (H2 : product_file self = Some order_file) by reflexivity.
  assert (H3 : str_truthy order_file = true) by reflexivity.
  assert (H4 : @b64decode broken_env order_file = Ok filecontent)
    by reflexivity.
  assert (H5 : filecontent <> []) by discriminate.
  assert (H6 : @etree_fromstring broken_env filecontent = Some filecontent)
    by reflexivity.
  assert (H7 : @self_parse_xml_catalogue broken_env (Some filecontent) true
               = Raise (KeyError "ID")) by reflexivity.
  assert (H8 : forall msg, KeyError "ID" <> UserError msg) by discriminate.
  assert (H9 : forall msg, KeyError "ID" <> NotImplementedError msg)
    by discriminate.
  given.
  exact (proj2 (proj2 (@parser_failure_propagates
                         broken_env self w order_file filecontent true
                         filecontent (KeyError "ID")
                         H1 H2 H3 H4 H5 H6 H7 H8 H9))).
Defined.

Lemma warning_only_from_silent_parser_witness :
  let self := wizard_of order_file in
  let w := @world_of silent_parse_xml_catalogue [] in
  let warn := {| title := "Unsupported file format";
                 message := "This file 'catalogue.xml' cannot be imported." |} in
  @product_file_change silent_env self w = (w, Ok (Some warn))
  /\ exists text data root,
      product_file self = Some text
      /\ str_truthy text = true
      /\ @b64decode silent_env text = Ok data
      /\ @etree_fromstring silent_env data = Some root
      /\ @self_parse_xml_catalogue silent_env (Some root) true = Ok ParsedNone.
Proof.
  intros self w warn.
  assert (H : @product_file_change silent_env self w = (w, Ok (Some warn)))
    by reflexivity.
  split; [exact H|].
  destruct (@warning_only_from_silent_parser silent_env self w w _ H)
    as [_ Hwarn].
  destruct (Hwarn warn eq_refl) as (_ & _ & Hex). exact Hex.
Defined.

Lemma parsed_catalogue_attachment_witness :
  let w := @world_of demo_parse_xml_catalogue [] in
  let file := list_byte_of_string "<Catalogue><Line/></Catalogue>" in
  let catalogue := parsed_catalogue lines full_file in
  @parse_product_catalogue demo_env file "catalogue.xml" w = (w, Ok catalogue)
  /\ exists attachments,
      cat_attachments catalogue = Some attachments
      /\ dict_get attachments "catalogue.xml" = Some full_file.
Proof.
  intros w file catalogue.
  assert (H : @parse_product_catalogue demo_env file "catalogue.xml" w
              = (w, Ok catalogue)) by reflexivity.
  split; [exact H|].
  destruct (@parsed_catalogue_attachment demo_env file "catalogue.xml"
              w w catalogue H)
    as (raw & attachments & _ & _ & _ & _ & _ & _ & Ha & Hg & _).
  exists attachments. split; [exact Ha|exact Hg].
Defined.

Lemma company_id_from_partner_witness :
  let w := world_at company_env [] in
  @_get_company_id company_env own_company_catalogue w
  = (fst (@_get_company_id company_env own_company_catalogue w),
     Ok (Some 3%positive))
  /\ exists company_vals part,
      cat_company own_company_catalogue = Some company_vals
      /\ @res_company_search company_env (partner_id part) = Some 3%positive.
Proof.
  intros w.
  assert (H : @_get_company_id company_env own_company_catalogue w
              = (fst (@_get_company_id company_env own_company_catalogue w),
                 Ok (Some 3%positive))) by reflexivity.
  split; [exact H|].
  destruct (@company_id_from_partner company_env own_company_catalogue
              w _ 3%positive H)
    as (company_vals & part & Hc & _ & _ & Hs & _).
  exists company_vals, part. split; assumption.
Defined.

Lemma reconcile_without_seller_witness :
  let product := Some (pen [old_offer; foreign_offer; past_offer]) in
  si_name nobody's_candidate = None
  /\ (forall s_info,
         In s_info (existing_offers product) -> s_name s_info <> None)
  /\ List.length (_prepare_supplierinfo a_day nobody's_candidate product)
     = 1%nat.
Proof.
  intros product.
  assert (H1 : si_name nobody's_candidate = None) by reflexivity.
  assert (H2 : forall s_info,
             In s_info (existing_offers product) -> s_name s_info <> None)
    by (intros s [<-|[<-|[<-|[]]]]; discriminate).
  given.
  rewrite (reconcile_without_seller a_day nobody's_candidate product H1 H2).
  reflexivity.
Defined.

Lemma global_offer_superseded_witness :
  let product := Some (pen [old_offer; foreign_offer]) in
  In old_offer (existing_offers product)
  /\ same_seller company_candidate old_offer
  /\ not_ended_before a_day old_offer
  /\ s_company_id old_offer = None
  /\ si_company_id company_candidate <> None
  /\ py_eq (s_price old_offer) (si_price company_candidate) = true
  /\ In (1, 31, DateEndVals (a_day - 1))
        (_prepare_supplierinfo a_day company_candidate product).
Proof.
  intros product.
  assert (H1 : In old_offer (existing_offers product)) by (simpl; auto).
  assert (H2 : same_seller company_candidate old_offer) by reflexivity.
  assert (H3 : not_ended_before a_day old_offer) by exact I.
  assert (H4 : s_company_id old_offer = None) by reflexivity.
  assert (H5 : si_company_id company_candidate <> None) by discriminate.
  assert (H6 : py_eq (s_price old_offer) (si_price company_candidate) = true)
    by reflexivity.
  given.
  exact (proj2 (proj1 (global_offer_superseded a_day company_candidate product
                                               old_offer H1 H2 H3) H4 H5)).
Defined.

Lemma zip_longest_tuples_witness :
  0 < 2
  /\ Itertools.zip_longest_shared 2 [1; 2; 3]%nat
     = Some [[Some 1; Some 2]; [Some 3; None]]%nat
  /\ forall tuples,
      Itertools.zip_longest_shared 2 [1; 2; 3]%nat = Some tuples ->
      Forall (fun tuple => Z.of_nat (List.length tuple) = 2) tuples.
Proof.
  split; [reflexivity|]. split; [reflexivity|].
  destruct (zip_longest_tuples 2 [1; 2; 3]%nat eq_refl)
    as (groups & _ & _ & _ & _ & Hwidth).
  exact Hwidth.
Defined.


Lemma prepare_product_read_only_witness :
  let parsed_product := line "" "Ink" (3 # 1) in
  let w := @world_of demo_parse_xml_catalogue [pen [old_offer]] in
  let w' := fst (@_prepare_product demo_env None parsed_product
                                   (Some 7%positive) w) in
  @_prepare_product demo_env None parsed_product (Some 7%positive) w
  = (w', Ok None)
  /\ w_chatter w' <> w_chatter w
  /\ w_db w' = w_db w
  /\ w_events w' = w_events w.
Proof.
  intros parsed_product w w'.
  assert (H : @_prepare_product demo_env None parsed_product
                                (Some 7%positive) w
              = (w', Ok None)) by reflexivity.
  split; [exact H|]. split; [discriminate|].
  exact (@prepare_product_read_only demo_env None parsed_product
           (Some 7%positive) w w' (Ok None) H).
Defined.

Lemma product_vals_invariants_witness :
  let parsed_product := line "123" "Pen" (12 # 1) in
  let w := @world_of demo_parse_xml_catalogue [pen [old_offer]] in
  @_prepare_product demo_env None parsed_product (Some 7%positive) w
  = (w, Ok (Some pen_vals))
  /\ pv_company_id pen_vals = None
  /\ pv_uom_po_id pen_vals = pv_uom_id pen_vals
  /\ pv_active pen_vals = Some (PBool true).
Proof.
  intros parsed_product w.
  assert (H : @_prepare_product demo_env None parsed_product (Some 7%positive) w
              = (w, Ok (Some pen_vals))) by reflexivity.
  split; [exact H|].
  destruct (@product_vals_invariants demo_env None parsed_product
              (Some 7%positive) w w pen_vals H)
    as (Hc & _ & Hu & _ & _ & Ha & _).
  split; [exact Hc|]. split; [exact Hu|exact Ha].
Defined.

Lemma new_product_calls_witness :
  let parsed_product := line "456" "Pad" (5 # 2) in
  let w := @world_of demo_parse_xml_catalogue [pen [old_offer]] in
  @_prepare_product demo_env None parsed_product (Some 7%positive) w
  = (w, Ok (Some pad_vals))
  /\ (forall p, In p (@product_table demo_env (w_db w)) ->
                py_eq (pr_barcode p) (pp_barcode parsed_product) = false)
  /\ exists w1 log_msg,
      @_create_update_product demo_env pad_vals w = (w1, Ok log_msg)
      /\ w_events w1 = [ProductCreate (without_active pad_vals)].
Proof.
  intros parsed_product w.
  assert (H1 : @_prepare_product demo_env None parsed_product
                                 (Some 7%positive) w
               = (w, Ok (Some pad_vals))) by reflexivity.
  assert (H2 : forall p, In p (@product_table demo_env (w_db w)) ->
                         py_eq (pr_barcode p) (pp_barcode parsed_product)
                         = false)
    by (intros p [<-|[]]; reflexivity).
  given.
  destruct (@new_product_calls demo_env None parsed_product (Some 7%positive)
              w w pad_vals H1 H2 w)
    as (w1 & Hrun & Hev & _).
  exists w1. eexists. split; [exact Hrun|exact Hev].
Defined.

Lemma existing_product_calls_witness :
  let parsed_product := line "123" "Pen" (12 # 1) in
  let w := @world_of demo_parse_xml_catalogue [pen [old_offer]] in
  @_prepare_product demo_env None parsed_product (Some 7%positive) w
  = (w, Ok (Some pen_vals))
  /\ pv_recordset pen_vals = Some (pen [old_offer])
  /\ exists w1 log_msg offer,
      @_create_update_product demo_env pen_vals w = (w1, Ok log_msg)
      /\ w_events w1
         = [OfferWrite 31 (DateEndVals (a_day - 1));
            OfferCreate offer 5;
            ProductWrite 5 (without_offers pen_vals)].
Proof.
  intros parsed_product w.
  assert (H1 : @_prepare_product demo_env None parsed_product
                                 (Some 7%positive) w
               = (w, Ok (Some pen_vals))) by reflexivity.
  assert (H2 : pv_recordset pen_vals = Some (pen [old_offer])) by reflexivity.
  given.
  destruct (@existing_product_calls demo_env None parsed_product
              (Some 7%positive) w w pen_vals (pen [old_offer]) H1 H2)
    as (supplierinfo & Hs & Hrun).
  injection Hs as <-.
  destruct (Hrun w) as (w1 & Hrun1 & Hev & _).
  exists w1. do 2 eexists. split; [exact Hrun1|exact Hev].
Defined.

Lemma unsupported_command_raises_witness :
  let w := @world_of demo_parse_xml_catalogue [pen [old_offer]] in
  let pre := [(1, 31, DateEndVals (a_day - 1))] in
  pv_recordset odd_vals = Some (pen [old_offer])
  /\ pv_seller_ids odd_vals = Some (pre ++ (2, 31, DateEndVals a_day) :: [])
  /\ Forall (fun c : command_tuple => fst (fst c) = 1 \/ fst (fst c) = 0) pre
  /\ 2 <> 1
  /\ 2 <> 0
  /\ exists w1,
      @_create_update_product demo_env odd_vals w
      = (w1, Raise (RuntimeError "Command 2 not supported"))
      /\ w_events w1 = [OfferWrite 31 (DateEndVals (a_day - 1))].
Proof.
  intros w pre.
  assert (H1 : pv_recordset odd_vals = Some (pen [old_offer])) by reflexivity.
  assert (H2 : pv_seller_ids odd_vals
               = Some (pre ++ (2, 31, DateEndVals a_day) :: []))
    by reflexivity.
  assert (H3 : Forall (fun c : command_tuple =>
                         fst (fst c) = 1 \/ fst (fst c) = 0) pre)
    by (repeat constructor).
  assert (H4 : 2 <> 1) by lia.
  assert (H5 : 2 <> 0) by lia.
  given.
  exact (@unsupported_command_raises demo_env odd_vals (pen [old_offer])
           pre [] 2 31 (DateEndVals a_day) w H1 H2 H3 H4 H5).
Defined.

Lemma barcodeless_chunk_witness :
  let chunk := [line "" "Ink" (3 # 1); line "" "Glue" (4 # 1)] in
  let w := @world_of demo_parse_xml_catalogue [pen [old_offer]] in
  Forall (fun l => truthy (pp_barcode l) = false) chunk
  /\ exists log_msgs,
      List.length log_msgs = 2%nat
      /\ @_create_update_products demo_env None (map Some chunk)
                                  (Some 7%positive) w
         = (upd_chatter w log_msgs, Ok (String.concat nl log_msgs)).
Proof.
  intros chunk w.
  assert (H : Forall (fun l => truthy (pp_barcode l) = false) chunk)
    by (repeat constructor).
  split; [exact H|].
  eexists. split;
    [|exact (@barcodeless_chunk demo_env None chunk (Some 7%positive) w H)].
  reflexivity.
Defined.

Lemma unmatched_reference_aborts_chunk_witness :
  let parsed_product := line "123" "Pen" (12 # 1) in
  let w := world_at no_units_env [pen [old_offer]] in
  truthy (pp_barcode parsed_product) = true
  /\ @create_update_each no_units_env None (Some 7%positive)
                         [Some parsed_product; Some (line "456" "Pad" (5 # 2))]
                         w
     = (w, Raise (UserError "Unknown unit")).
Proof.
  intros parsed_product w.
  assert (H : truthy (pp_barcode parsed_product) = true) by reflexivity.
  split; [exact H|].
  exact (proj1 (@unmatched_reference_aborts_chunk
                  no_units_env None parsed_product (Some 7%positive)
                  [Some (line "456" "Pad" (5 # 2))] w
                  (UserError "Unknown unit") H)
               [] eq_refl).
Defined.

Lemma scheduling_all_or_nothing_witness :
  let self := wizard_of full_file in
  let w := @world_of demo_parse_xml_catalogue [] in
  let wf := fst (@import_button demo_env self 2 w) in
  @import_button demo_env self 2 w = (wf, Ok act_window_close)
  /\ exists catalogue products company_id seller chatter_msg,
      cat_products catalogue = Some products
      /\ products <> []
      /\ enqueued_jobs (w_events wf)
         = enqueued_jobs (w_events w)
           ++ map (fun chunk =>
                     JobEnqueued company_id chunk (partner_id seller))
                  (chunks_of 2 products)
      /\ exists before,
          w_events wf
          = before ++ [DocumentRecorded catalogue chatter_msg (Some seller)
                                        (product_filename self)].
Proof.
  intros self w wf.
  assert (H : @import_button demo_env self 2 w = (wf, Ok act_window_close))
    by reflexivity.
  split; [exact H|].
  exact (@scheduling_all_or_nothing demo_env self 2 w wf
           (Ok act_window_close) H).
Defined.

Lemma nonpositive_chunk_size_witness :
  let self := wizard_of full_file in
  let w := @world_of demo_parse_xml_catalogue [] in
  let file_content := list_byte_of_string "<Catalogue><Line/></Catalogue>" in
  let catalogue := parsed_catalogue lines full_file in
  let w2 := fst (@_get_company_id demo_env catalogue w) in
  let w3 := fst (@_get_seller demo_env catalogue w2) in
  0 <= 0
  /\ @b64decode_field demo_env (product_file self) = Ok file_content
  /\ @parse_product_catalogue demo_env file_content (product_filename self) w
     = (w, Ok catalogue)
  /\ cat_products catalogue
     = Some (line "123" "Pen" (12 # 1)
               :: [line "" "Ink" (3 # 1); line "456" "Pad" (5 # 2)])
  /\ @_get_company_id demo_env catalogue w = (w2, Ok None)
  /\ @_get_seller demo_env catalogue w2 = (w3, Ok (Some vendor))
  /\ @import_button demo_env self 0 w
     = (upd_events w3
          (w_events w3
           ++ [DocumentRecorded catalogue (w_chatter w3) (Some vendor)
                                (product_filename self)]),
        Ok act_window_close).
Proof.
  intros self w file_content catalogue w2 w3.
  assert (H0 : 0 <= 0) by lia.
  assert (H1 : @b64decode_field demo_env (product_file self) = Ok file_content)
    by reflexivity.
  assert (H2 : @parse_product_catalogue demo_env file_content
                                        (product_filename self) w
               = (w, Ok catalogue)) by reflexivity.
  assert (H3 : cat_products catalogue
               = Some (line "123" "Pen" (12 # 1)
                         :: [line "" "Ink" (3 # 1); line "456" "Pad" (5 # 2)]))
    by reflexivity.
  assert (H4 : @_get_company_id demo_env catalogue w = (w2, Ok None))
    by reflexivity.
  assert (H5 : @_get_seller demo_env catalogue w2 = (w3, Ok (Some vendor)))
    by reflexivity.
  given.
  exact (proj1 (proj2 (@nonpositive_chunk_size
                         demo_env self 0 w w w2 w3 file_content catalogue
                         _ _ None vendor H0 H1 H2 H3 H4 H5))).
Defined.

End MoreRuns.
